(** * The framebuffer of the RGB LED matrix driver (lib/framebuffer.cc)

    A shallow embedding of [rgb_matrix::internal::Framebuffer]: the
    CIE1931 luminance table, the bit-plane store with its mutators, the
    GPIO initialisation and the refresh pass [DumpToMatrix], followed by
    the properties of these functions.

    Conventions.
    - C [int] values are [Z]; signed overflow is undefined in C++ and is
      not modelled.  Conversions to [uint8_t] and [uint16_t] are written
      out as [mod 2^8] and [mod 2^16].
    - An [IoBits0]/[IoBits1] union is its [raw] 32-bit word, a [Z]; a bit
      field is read with [Z.testbit] and assigned with [Z.setbit] or
      [Z.clearbit] at the position the pin-out gives to the field.  The
      header that declares the unions (framebuffer-internal.h) is not part
      of the sources at hand, so the position of every field is a
      parameter ([Pinout]).  A default-constructed [IoBits] has [raw = 0].
    - The preprocessor switches are the booleans of [BuildFlags].
    - [float] and [double] values are exact rationals that are rounded to
      24 and 53 significant bits (round to nearest, ties to even) after
      every operation, as IEEE 754 arithmetic does away from overflow and
      underflow. *)

From Stdlib Require Import ZArith QArith Qround Bool List Lia.
From stdpp Require Import base list.

Local Open Scope Z_scope.

(** ** Binary floating point *)

Module Float.

(** [scaled_exponent n d] is [floor (log2 (n / d))] for positive [n], [d]. *)
Definition scaled_exponent (n d : Z) : Z :=
  let e0 := Z.log2 n - Z.log2 d in
  if 0 <=? e0
  then (if d * 2 ^ e0 <=? n then e0 else e0 - 1)
  else (if d <=? n * 2 ^ (- e0) then e0 else e0 - 1).

(** Nearest integer to [n / d], ties to even ([0 <= n], [0 < d]). *)
Definition nearest_even (n d : Z) : Z :=
  let f := n / d in
  let r := n mod d in
  if 2 * r <? d then f
  else if d <? 2 * r then f + 1
  else if Z.even f then f else f + 1.

(** Round [q] to [prec] significant bits. *)
Definition round (prec : Z) (q : Q) : Q :=
  let n := Qnum q in
  let d := Zpos (Qden q) in
  if n =? 0 then 0%Q
  else
    let m := Z.abs n in
    let s := prec - 1 - scaled_exponent m d in
    let k := if 0 <=? s then nearest_even (m * 2 ^ s) d
             else nearest_even m (d * 2 ^ (- s)) in
    let k := Z.sgn n * k in
    if 0 <=? s then Qmake k (Z.to_pos (2 ^ s))
    else Qmake (k * 2 ^ (- s)) 1.

Definition f32 : Q -> Q := round 24.
Definition f64 : Q -> Q := round 53.

(** Conversion of a non-negative floating value to an unsigned integer
    type truncates. *)
Definition to_uint16 (q : Q) : Z := Qfloor q mod 2 ^ 16.

(** [pow] of <math.h> is not part of the sources; it is taken as the
    correctly rounded power, for a natural exponent. *)
Definition pow (x : Q) (n : positive) : Q := f64 (Qpower_positive x n).

End Float.

(** ** Constants *)

Definition kBitPlanes : Z := 11.
Definition kBaseTimeNanos : Z := 130.

(** Iteration of [for (i = lo; i < hi; ++i)], given as the list of the
    values [i] takes. *)
Definition range (lo hi : Z) : list Z :=
  map (fun k => lo + Z.of_nat k) (seq 0 (Z.to_nat (hi - lo))).

(** ** Luminance correction *)

(** [luminance_cie1931 c brightness] with the divisor of the linear toe as
    a parameter; the code has 902.3. *)
Definition luminance_with (toe : Q) (c brightness : Z) : Z :=
  let out_factor : Q := Float.f32 (inject_Z ((1 ≪ kBitPlanes) - 1)) in
  let v : Q :=
    Float.f32 (Float.f64 (Float.f32 (inject_Z c * inject_Z brightness)
                          / Float.f64 (inject_Z 255))) in
  Float.to_uint16
    (Float.f64 (out_factor *
       (if Qle_bool v (inject_Z 8)
        then Float.f64 (v / Float.f64 toe)
        else Float.pow (Float.f64 (Float.f32 (v + inject_Z 16)
                                   / Float.f64 (inject_Z 116))) 3))).

Definition luminance_cie1931 (c brightness : Z) : Z :=
  luminance_with (9023 # 10) c brightness.

(** The table [result[i * 100 + j] = luminance_cie1931(i, j + 1)]. *)
Definition CreateLuminanceCIE1931LookupTable (_ : unit) : list Z :=
  flat_map (fun i => map (fun j => luminance_cie1931 i (j + 1)) (range 0 100))
           (range 0 256).

(** The curve as the specification words it, in exact arithmetic:
    [x = c * v / 255], [L = (2^K - 1) * (x / 903.3)] for [x <= 8] and
    [(2^K - 1) * ((x + 16) / 116)^3] otherwise, truncated. *)
Definition cie1931_curve (c v : Z) : Z :=
  let x : Q := (inject_Z c * inject_Z v / inject_Z 255)%Q in
  Qfloor (inject_Z (2 ^ kBitPlanes - 1) *
          (if Qle_bool x (inject_Z 8) then x / (9033 # 10)
           else Qpower_positive ((x + inject_Z 16) / inject_Z 116) 3)).

(** ** Build options *)

Record BuildFlags := {
  ONLY_SINGLE_CHAIN : bool;
  RGB_SWAP_GREEN_BLUE : bool;
  ONLY_SINGLE_SUB_PANEL : bool;
  CM_5_CHAIN_SUPPORT : bool;
  PI_REV1_RGB_PINOUT_ : bool;
  INVERSE_RGB_DISPLAY_COLORS : bool }.

Definition PANEL_SWAP_G_B_ (flags : BuildFlags) : bool :=
  RGB_SWAP_GREEN_BLUE flags.

Definition SUB_PANELS_ (flags : BuildFlags) : Z :=
  if ONLY_SINGLE_SUB_PANEL flags then 1 else 2.

(** ** IO words *)

Module IoBits0.
Inductive field :=
| output_enable | clock | strobe
| a | b | c | d | e
| p0_r1 | p0_g1 | p0_b1 | p0_r2 | p0_g2 | p0_b2
| p1_r1 | p1_g1 | p1_b1 | p1_r2 | p1_g2 | p1_b2
| p2_r1 | p2_g1 | p2_b1 | p2_r2 | p2_g2 | p2_b2
| output_enable_rev1 | output_enable_rev2 | clock_rev1 | clock_rev2.

Definition all : list field :=
  [ output_enable; clock; strobe; a; b; c; d; e;
    p0_r1; p0_g1; p0_b1; p0_r2; p0_g2; p0_b2;
    p1_r1; p1_g1; p1_b1; p1_r2; p1_g2; p1_b2;
    p2_r1; p2_g1; p2_b1; p2_r2; p2_g2; p2_b2;
    output_enable_rev1; output_enable_rev2; clock_rev1; clock_rev2 ].
End IoBits0.

Module IoBits1.
Inductive field :=
| p3_r1 | p3_g1 | p3_b1 | p3_r2 | p3_g2 | p3_b2
| p4_r1 | p4_g1 | p4_b1 | p4_r2 | p4_g2 | p4_b2.

Definition all : list field :=
  [ p3_r1; p3_g1; p3_b1; p3_r2; p3_g2; p3_b2;
    p4_r1; p4_g1; p4_b1; p4_r2; p4_g2; p4_b2 ].
End IoBits1.

(** The bit position of every field within its 32-bit word. *)
Record Pinout := {
  bit0 : IoBits0.field -> Z;
  bit1 : IoBits1.field -> Z }.

Fixpoint distinct (l : list Z) : bool :=
  match l with
  | [] => true
  | x :: l' => negb (existsb (Z.eqb x) l') && distinct l'
  end.

Definition in_word (z : Z) : bool := (0 <=? z) && (z <? 32).

(** A pin-out is a layout of one-bit fields: every field within the word,
    no two fields of a word on the same bit. *)
Definition pinout_ok (po : Pinout) : bool :=
  forallb in_word (map (bit0 po) IoBits0.all)
  && distinct (map (bit0 po) IoBits0.all)
  && forallb in_word (map (bit1 po) IoBits1.all)
  && distinct (map (bit1 po) IoBits1.all).

(** Assignment [w.bits.f = v] to the one-bit field at position [pos]. *)
Definition assign_bit (raw pos : Z) (v : bool) : Z :=
  if v then Z.setbit raw pos else Z.clearbit raw pos.

(** A pin-out to run the definitions on. *)
Definition sample_pinout : Pinout :=
  {| bit0 := fun f =>
       match f with
       | IoBits0.output_enable => 18 | IoBits0.clock => 17
       | IoBits0.strobe => 4
       | IoBits0.a => 22 | IoBits0.b => 23 | IoBits0.c => 24
       | IoBits0.d => 25 | IoBits0.e => 15
       | IoBits0.p0_r1 => 11 | IoBits0.p0_g1 => 27 | IoBits0.p0_b1 => 7
       | IoBits0.p0_r2 => 8 | IoBits0.p0_g2 => 9 | IoBits0.p0_b2 => 10
       | IoBits0.p1_r1 => 12 | IoBits0.p1_g1 => 5 | IoBits0.p1_b1 => 6
       | IoBits0.p1_r2 => 19 | IoBits0.p1_g2 => 13 | IoBits0.p1_b2 => 20
       | IoBits0.p2_r1 => 14 | IoBits0.p2_g1 => 2 | IoBits0.p2_b1 => 3
       | IoBits0.p2_r2 => 26 | IoBits0.p2_g2 => 16 | IoBits0.p2_b2 => 21
       | IoBits0.output_enable_rev1 => 0 | IoBits0.output_enable_rev2 => 28
       | IoBits0.clock_rev1 => 1 | IoBits0.clock_rev2 => 29
       end;
     bit1 := fun f =>
       match f with
       | IoBits1.p3_r1 => 0 | IoBits1.p3_g1 => 1 | IoBits1.p3_b1 => 2
       | IoBits1.p3_r2 => 3 | IoBits1.p3_g2 => 4 | IoBits1.p3_b2 => 5
       | IoBits1.p4_r1 => 6 | IoBits1.p4_g1 => 7 | IoBits1.p4_b1 => 8
       | IoBits1.p4_r2 => 9 | IoBits1.p4_g2 => 10 | IoBits1.p4_b2 => 11
       end |}.

(** The build with no option defined. *)
Definition default_flags : BuildFlags :=
  {| ONLY_SINGLE_CHAIN := false; RGB_SWAP_GREEN_BLUE := false;
     ONLY_SINGLE_SUB_PANEL := false; CM_5_CHAIN_SUPPORT := false;
     PI_REV1_RGB_PINOUT_ := false; INVERSE_RGB_DISPLAY_COLORS := false |}.

(** ** The framebuffer object *)

Record Framebuffer := {
  rows_ : Z;
  parallel_ : Z;
  height_ : Z;
  columns_ : Z;
  pwm_bits_ : Z;
  do_luminance_correct_ : bool;
  brightness_ : Z;
  double_rows_ : Z;
  row_mask_ : Z;
  bitplane_buffer_0 : list Z;
  bitplane_buffer_1 : list Z }.

Definition with_pwm_bits (fb : Framebuffer) (v : Z) : Framebuffer :=
  {| rows_ := rows_ fb; parallel_ := parallel_ fb; height_ := height_ fb;
     columns_ := columns_ fb; pwm_bits_ := v;
     do_luminance_correct_ := do_luminance_correct_ fb;
     brightness_ := brightness_ fb; double_rows_ := double_rows_ fb;
     row_mask_ := row_mask_ fb;
     bitplane_buffer_0 := bitplane_buffer_0 fb;
     bitplane_buffer_1 := bitplane_buffer_1 fb |}.

Definition with_brightness (fb : Framebuffer) (v : Z) : Framebuffer :=
  {| rows_ := rows_ fb; parallel_ := parallel_ fb; height_ := height_ fb;
     columns_ := columns_ fb; pwm_bits_ := pwm_bits_ fb;
     do_luminance_correct_ := do_luminance_correct_ fb;
     brightness_ := v; double_rows_ := double_rows_ fb;
     row_mask_ := row_mask_ fb;
     bitplane_buffer_0 := bitplane_buffer_0 fb;
     bitplane_buffer_1 := bitplane_buffer_1 fb |}.

Definition with_buffers (fb : Framebuffer) (buf0 buf1 : list Z)
  : Framebuffer :=
  {| rows_ := rows_ fb; parallel_ := parallel_ fb; height_ := height_ fb;
     columns_ := columns_ fb; pwm_bits_ := pwm_bits_ fb;
     do_luminance_correct_ := do_luminance_correct_ fb;
     brightness_ := brightness_ fb; double_rows_ := double_rows_ fb;
     row_mask_ := row_mask_ fb;
     bitplane_buffer_0 := buf0; bitplane_buffer_1 := buf1 |}.

(** [*p] and [p->raw = w] for a pointer [p] into a buffer, given as the
    index of the element.  Outside the array both are undefined in C++;
    here a read yields 0 and a write does nothing. *)
Definition deref (buf : list Z) (p : Z) : Z :=
  if p <? 0 then 0 else default 0 (buf !! Z.to_nat p).

Definition store (buf : list Z) (p : Z) (w : Z) : list Z :=
  if p <? 0 then buf else <[Z.to_nat p := w]> buf.

(** [ValueAt_0] and [ValueAt_1]: the index of the word of
    (double_row, column, bit). *)
Definition ValueAt (fb : Framebuffer) (double_row column bit : Z) : Z :=
  double_row * (columns_ fb * kBitPlanes) + bit * columns_ fb + column.

Section Code.

Variable flags : BuildFlags.
Variable po : Pinout.

Definition set0 (raw : Z) (f : IoBits0.field) (v : bool) : Z :=
  assign_bit raw (bit0 po f) v.

Definition set1 (raw : Z) (f : IoBits1.field) (v : bool) : Z :=
  assign_bit raw (bit1 po f) v.

Definition get0 (raw : Z) (f : IoBits0.field) : bool :=
  Z.testbit raw (bit0 po f).

Definition get1 (raw : Z) (f : IoBits1.field) : bool :=
  Z.testbit raw (bit1 po f).

(** [w.bits.f1 = w.bits.f2 = ... = v] *)
Definition set0_all (raw : Z) (fs : list IoBits0.field) (v : bool) : Z :=
  fold_left (fun w f => set0 w f v) fs raw.

Definition set1_all (raw : Z) (fs : list IoBits1.field) (v : bool) : Z :=
  fold_left (fun w f => set1 w f v) fs raw.

(** *** MapColor *)

Definition COLOR_OUT_BITS (x : Z) : Z :=
  if INVERSE_RGB_DISPLAY_COLORS flags then Z.lxor x 65535 else x.

Definition MapColor (fb : Framebuffer) (c : Z) : Z :=
  if do_luminance_correct_ fb then
    let luminance_lookup := CreateLuminanceCIE1931LookupTable tt in
    COLOR_OUT_BITS
      (deref luminance_lookup (c * 100 + (brightness_ fb - 1))) mod 2 ^ 16
  else
    let c := (c * brightness_ fb ÷ 100) mod 2 ^ 8 in
    let shift := kBitPlanes - 8 in
    COLOR_OUT_BITS (if 0 <? shift then c ≪ shift else c ≫ (- shift))
      mod 2 ^ 16.

(** [(color & mask) == mask] with [uint16_t mask = 1 << b]. *)
Definition plane_bit (color b : Z) : bool :=
  let mask := (1 ≪ b) mod 2 ^ 16 in
  Z.land color mask =? mask.

(** *** Fill and Clear *)

(** The inner loop of [Fill]: [(row_data++)->raw = w] for every column. *)
Definition Fill_columns (columns : Z) (w : Z) (row_data : Z)
  (buf : list Z) : list Z :=
  fst (fold_left (fun '(buf, row_data) (_ : Z) =>
                    (store buf row_data w, row_data + 1))
                 (range 0 columns) (buf, row_data)).

Definition Fill_rows (fb : Framebuffer) (b : Z) (w : Z) (buf : list Z)
  : list Z :=
  fold_left (fun buf row =>
               Fill_columns (columns_ fb) w (ValueAt fb row 0 b) buf)
            (range 0 (double_rows_ fb)) buf.

Definition Fill_plane_bits0 (red green blue b : Z) : Z :=
  let plane_bits0 := 0 in
  let plane_bits0 :=
    set0_all plane_bits0 [IoBits0.p0_r2; IoBits0.p0_r1] (plane_bit red b) in
  let plane_bits0 :=
    set0_all plane_bits0 [IoBits0.p0_g2; IoBits0.p0_g1] (plane_bit green b) in
  let plane_bits0 :=
    set0_all plane_bits0 [IoBits0.p0_b2; IoBits0.p0_b1] (plane_bit blue b) in
  if ONLY_SINGLE_CHAIN flags then plane_bits0
  else
    let plane_bits0 :=
      set0_all plane_bits0
        [IoBits0.p2_r2; IoBits0.p2_r1; IoBits0.p1_r2; IoBits0.p1_r1]
        (plane_bit red b) in
    let plane_bits0 :=
      set0_all plane_bits0
        [IoBits0.p2_g2; IoBits0.p2_g1; IoBits0.p1_g2; IoBits0.p1_g1]
        (plane_bit green b) in
    set0_all plane_bits0
      [IoBits0.p2_b2; IoBits0.p2_b1; IoBits0.p1_b2; IoBits0.p1_b1]
      (plane_bit blue b).

Definition Fill_plane_bits1 (red green blue b : Z) : Z :=
  let plane_bits1 := 0 in
  let plane_bits1 :=
    set1_all plane_bits1
      [IoBits1.p4_r2; IoBits1.p4_r1; IoBits1.p3_r2; IoBits1.p3_r1]
      (plane_bit red b) in
  let plane_bits1 :=
    set1_all plane_bits1
      [IoBits1.p4_g2; IoBits1.p4_g1; IoBits1.p3_g2; IoBits1.p3_g1]
      (plane_bit green b) in
  set1_all plane_bits1
    [IoBits1.p4_b2; IoBits1.p4_b1; IoBits1.p3_b2; IoBits1.p3_b1]
    (plane_bit blue b).

Definition Fill (fb : Framebuffer) (r g b : Z) : Framebuffer :=
  let red := MapColor fb r in
  let green := MapColor fb (if PANEL_SWAP_G_B_ flags then b else g) in
  let blue := MapColor fb (if PANEL_SWAP_G_B_ flags then g else b) in
  let '(buf0, buf1) :=
    fold_left
      (fun '(buf0, buf1) b =>
         (Fill_rows fb b (Fill_plane_bits0 red green blue b) buf0,
          if CM_5_CHAIN_SUPPORT flags
          then Fill_rows fb b (Fill_plane_bits1 red green blue b) buf1
          else buf1))
      (range (kBitPlanes - pwm_bits_ fb) kBitPlanes)
      (bitplane_buffer_0 fb, bitplane_buffer_1 fb) in
  with_buffers fb buf0 buf1.

(** [memset] of the first [n] words of a buffer to zero. *)
Definition memset0 (buf : list Z) (n : Z) : list Z :=
  replicate (Z.to_nat n) 0 ++ drop (Z.to_nat n) buf.

Definition Clear (fb : Framebuffer) : Framebuffer :=
  if INVERSE_RGB_DISPLAY_COLORS flags then Fill fb 0 0 0
  else
    let n := double_rows_ fb * columns_ fb * kBitPlanes in
    with_buffers fb
      (memset0 (bitplane_buffer_0 fb) n)
      (if CM_5_CHAIN_SUPPORT flags then memset0 (bitplane_buffer_1 fb) n
       else bitplane_buffer_1 fb).

(** *** The constructor *)

Definition geometry_accepted (rows parallel : Z) : bool :=
  ((rows =? 8) || (rows =? 16) || (rows =? 32) || (rows =? 64))
  && (if CM_5_CHAIN_SUPPORT flags
      then (1 <=? parallel) && (parallel <=? 5)
      else (1 <=? parallel) && (parallel <=? 3))
  && (if ONLY_SINGLE_CHAIN flags
      then (if 1 <? parallel then parallel =? 1 else true)
      else true).

(** [new IoBits[n]]: default-constructed words. *)
Definition new_IoBits (n : Z) : list Z := replicate (Z.to_nat n) 0.

(** [None] when an assertion of the constructor fails. *)
Definition Framebuffer_new (rows columns parallel : Z)
  : option Framebuffer :=
  let double_rows := rows ÷ SUB_PANELS_ flags in
  let fb :=
    {| rows_ := rows; parallel_ := parallel; height_ := rows * parallel;
       columns_ := columns; pwm_bits_ := kBitPlanes;
       do_luminance_correct_ := true; brightness_ := 100;
       double_rows_ := double_rows; row_mask_ := double_rows - 1;
       bitplane_buffer_0 := new_IoBits (double_rows * columns * kBitPlanes);
       bitplane_buffer_1 :=
         if CM_5_CHAIN_SUPPORT flags
         then new_IoBits (double_rows * columns * kBitPlanes) else [] |} in
  let fb := Clear fb in
  if geometry_accepted rows parallel then Some fb else None.

(** *** SetPWMBits and SetBrightness *)

Definition SetPWMBits (fb : Framebuffer) (value : Z) : bool * Framebuffer :=
  if (value <? 1) || (kBitPlanes <? value) then (false, fb)
  else (true, with_pwm_bits fb value).

(** Modelled from the spec: [SetBrightness] is defined in
    framebuffer-internal.h, which is not among the sources.  "SetBrightness(v):
    v in [1, 100]; takes effect on the next mutator call": the value is
    stored, the buffer is not touched. *)
Definition SetBrightness (fb : Framebuffer) (v : Z) : Framebuffer :=
  with_brightness fb v.

(** *** SetPixel *)

(** The three assignments of a loop body of [SetPixel], to the fields at
    positions [pr], [pg], [pb] of the word [w], for plane [b]. *)
Definition assign_rgb (pr pg pb red green blue b w : Z) : Z :=
  let w := assign_bit w pr (plane_bit red b) in
  let w := assign_bit w pg (plane_bit green b) in
  assign_bit w pb (plane_bit blue b).

(** One iteration: assign through the pointer [bits], then advance it by
    one plane. *)
Definition SetPixel_step (columns pr pg pb red green blue : Z)
  : list Z * Z -> Z -> list Z * Z :=
  fun '(buf, bits) b =>
    (store buf bits (assign_rgb pr pg pb red green blue b (deref buf bits)),
     bits + columns).

(** One of the ten expanded loops of [SetPixel], over the planes from
    [min_bit_plane] on. *)
Definition SetPixel_planes (columns min_bit_plane : Z) (pr pg pb : Z)
  (red green blue : Z) (bits : Z) (buf : list Z) : list Z :=
  fst (fold_left (SetPixel_step columns pr pg pb red green blue)
                 (range min_bit_plane kBitPlanes) (buf, bits)).

Definition SetPixel (fb : Framebuffer) (x y r g b : Z) : Framebuffer :=
  if (x <? 0) || (columns_ fb <=? x) || (y <? 0) || (height_ fb <=? y)
  then fb
  else
    let red := MapColor fb r in
    let green := MapColor fb (if PANEL_SWAP_G_B_ flags then b else g) in
    let blue := MapColor fb (if PANEL_SWAP_G_B_ flags then g else b) in
    let min_bit_plane := kBitPlanes - pwm_bits_ fb in
    let bits := ValueAt fb (Z.land y (row_mask_ fb)) x min_bit_plane in
    let rows := rows_ fb in
    let on0 f_r f_g f_b :=
      with_buffers fb
        (SetPixel_planes (columns_ fb) min_bit_plane
           (bit0 po f_r) (bit0 po f_g) (bit0 po f_b) red green blue
           bits (bitplane_buffer_0 fb))
        (bitplane_buffer_1 fb) in
    let on1 f_r f_g f_b :=
      with_buffers fb
        (bitplane_buffer_0 fb)
        (SetPixel_planes (columns_ fb) min_bit_plane
           (bit1 po f_r) (bit1 po f_g) (bit1 po f_b) red green blue
           bits (bitplane_buffer_1 fb)) in
    if y <? rows then
      if y <? double_rows_ fb
      then on0 IoBits0.p0_r1 IoBits0.p0_g1 IoBits0.p0_b1
      else on0 IoBits0.p0_r2 IoBits0.p0_g2 IoBits0.p0_b2
    else if negb (ONLY_SINGLE_CHAIN flags)
            && (rows <=? y) && (y <? 2 * rows) then
      if y - rows <? double_rows_ fb
      then on0 IoBits0.p1_r1 IoBits0.p1_g1 IoBits0.p1_b1
      else on0 IoBits0.p1_r2 IoBits0.p1_g2 IoBits0.p1_b2
    else if negb (ONLY_SINGLE_CHAIN flags)
            && (2 * rows <=? y) && (y <? 3 * rows) then
      if y - 2 * rows <? double_rows_ fb
      then on0 IoBits0.p2_r1 IoBits0.p2_g1 IoBits0.p2_b1
      else on0 IoBits0.p2_r2 IoBits0.p2_g2 IoBits0.p2_b2
    else if CM_5_CHAIN_SUPPORT flags
            && (3 * rows <=? y) && (y <? 4 * rows) then
      if y - 3 * rows <? double_rows_ fb
      then on1 IoBits1.p3_r1 IoBits1.p3_g1 IoBits1.p3_b1
      else on1 IoBits1.p3_r2 IoBits1.p3_g2 IoBits1.p3_b2
    else if CM_5_CHAIN_SUPPORT flags
            && (4 * rows <=? y) && (y <? 5 * rows) then
      if y - 4 * rows <? double_rows_ fb
      then on1 IoBits1.p4_r1 IoBits1.p4_g1 IoBits1.p4_b1
      else on1 IoBits1.p4_r2 IoBits1.p4_g2 IoBits1.p4_b2
    else fb.

(** *** InitGPIO *)

(** The GPIO backend as [InitGPIO] uses it: the two calls that declare
    output pins and return the pins that are supported. *)
Record GPIO := {
  InitOutputs0 : Z -> Z;
  InitOutputs1 : Z -> Z }.

(** What [PinPulser::Create] is handed. *)
Record PinPulser := {
  pulser_bits : Z;
  pulser_timings : list Z }.

Inductive InitOutcome :=
| AlreadyInitialized
| AssertionFailed
| Initialized (result0 result1 : Z) (pulser : PinPulser).

Definition InitGPIO_b0 (rows parallel : Z) : Z :=
  let b0 := 0 in
  let b0 :=
    if PI_REV1_RGB_PINOUT_ flags
    then set0_all
           (set0_all b0
              [IoBits0.output_enable_rev2; IoBits0.output_enable_rev1] true)
           [IoBits0.clock_rev2; IoBits0.clock_rev1] true
    else b0 in
  let b0 := set0 b0 IoBits0.output_enable true in
  let b0 := set0 b0 IoBits0.clock true in
  let b0 := set0 b0 IoBits0.strobe true in
  let b0 :=
    set0_all b0 [IoBits0.p0_b1; IoBits0.p0_g1; IoBits0.p0_r1] true in
  let b0 :=
    set0_all b0 [IoBits0.p0_b2; IoBits0.p0_g2; IoBits0.p0_r2] true in
  let b0 :=
    if negb (ONLY_SINGLE_CHAIN flags) && (2 <=? parallel)
    then set0_all
           (set0_all b0 [IoBits0.p1_b1; IoBits0.p1_g1; IoBits0.p1_r1] true)
           [IoBits0.p1_b2; IoBits0.p1_g2; IoBits0.p1_r2] true
    else b0 in
  let b0 :=
    if negb (ONLY_SINGLE_CHAIN flags) && (3 <=? parallel)
    then set0_all
           (set0_all b0 [IoBits0.p2_b1; IoBits0.p2_g1; IoBits0.p2_r1] true)
           [IoBits0.p2_b2; IoBits0.p2_g2; IoBits0.p2_r2] true
    else b0 in
  let double_rows := rows ÷ 2 in
  let b0 := if 32 <=? double_rows then set0 b0 IoBits0.e true else b0 in
  let b0 := if 16 <=? double_rows then set0 b0 IoBits0.d true else b0 in
  let b0 := if 8 <=? double_rows then set0 b0 IoBits0.c true else b0 in
  let b0 := if 4 <=? double_rows then set0 b0 IoBits0.b true else b0 in
  set0 b0 IoBits0.a true.

Definition InitGPIO_b1 (parallel : Z) : Z :=
  let b1 := 0 in
  let b1 :=
    if 2 <=? parallel
    then set1_all
           (set1_all b1 [IoBits1.p3_b1; IoBits1.p3_g1; IoBits1.p3_r1] true)
           [IoBits1.p3_b2; IoBits1.p3_g2; IoBits1.p3_r2] true
    else b1 in
  if 3 <=? parallel
  then set1_all
         (set1_all b1 [IoBits1.p4_b1; IoBits1.p4_g1; IoBits1.p4_r1] true)
         [IoBits1.p4_b2; IoBits1.p4_g2; IoBits1.p4_r2] true
  else b1.

Definition bitplane_timings : list Z :=
  fold_left (fun timings b => timings ++ [kBaseTimeNanos ≪ b])
            (range 0 kBitPlanes) [].

Definition InitGPIO (io : GPIO) (rows parallel : Z)
  (sOutputEnablePulser : option PinPulser) : InitOutcome :=
  match sOutputEnablePulser with
  | Some _ => AlreadyInitialized
  | None =>
      let b0 := InitGPIO_b0 rows parallel in
      let result0 := InitOutputs0 io b0 in
      if negb (result0 =? b0) then AssertionFailed
      else
        let b1 := InitGPIO_b1 parallel in
        let result1 :=
          if CM_5_CHAIN_SUPPORT flags then InitOutputs1 io b1 else 0 in
        if CM_5_CHAIN_SUPPORT flags && negb (result1 =? b1)
        then AssertionFailed
        else
          let output_enable_bits0 := 0 in
          let output_enable_bits0 :=
            if PI_REV1_RGB_PINOUT_ flags
            then set0_all output_enable_bits0
                   [IoBits0.output_enable_rev2; IoBits0.output_enable_rev1]
                   true
            else output_enable_bits0 in
          let output_enable_bits0 :=
            set0 output_enable_bits0 IoBits0.output_enable true in
          Initialized result0 result1
            {| pulser_bits := output_enable_bits0;
               pulser_timings := bitplane_timings |}
  end.

(** *** DumpToMatrix *)

(** The calls [DumpToMatrix] makes on the GPIO backend and on the pulser,
    in order. *)
Inductive Call :=
| WriteMaskedBits (value0 mask0 value1 mask1 : Z)
| SetBits (bits0 bits1 : Z)
| ClearBits (bits0 bits1 : Z)
| WaitPulseFinished
| SendPulse (b : Z).

Definition color_clk_mask0 (parallel : Z) : Z :=
  let m := 0 in
  let m :=
    set0_all m
      [IoBits0.p0_b2; IoBits0.p0_g2; IoBits0.p0_r2;
       IoBits0.p0_b1; IoBits0.p0_g1; IoBits0.p0_r1] true in
  let m :=
    if negb (ONLY_SINGLE_CHAIN flags) && (2 <=? parallel)
    then set0_all m
           [IoBits0.p1_b2; IoBits0.p1_g2; IoBits0.p1_r2;
            IoBits0.p1_b1; IoBits0.p1_g1; IoBits0.p1_r1] true
    else m in
  let m :=
    if negb (ONLY_SINGLE_CHAIN flags) && (3 <=? parallel)
    then set0_all m
           [IoBits0.p2_b2; IoBits0.p2_g2; IoBits0.p2_r2;
            IoBits0.p2_b1; IoBits0.p2_g1; IoBits0.p2_r1] true
    else m in
  let m :=
    if PI_REV1_RGB_PINOUT_ flags
    then set0_all m [IoBits0.clock_rev2; IoBits0.clock_rev1] true
    else m in
  set0 m IoBits0.clock true.

Definition color_clk_mask1 (parallel : Z) : Z :=
  let m := 0 in
  let m :=
    if 4 <=? parallel
    then set1_all m
           [IoBits1.p3_b2; IoBits1.p3_g2; IoBits1.p3_r2;
            IoBits1.p3_b1; IoBits1.p3_g1; IoBits1.p3_r1] true
    else m in
  if 5 <=? parallel
  then set1_all m
         [IoBits1.p4_b2; IoBits1.p4_g2; IoBits1.p4_r2;
          IoBits1.p4_b1; IoBits1.p4_g1; IoBits1.p4_r1] true
  else m.

Definition row_mask : Z :=
  set0_all 0
    [IoBits0.e; IoBits0.d; IoBits0.c; IoBits0.b; IoBits0.a] true.

Definition clock_bits : Z :=
  let clock := 0 in
  let clock :=
    if PI_REV1_RGB_PINOUT_ flags
    then set0_all clock [IoBits0.clock_rev2; IoBits0.clock_rev1] true
    else clock in
  set0 clock IoBits0.clock true.

Definition strobe_bits : Z := set0 0 IoBits0.strobe true.

(** The five assignments to the fields of [row_address]; a one-bit field
    keeps the lowest bit of the value assigned. *)
Definition set_row_address (row_address d_row : Z) : Z :=
  let row_address := set0 row_address IoBits0.a (Z.odd d_row) in
  let row_address := set0 row_address IoBits0.b (Z.odd (d_row ≫ 1)) in
  let row_address := set0 row_address IoBits0.c (Z.odd (d_row ≫ 2)) in
  let row_address := set0 row_address IoBits0.d (Z.odd (d_row ≫ 3)) in
  set0 row_address IoBits0.e (Z.odd (d_row ≫ 4)).

(** The column loop of one plane. *)
Definition DumpToMatrix_columns (fb : Framebuffer) (d_row b : Z)
  : list Call :=
  let row_data0 := ValueAt fb d_row 0 b in
  let row_data1 := ValueAt fb d_row 0 b in
  flat_map
    (fun col =>
       let out0 := deref (bitplane_buffer_0 fb) (row_data0 + col) in
       [ (if CM_5_CHAIN_SUPPORT flags
          then
            let out1 := deref (bitplane_buffer_1 fb) (row_data1 + col) in
            WriteMaskedBits out0 (color_clk_mask0 (parallel_ fb))
                            out1 (color_clk_mask1 (parallel_ fb))
          else WriteMaskedBits out0 (color_clk_mask0 (parallel_ fb)) 0 0);
         SetBits clock_bits 0 ])
    (range 0 (columns_ fb)).

(** The body of the plane loop. *)
Definition DumpToMatrix_plane (fb : Framebuffer) (d_row b : Z) : list Call :=
  DumpToMatrix_columns fb d_row b
  ++ [ (if CM_5_CHAIN_SUPPORT flags
        then ClearBits (color_clk_mask0 (parallel_ fb))
                       (color_clk_mask1 (parallel_ fb))
        else ClearBits (color_clk_mask0 (parallel_ fb)) 0);
       WaitPulseFinished;
       SetBits strobe_bits 0;
       ClearBits strobe_bits 0;
       SendPulse b ].

(** The body of the row loop, after the assignments to [row_address]. *)
Definition DumpToMatrix_row (pwm_to_show : Z) (fb : Framebuffer)
  (row_address d_row : Z) : list Call :=
  WriteMaskedBits row_address row_mask 0 0
  :: flat_map (DumpToMatrix_plane fb d_row)
              (range (kBitPlanes - pwm_to_show) kBitPlanes)
  ++ [WaitPulseFinished].

(** One frame.  [fb] is the object as [DumpToMatrix] finds it on entry;
    [during d_row] is the object as the row loop finds it while it handles
    [d_row]: another task may have called mutators in between, which
    change [pwm_bits_], [brightness_] and the buffers but not the geometry.
    The loop counter is a [uint8_t], which does not wrap for the accepted
    geometries ([double_rows_ <= 64]). *)
Definition DumpToMatrix_during (fb : Framebuffer)
  (during : Z -> Framebuffer) : list Call :=
  let pwm_to_show := pwm_bits_ fb in
  snd (fold_left
         (fun '(row_address, calls) d_row =>
            let row_address := set_row_address row_address d_row in
            (row_address,
             calls ++ DumpToMatrix_row pwm_to_show (during d_row)
                        row_address d_row))
         (range 0 (double_rows_ fb)) (0, [])).

(** [DumpToMatrix] with no mutator running beside it. *)
Definition DumpToMatrix (fb : Framebuffer) : list Call :=
  DumpToMatrix_during fb (fun _ => fb).

(** The first IO word with the strobe line alone, given by the position
    of the field and not by the word [DumpToMatrix] builds. *)
Definition strobe_line : Z := 2 ^ bit0 po IoBits0.strobe.

(** The calls that latch a plane and show it: every GPIO call that has
    the strobe line among the bits it writes, and [SendPulse]. *)
Definition is_latch_call (c : Call) : bool :=
  match c with
  | WriteMaskedBits _ mask0 _ _ => get0 mask0 IoBits0.strobe
  | SetBits bits0 _ => get0 bits0 IoBits0.strobe
  | ClearBits bits0 _ => get0 bits0 IoBits0.strobe
  | SendPulse _ => true
  | WaitPulseFinished => false
  end.

Definition latch_calls (cs : list Call) : list Call :=
  List.filter is_latch_call cs.

(** The strobe-then-pulse sequence of plane [b]: the strobe line, and no
    other line, is set and cleared, then the pulse of the plane is
    sent. *)
Definition latch_plane (b : Z) : list Call :=
  [SetBits strobe_line 0; ClearBits strobe_line 0; SendPulse b].

(** *** Sequences of mutator calls *)

Inductive Mutator :=
| CallClear
| CallFill (r g b : Z)
| CallSetPixel (x y r g b : Z)
| CallSetPWMBits (value : Z)
| CallSetBrightness (v : Z).

Definition call (fb : Framebuffer) (m : Mutator) : Framebuffer :=
  match m with
  | CallClear => Clear fb
  | CallFill r g b => Fill fb r g b
  | CallSetPixel x y r g b => SetPixel fb x y r g b
  | CallSetPWMBits value => snd (SetPWMBits fb value)
  | CallSetBrightness v => SetBrightness fb v
  end.

Definition calls (fb : Framebuffer) (ms : list Mutator) : Framebuffer :=
  fold_left call ms fb.

(** The largest [pwm_bits_] the object has while [ms] runs on it. *)
Fixpoint max_pwm_bits (fb : Framebuffer) (ms : list Mutator) : Z :=
  match ms with
  | [] => pwm_bits_ fb
  | m :: ms' => Z.max (pwm_bits_ fb) (max_pwm_bits (call fb m) ms')
  end.

(** *** Reading a pixel back *)

(** The colour fields of a pixel. *)
Inductive Lane :=
| Lane0 (f_r f_g f_b : IoBits0.field)
| Lane1 (f_r f_g f_b : IoBits1.field).

(** The lane of row [y] as the specification gives it:
    [chain = y / rows], the upper sub-panel when
    [(y mod rows) < double_rows]. *)
Definition pixel_lane (fb : Framebuffer) (y : Z) : option Lane :=
  let chain := y / rows_ fb in
  let upper := y mod rows_ fb <? double_rows_ fb in
  if chain =? 0 then
    Some (if upper then Lane0 IoBits0.p0_r1 IoBits0.p0_g1 IoBits0.p0_b1
          else Lane0 IoBits0.p0_r2 IoBits0.p0_g2 IoBits0.p0_b2)
  else if chain =? 1 then
    Some (if upper then Lane0 IoBits0.p1_r1 IoBits0.p1_g1 IoBits0.p1_b1
          else Lane0 IoBits0.p1_r2 IoBits0.p1_g2 IoBits0.p1_b2)
  else if chain =? 2 then
    Some (if upper then Lane0 IoBits0.p2_r1 IoBits0.p2_g1 IoBits0.p2_b1
          else Lane0 IoBits0.p2_r2 IoBits0.p2_g2 IoBits0.p2_b2)
  else if chain =? 3 then
    Some (if upper then Lane1 IoBits1.p3_r1 IoBits1.p3_g1 IoBits1.p3_b1
          else Lane1 IoBits1.p3_r2 IoBits1.p3_g2 IoBits1.p3_b2)
  else if chain =? 4 then
    Some (if upper then Lane1 IoBits1.p4_r1 IoBits1.p4_g1 IoBits1.p4_b1
          else Lane1 IoBits1.p4_r2 IoBits1.p4_g2 IoBits1.p4_b2)
  else None.

(** Put the planes [b] of [bs] for which [P b] holds together as the bits
    [b] of one value. *)
Definition gather (P : Z -> bool) (bs : list Z) (acc : Z) : Z :=
  fold_left (fun acc b => if P b then Z.lor acc (1 ≪ b) else acc) bs acc.

(** The bits at position [pos] of the words of (d_row, x, b), for the
    planes [b] from [kBitPlanes - pwm_bits_] on, put together as bit [b]
    of one value. *)
Definition read_planes (fb : Framebuffer) (buf : list Z) (pos : Z)
  (d_row x : Z) : Z :=
  gather (fun b => Z.testbit (deref buf (ValueAt fb d_row x b)) pos)
         (range (kBitPlanes - pwm_bits_ fb) kBitPlanes) 0.

Definition lane_positions (l : Lane) : Z * Z * Z :=
  match l with
  | Lane0 f_r f_g f_b => (bit0 po f_r, bit0 po f_g, bit0 po f_b)
  | Lane1 f_r f_g f_b => (bit1 po f_r, bit1 po f_g, bit1 po f_b)
  end.

Definition lane_buffer (fb : Framebuffer) (l : Lane) : list Z :=
  match l with
  | Lane0 _ _ _ => bitplane_buffer_0 fb
  | Lane1 _ _ _ => bitplane_buffer_1 fb
  end.

Definition with_lane_buffer (fb : Framebuffer) (l : Lane) (buf : list Z)
  : Framebuffer :=
  match l with
  | Lane0 _ _ _ => with_buffers fb buf (bitplane_buffer_1 fb)
  | Lane1 _ _ _ => with_buffers fb (bitplane_buffer_0 fb) buf
  end.

(** Writing a pixel of lane [l] at the cell (d_row, x), as the
    specification words [SetPixel]: for each shown plane, the three bits
    of the lane in the word of (d_row, x, plane). *)
Definition write_lane (fb : Framebuffer) (l : Lane)
  (d_row x red green blue : Z) : Framebuffer :=
  let '(pr, pg, pb) := lane_positions l in
  let min_bit_plane := kBitPlanes - pwm_bits_ fb in
  with_lane_buffer fb l
    (SetPixel_planes (columns_ fb) min_bit_plane pr pg pb red green blue
       (ValueAt fb d_row x min_bit_plane) (lane_buffer fb l)).

(** The three values stored for pixel (x, y), at the cell
    (y mod double_rows, x). *)
Definition read_back (fb : Framebuffer) (x y : Z) : option (Z * Z * Z) :=
  let d_row := y mod double_rows_ fb in
  match pixel_lane fb y with
  | Some l =>
      let '(pr, pg, pb) := lane_positions l in
      let buf := lane_buffer fb l in
      Some (read_planes fb buf pr d_row x,
            read_planes fb buf pg d_row x,
            read_planes fb buf pb d_row x)
  | None => None
  end.

(** The planes that are shown, as a mask over a colour value. *)
Definition shown_planes (fb : Framebuffer) : Z :=
  gather (fun _ => true) (range (kBitPlanes - pwm_bits_ fb) kBitPlanes) 0.

End Code.

(** ** Well-formed objects *)

(** What the constructor establishes and every mutator keeps. *)
Record wf (flags : BuildFlags) (fb : Framebuffer) : Prop := {
  wf_geometry : geometry_accepted flags (rows_ fb) (parallel_ fb) = true;
  wf_height : height_ fb = rows_ fb * parallel_ fb;
  wf_double_rows : double_rows_ fb = rows_ fb ÷ SUB_PANELS_ flags;
  wf_row_mask : row_mask_ fb = double_rows_ fb - 1;
  wf_pwm_bits : 1 <= pwm_bits_ fb <= kBitPlanes;
  wf_buffer_0 :
    length (bitplane_buffer_0 fb)
    = Z.to_nat (double_rows_ fb * columns_ fb * kBitPlanes);
  wf_buffer_1 :
    CM_5_CHAIN_SUPPORT flags = true ->
    length (bitplane_buffer_1 fb)
    = Z.to_nat (double_rows_ fb * columns_ fb * kBitPlanes) }.

(** The words of the planes below [kBitPlanes - m] are zero, in the
    first buffer and, where the build has it, in the second. *)
Definition hidden_zero (flags : BuildFlags) (m : Z) (fb : Framebuffer)
  : Prop :=
  forall d c p,
    0 <= d < double_rows_ fb -> 0 <= c < columns_ fb ->
    0 <= p < kBitPlanes - m ->
    deref (bitplane_buffer_0 fb) (ValueAt fb d c p) = 0
    /\ (CM_5_CHAIN_SUPPORT flags = true ->
        deref (bitplane_buffer_1 fb) (ValueAt fb d c p) = 0).

(** A GPIO backend that supports every pin. *)
Definition all_pins_gpio : GPIO :=
  {| InitOutputs0 := fun m => m; InitOutputs1 := fun m => m |}.

(** [m] is a subset of [d], as sets of bits. *)
Definition subset (m d : Z) : Prop := Z.ldiff m d = 0.

(** The masks of a GPIO write, for the two words. *)
Definition call_masks (c : Call) : option (Z * Z) :=
  match c with
  | WriteMaskedBits _ mask0 _ mask1 => Some (mask0, mask1)
  | SetBits bits0 bits1 => Some (bits0, bits1)
  | ClearBits bits0 bits1 => Some (bits0, bits1)
  | WaitPulseFinished => None
  | SendPulse _ => None
  end.

(** The 32 x 32 single-chain object of the scenarios, as the constructor
    leaves it in the build with no option defined. *)
Definition fb_32x32 : Framebuffer :=
  {| rows_ := 32; parallel_ := 1; height_ := 32; columns_ := 32;
     pwm_bits_ := 11; do_luminance_correct_ := true; brightness_ := 100;
     double_rows_ := 16; row_mask_ := 15;
     bitplane_buffer_0 := replicate (Z.to_nat 5632) 0;
     bitplane_buffer_1 := [] |}.

(** The build with [ONLY_SINGLE_SUB_PANEL] defined, and the object its
    constructor gives for 32 rows, 32 columns and one chain: 32 double
    rows. *)
Definition single_sub_panel_flags : BuildFlags :=
  {| ONLY_SINGLE_CHAIN := false; RGB_SWAP_GREEN_BLUE := false;
     ONLY_SINGLE_SUB_PANEL := true; CM_5_CHAIN_SUPPORT := false;
     PI_REV1_RGB_PINOUT_ := false; INVERSE_RGB_DISPLAY_COLORS := false |}.

Definition fb_32x32_single : Framebuffer :=
  {| rows_ := 32; parallel_ := 1; height_ := 32; columns_ := 32;
     pwm_bits_ := 11; do_luminance_correct_ := true; brightness_ := 100;
     double_rows_ := 32; row_mask_ := 31;
     bitplane_buffer_0 := replicate (Z.to_nat 11264) 0;
     bitplane_buffer_1 := [] |}.

(** The same object at brightness 50 with luminance correction switched
    off. *)
Definition fb_32x32_linear : Framebuffer :=
  {| rows_ := 32; parallel_ := 1; height_ := 32; columns_ := 32;
     pwm_bits_ := 11; do_luminance_correct_ := false; brightness_ := 50;
     double_rows_ := 16; row_mask_ := 15;
     bitplane_buffer_0 := replicate (Z.to_nat 5632) 0;
     bitplane_buffer_1 := [] |}.

(** ** Observations on objects and frames *)

Section Observers.

Variable flags : BuildFlags.
Variable po : Pinout.

(** The colour fields of the two words. *)
Definition colour_fields0 : list IoBits0.field :=
  [ IoBits0.p0_r1; IoBits0.p0_g1; IoBits0.p0_b1;
    IoBits0.p0_r2; IoBits0.p0_g2; IoBits0.p0_b2;
    IoBits0.p1_r1; IoBits0.p1_g1; IoBits0.p1_b1;
    IoBits0.p1_r2; IoBits0.p1_g2; IoBits0.p1_b2;
    IoBits0.p2_r1; IoBits0.p2_g1; IoBits0.p2_b1;
    IoBits0.p2_r2; IoBits0.p2_g2; IoBits0.p2_b2 ].

Definition colour_mask0 : Z := set0_all po 0 colour_fields0 true.

Definition colour_mask1 : Z := set1_all po 0 IoBits1.all true.

(** Every word of the two buffers has colour bits only. *)
Definition colour_only (fb : Framebuffer) : Prop :=
  forall q,
    subset (deref (bitplane_buffer_0 fb) q) colour_mask0
    /\ subset (deref (bitplane_buffer_1 fb) q) colour_mask1.

(** Two objects of one geometry. *)
Definition same_geometry (fb fb' : Framebuffer) : Prop :=
  rows_ fb' = rows_ fb /\ parallel_ fb' = parallel_ fb
  /\ height_ fb' = height_ fb /\ columns_ fb' = columns_ fb
  /\ double_rows_ fb' = double_rows_ fb /\ row_mask_ fb' = row_mask_ fb.

(** Two objects that show the same: one geometry, one plane count, and
    the same words in the planes from [kBitPlanes - pwm_bits_] on. *)
Definition same_shown (fb fb' : Framebuffer) : Prop :=
  columns_ fb' = columns_ fb /\ parallel_ fb' = parallel_ fb
  /\ double_rows_ fb' = double_rows_ fb /\ pwm_bits_ fb' = pwm_bits_ fb
  /\ forall d c p,
       0 <= d < double_rows_ fb -> 0 <= c < columns_ fb ->
       kBitPlanes - pwm_bits_ fb <= p < kBitPlanes ->
       deref (bitplane_buffer_0 fb') (ValueAt fb d c p)
       = deref (bitplane_buffer_0 fb) (ValueAt fb d c p)
       /\ deref (bitplane_buffer_1 fb') (ValueAt fb d c p)
          = deref (bitplane_buffer_1 fb) (ValueAt fb d c p).

(** The chain and the colour a colour field carries. *)
Inductive Colour := Red | Green | Blue.

Definition field_colour0 (f : IoBits0.field) : option (Z * Colour) :=
  match f with
  | IoBits0.p0_r1 | IoBits0.p0_r2 => Some (0, Red)
  | IoBits0.p0_g1 | IoBits0.p0_g2 => Some (0, Green)
  | IoBits0.p0_b1 | IoBits0.p0_b2 => Some (0, Blue)
  | IoBits0.p1_r1 | IoBits0.p1_r2 => Some (1, Red)
  | IoBits0.p1_g1 | IoBits0.p1_g2 => Some (1, Green)
  | IoBits0.p1_b1 | IoBits0.p1_b2 => Some (1, Blue)
  | IoBits0.p2_r1 | IoBits0.p2_r2 => Some (2, Red)
  | IoBits0.p2_g1 | IoBits0.p2_g2 => Some (2, Green)
  | IoBits0.p2_b1 | IoBits0.p2_b2 => Some (2, Blue)
  | _ => None
  end.

Definition field_colour1 (f : IoBits1.field) : Colour :=
  match f with
  | IoBits1.p3_r1 | IoBits1.p3_r2 | IoBits1.p4_r1 | IoBits1.p4_r2 => Red
  | IoBits1.p3_g1 | IoBits1.p3_g2 | IoBits1.p4_g1 | IoBits1.p4_g2 => Green
  | IoBits1.p3_b1 | IoBits1.p3_b2 | IoBits1.p4_b1 | IoBits1.p4_b2 => Blue
  end.

Definition pick (col : Colour) (red green blue : Z) : Z :=
  match col with Red => red | Green => green | Blue => blue end.

Definition is_strobe_write (c : Call) : bool :=
  match c with
  | SetBits bits0 _ => bits0 =? strobe_bits po
  | ClearBits bits0 _ => bits0 =? strobe_bits po
  | _ => false
  end.

Definition is_row_address_write (c : Call) : bool :=
  match c with
  | WriteMaskedBits _ mask0 _ _ => mask0 =? row_mask po
  | _ => false
  end.

(** The pulser as a sequence of calls drives it.  The state is [true]
    while a pulse that was sent has not been waited for.  The run is
    [None] when a pulse is sent, a strobe bit is written or the row
    address is written while a pulse is in flight. *)
Fixpoint pulser_run (in_flight : bool) (cs : list Call) : option bool :=
  match cs with
  | [] => Some in_flight
  | c :: cs' =>
      match c with
      | SendPulse _ => if in_flight then None else pulser_run true cs'
      | WaitPulseFinished => pulser_run false cs'
      | _ =>
          if in_flight && (is_strobe_write c || is_row_address_write c)
          then None
          else pulser_run in_flight cs'
      end
  end.

(** The planes a sequence of calls shows, in order. *)
Definition pulses (cs : list Call) : list Z :=
  flat_map (fun c => match c with SendPulse b => [b] | _ => [] end) cs.

(** The word a frame writes for the columns of one plane of one row: the
    values of the masked writes that are not the row-address write. *)
Definition column_values (cs : list Call) : list (Z * Z) :=
  flat_map
    (fun c =>
       match c with
       | WriteMaskedBits value0 mask0 value1 _ =>
           if mask0 =? row_mask po then [] else [(value0, value1)]
       | _ => []
       end)
    cs.

End Observers.

(** * Properties *)

(** ** Loops *)

Lemma range_nil lo hi : hi <= lo -> range lo hi = [].
Proof.
  intros H. unfold range.
  replace (Z.to_nat (hi - lo)) with 0%nat by lia. reflexivity.
Qed.

Lemma range_cons lo hi : lo < hi -> range lo hi = lo :: range (lo + 1) hi.
Proof.
  intros H. unfold range.
  replace (Z.to_nat (hi - lo)) with (S (Z.to_nat (hi - (lo + 1)))) by lia.
  cbn [seq map]. f_equal; [lia|].
  rewrite <- seq_shift, map_map. apply map_ext. intros k. lia.
Qed.

Lemma length_range lo hi : length (range lo hi) = Z.to_nat (hi - lo).
Proof. unfold range. now rewrite length_map, length_seq. Qed.

Lemma In_range lo hi x : In x (range lo hi) <-> lo <= x < hi.
Proof.
  unfold range. rewrite in_map_iff. split.
  - intros (k & <- & Hk). apply in_seq in Hk. lia.
  - intros H. exists (Z.to_nat (x - lo)). split; [lia|].
    apply in_seq. lia.
Qed.

Lemma range_snoc lo hi : lo <= hi -> range lo (hi + 1) = range lo hi ++ [hi].
Proof.
  intros H. unfold range.
  replace (Z.to_nat (hi + 1 - lo)) with (Z.to_nat (hi - lo) + 1)%nat by lia.
  rewrite seq_app, map_app. cbn [seq map Nat.add]. do 2 f_equal. lia.
Qed.

(** ** Words and buffers *)

Lemma testbit_assign_bit w pos v i :
  0 <= pos ->
  Z.testbit (assign_bit w pos v) i = if i =? pos then v else Z.testbit w i.
Proof.
  intros Hpos. unfold assign_bit. destruct v.
  - rewrite Z.setbit_eqb by assumption. rewrite (Z.eqb_sym i pos).
    destruct (pos =? i); reflexivity.
  - rewrite Z.clearbit_eqb. rewrite (Z.eqb_sym i pos).
    destruct (pos =? i); [apply andb_false_r | apply andb_true_r].
Qed.

Lemma length_store buf p w : length (store buf p w) = length buf.
Proof. unfold store. destruct (p <? 0); [reflexivity | apply length_insert]. Qed.

Lemma deref_store_eq buf p w :
  0 <= p < Z.of_nat (length buf) -> deref (store buf p w) p = w.
Proof.
  intros H. unfold deref, store.
  destruct (Z.ltb_spec p 0); [lia|].
  rewrite list_lookup_insert_eq by lia. reflexivity.
Qed.

Lemma deref_store_ne buf p w q : p <> q -> deref (store buf p w) q = deref buf q.
Proof.
  intros H. unfold deref, store.
  destruct (Z.ltb_spec q 0); [reflexivity|].
  destruct (Z.ltb_spec p 0); [reflexivity|].
  rewrite list_lookup_insert_ne by lia. reflexivity.
Qed.

Lemma lookup_range lo hi k :
  0 <= k < hi - lo -> range lo hi !! Z.to_nat k = Some (lo + k).
Proof.
  intros H. unfold range.
  change (map ?g ?l) with (g <$> l).
  rewrite list_lookup_fmap, lookup_seq_lt by lia.
  cbn. f_equal. lia.
Qed.

Lemma lookup_map_range {A} (g : Z -> A) lo hi k :
  0 <= k < hi - lo -> map g (range lo hi) !! Z.to_nat k = Some (g (lo + k)).
Proof.
  intros H.
  change (map g (range lo hi)) with (g <$> range lo hi).
  rewrite list_lookup_fmap, lookup_range by assumption. reflexivity.
Qed.

(** Indexing into the concatenation of blocks of one length. *)
Lemma lookup_flat_map_range {A} (f : Z -> list A) (n : nat) lo hi i j :
  (forall i, length (f i) = n) ->
  lo <= i < hi -> (j < n)%nat ->
  flat_map f (range lo hi) !! (Z.to_nat (i - lo) * n + j)%nat = f i !! j.
Proof.
  intros Hlen. remember (Z.to_nat (hi - lo)) as m eqn:Hm.
  revert lo Hm. induction m as [|m IH]; intros lo Hm Hi Hj; [lia|].
  rewrite range_cons by lia. cbn [flat_map].
  destruct (Z.eq_dec i lo) as [->|Hne].
  - replace (Z.to_nat (lo - lo)) with 0%nat by lia. cbn [Nat.mul Nat.add].
    apply lookup_app_l. rewrite Hlen. assumption.
  - rewrite lookup_app_r by (rewrite Hlen; nia).
    rewrite Hlen.
    replace (Z.to_nat (i - lo) * n + j - n)%nat
      with (Z.to_nat (i - (lo + 1)) * n + j)%nat by nia.
    apply IH; lia.
Qed.

(** ** The luminance table *)

Lemma luminance_lookup_entry c j :
  0 <= c < 256 -> 0 <= j < 100 ->
  deref (CreateLuminanceCIE1931LookupTable tt) (c * 100 + j)
  = luminance_cie1931 c (j + 1).
Proof.
  intros Hc Hj. unfold deref, CreateLuminanceCIE1931LookupTable.
  destruct (Z.ltb_spec (c * 100 + j) 0); [lia|].
  replace (Z.to_nat (c * 100 + j))
    with (Z.to_nat (c - 0) * 100 + Z.to_nat j)%nat by lia.
  rewrite lookup_flat_map_range with (hi := 256); try lia.
  - rewrite lookup_map_range by lia. reflexivity.
  - intros i. now rewrite length_map, length_range.
Qed.

Section Properties.

Variable flags : BuildFlags.
Variable po : Pinout.

(** In corrected mode [MapColor] is [luminance_cie1931] at the current
    brightness, complemented in the inverse build. *)
Lemma MapColor_corrected fb c :
  do_luminance_correct_ fb = true ->
  0 <= c < 256 -> 1 <= brightness_ fb <= 100 ->
  MapColor flags fb c
  = COLOR_OUT_BITS flags (luminance_cie1931 c (brightness_ fb)) mod 2 ^ 16.
Proof.
  intros Hl Hc Hv. unfold MapColor. rewrite Hl. cbv zeta.
  rewrite luminance_lookup_entry by lia.
  replace (brightness_ fb - 1 + 1) with (brightness_ fb) by lia.
  reflexivity.
Qed.

(** ** The pin-out *)

Hypothesis Hpo : pinout_ok po = true.

Lemma distinct_inj {A} (h : A -> Z) (l : list A) x y :
  distinct (map h l) = true -> In x l -> In y l -> h x = h y -> x = y.
Proof.
  induction l as [|z l IH]; cbn [map distinct In]; [tauto|].
  intros Hd Hx Hy Heq. apply andb_prop in Hd as [Hz Hd].
  apply negb_true_iff in Hz.
  assert (Hnot : forall u, In u l -> h z <> h u).
  { intros u Hu E.
    assert (existsb (Z.eqb (h z)) (map h l) = true); [|congruence].
    apply existsb_exists. exists (h u). split; [now apply in_map|].
    now apply Z.eqb_eq. }
  destruct Hx as [->|Hx], Hy as [->|Hy]; auto.
  - exfalso. eapply Hnot; eauto.
  - exfalso. eapply Hnot; eauto.
Qed.

Lemma IoBits0_all f : In f IoBits0.all.
Proof. destruct f; cbn; tauto. Qed.

Lemma IoBits1_all f : In f IoBits1.all.
Proof. destruct f; cbn; tauto. Qed.

Lemma bit0_range f : 0 <= bit0 po f < 32.
Proof.
  unfold pinout_ok in Hpo.
  apply andb_prop in Hpo as [H _]. apply andb_prop in H as [H _].
  apply andb_prop in H as [H _].
  rewrite forallb_forall in H.
  specialize (H (bit0 po f) (in_map _ _ _ (IoBits0_all f))).
  unfold in_word in H. lia.
Qed.

Lemma bit1_range f : 0 <= bit1 po f < 32.
Proof.
  unfold pinout_ok in Hpo.
  apply andb_prop in Hpo as [H _]. apply andb_prop in H as [_ H].
  rewrite forallb_forall in H.
  specialize (H (bit1 po f) (in_map _ _ _ (IoBits1_all f))).
  unfold in_word in H. lia.
Qed.

Lemma bit0_inj f g : bit0 po f = bit0 po g -> f = g.
Proof.
  unfold pinout_ok in Hpo.
  apply andb_prop in Hpo as [H _]. apply andb_prop in H as [H _].
  apply andb_prop in H as [_ H].
  apply (distinct_inj _ _ _ _ H); apply IoBits0_all.
Qed.

Lemma bit1_inj f g : bit1 po f = bit1 po g -> f = g.
Proof.
  unfold pinout_ok in Hpo.
  apply andb_prop in Hpo as [_ H].
  apply (distinct_inj _ _ _ _ H); apply IoBits1_all.
Qed.

Lemma get0_set0 w f v g :
  get0 po (set0 po w f v) g = if bit0 po g =? bit0 po f then v else get0 po w g.
Proof. unfold get0, set0. apply testbit_assign_bit, bit0_range. Qed.

Lemma get1_set1 w f v g :
  get1 po (set1 po w f v) g = if bit1 po g =? bit1 po f then v else get1 po w g.
Proof. unfold get1, set1. apply testbit_assign_bit, bit1_range. Qed.

(** ** The plane loop of SetPixel *)

Lemma planes_fold_length columns pr pg pb red green blue bs buf bits :
  length (fst (fold_left (SetPixel_step columns pr pg pb red green blue)
                         bs (buf, bits)))
  = length buf.
Proof.
  revert buf bits. induction bs as [|b bs IH]; intros buf bits; [reflexivity|].
  cbn [fold_left SetPixel_step]. rewrite IH. apply length_store.
Qed.

(** Words the pointer does not visit are not changed. *)
Lemma planes_fold_frame columns pr pg pb red green blue bs buf bits q :
  (forall k, 0 <= k < Z.of_nat (length bs) -> q <> bits + k * columns) ->
  deref (fst (fold_left (SetPixel_step columns pr pg pb red green blue)
                        bs (buf, bits))) q
  = deref buf q.
Proof.
  revert buf bits. induction bs as [|b bs IH]; intros buf bits Hq;
    [reflexivity|].
  cbn [fold_left SetPixel_step]. rewrite IH.
  - apply deref_store_ne. specialize (Hq 0). cbn [length] in Hq. lia.
  - intros k Hk. specialize (Hq (k + 1)). cbn [length] in Hq. lia.
Qed.

(** The word the pointer visits in step [k] gets the bits of plane
    [bs !! k]. *)
Lemma planes_fold_hit columns pr pg pb red green blue bs buf bits k b :
  0 < columns -> 0 <= bits ->
  bs !! k = Some b ->
  bits + Z.of_nat k * columns < Z.of_nat (length buf) ->
  deref (fst (fold_left (SetPixel_step columns pr pg pb red green blue)
                        bs (buf, bits))) (bits + Z.of_nat k * columns)
  = assign_rgb pr pg pb red green blue b
      (deref buf (bits + Z.of_nat k * columns)).
Proof.
  intros Hc. revert buf bits k.
  induction bs as [|b0 bs IH]; intros buf bits k Hbits Hk Hlen; [discriminate|].
  cbn [fold_left SetPixel_step]. destruct k as [|k].
  - injection Hk as ->. change (Z.of_nat 0) with 0 in *.
    replace (bits + 0 * columns) with bits in * by lia.
    rewrite planes_fold_frame by (intros; nia).
    apply deref_store_eq. lia.
  - cbn [lookup list_lookup] in Hk.
    replace (bits + Z.of_nat (S k) * columns)
      with (bits + columns + Z.of_nat k * columns) in * by lia.
    rewrite IH; try assumption; try lia.
    + f_equal. apply deref_store_ne. nia.
    + rewrite length_store. assumption.
Qed.

(** ** Geometry *)

Lemma wf_facts fb :
  wf flags fb ->
  (rows_ fb = 8 \/ rows_ fb = 16 \/ rows_ fb = 32 \/ rows_ fb = 64)
  /\ 1 <= parallel_ fb <= 5
  /\ (CM_5_CHAIN_SUPPORT flags = false -> parallel_ fb <= 3)
  /\ (ONLY_SINGLE_CHAIN flags = true -> parallel_ fb = 1)
  /\ (double_rows_ fb = rows_ fb \/ 2 * double_rows_ fb = rows_ fb)
  /\ (double_rows_ fb = 4 \/ double_rows_ fb = 8 \/ double_rows_ fb = 16
      \/ double_rows_ fb = 32 \/ double_rows_ fb = 64).
Proof.
  intros [Hg _ Hd _ _ _ _]. unfold geometry_accepted, SUB_PANELS_ in *.
  assert (Hrows : rows_ fb = 8 \/ rows_ fb = 16 \/ rows_ fb = 32
                  \/ rows_ fb = 64).
  { destruct (Z.eqb_spec (rows_ fb) 8), (Z.eqb_spec (rows_ fb) 16),
      (Z.eqb_spec (rows_ fb) 32), (Z.eqb_spec (rows_ fb) 64);
      try tauto; discriminate. }
  assert (Hdr : double_rows_ fb = rows_ fb \/ 2 * double_rows_ fb = rows_ fb).
  { rewrite Hd. destruct (ONLY_SINGLE_SUB_PANEL flags).
    - left. apply Z.quot_1_r.
    - right. destruct Hrows as [-> | [-> | [-> | ->]]]; reflexivity. }
  apply andb_prop in Hg as [Hg Hs]. apply andb_prop in Hg as [_ Hp].
  assert (H15 : 1 <= parallel_ fb <= 5
                /\ (CM_5_CHAIN_SUPPORT flags = false -> parallel_ fb <= 3)).
  { destruct (CM_5_CHAIN_SUPPORT flags); split; try discriminate; lia. }
  destruct H15 as [H15 H3].
  split; [assumption|]. split; [assumption|]. split; [assumption|].
  split.
  { intros E. rewrite E in Hs.
    destruct (Z.ltb_spec 1 (parallel_ fb)); lia. }
  split; [assumption|]. lia.
Qed.

(** For a row in range, [y & row_mask_] is [y mod double_rows_]. *)
Lemma land_row_mask fb y :
  wf flags fb -> 0 <= y ->
  Z.land y (row_mask_ fb) = y mod double_rows_ fb.
Proof.
  intros Hwf Hy. rewrite (wf_row_mask _ _ Hwf).
  destruct (wf_facts fb Hwf) as (_ & _ & _ & _ & _ & Hd).
  destruct Hd as [-> | [-> | [-> | [-> | ->]]]].
  - apply (Z.land_ones y 2). lia.
  - apply (Z.land_ones y 3). lia.
  - apply (Z.land_ones y 4). lia.
  - apply (Z.land_ones y 5). lia.
  - apply (Z.land_ones y 6). lia.
Qed.

(** The index of a cell is within the buffer, and distinct cells have
    distinct indices. *)
Lemma ValueAt_range fb d c p :
  0 <= d < double_rows_ fb -> 0 <= c < columns_ fb -> 0 <= p < kBitPlanes ->
  0 <= ValueAt fb d c p < double_rows_ fb * columns_ fb * kBitPlanes.
Proof. unfold ValueAt, kBitPlanes. intros. nia. Qed.

Lemma ValueAt_inj fb d c p d' c' p' :
  0 <= c < columns_ fb -> 0 <= c' < columns_ fb ->
  0 <= p < kBitPlanes -> 0 <= p' < kBitPlanes ->
  ValueAt fb d c p = ValueAt fb d' c' p' ->
  d = d' /\ c = c' /\ p = p'.
Proof.
  unfold ValueAt, kBitPlanes. intros Hc Hc' Hp Hp' H.
  assert (E : (d * 11 + p) * columns_ fb + c
              = (d' * 11 + p') * columns_ fb + c') by lia.
  assert (E1 : d * 11 + p = d' * 11 + p').
  { apply (f_equal (fun z => z / columns_ fb)) in E.
    rewrite !Z.div_add_l, !(Z.div_small c), !(Z.div_small c') in E; lia. }
  assert (c = c') by nia.
  assert (d = d').
  { apply (f_equal (fun z => z / 11)) in E1.
    rewrite !Z.div_add_l, !(Z.div_small p), !(Z.div_small p') in E1; lia. }
  lia.
Qed.

(** ** SetPixel *)

Ltac case_tests :=
  repeat match goal with
    | |- context [?a <? ?b] => destruct (Z.ltb_spec a b); try lia
    | |- context [?a <=? ?b] => destruct (Z.leb_spec a b); try lia
    | |- context [?a =? ?b] => destruct (Z.eqb_spec a b); try lia
    end.

(** The chain of tests on [y] in [SetPixel] picks the lane of the
    specification, and the row [y & row_mask_] is [y mod double_rows_]. *)
Lemma SetPixel_write_lane fb x y r g b :
  wf flags fb -> 0 <= x < columns_ fb -> 0 <= y < height_ fb ->
  exists l,
    pixel_lane fb y = Some l
    /\ (forall f_r f_g f_b, l = Lane1 f_r f_g f_b ->
         CM_5_CHAIN_SUPPORT flags = true)
    /\ SetPixel flags po fb x y r g b
       = write_lane po fb l (y mod double_rows_ fb) x
           (MapColor flags fb r)
           (MapColor flags fb (if PANEL_SWAP_G_B_ flags then b else g))
           (MapColor flags fb (if PANEL_SWAP_G_B_ flags then g else b)).
Proof.
  intros Hwf Hx Hy.
  destruct (wf_facts fb Hwf) as (Hrows & Hpar & Hcm & Hsc & Hdr & _).
  pose proof (wf_height _ _ Hwf) as Hh.
  unfold SetPixel.
  destruct (Z.ltb_spec x 0); [lia|].
  destruct (Z.leb_spec (columns_ fb) x); [lia|].
  destruct (Z.ltb_spec y 0); [lia|].
  destruct (Z.leb_spec (height_ fb) y); [lia|].
  cbn [orb]. cbv zeta. rewrite (land_row_mask fb y Hwf) by lia.
  assert (Hr : 0 < rows_ fb) by lia.
  pose proof (Z.div_mod y (rows_ fb) ltac:(lia)) as Hdm.
  pose proof (Z.mod_pos_bound y (rows_ fb) Hr) as Hmb.
  unfold pixel_lane.
  set (k := y / rows_ fb) in *.
  assert (Hk : 0 <= k < parallel_ fb) by nia.
  replace (y mod rows_ fb) with (y - rows_ fb * k) by lia.
  set (m := y mod double_rows_ fb).
  destruct (CM_5_CHAIN_SUPPORT flags) eqn:Ecm;
    [clear Hcm | specialize (Hcm eq_refl)];
    (destruct (ONLY_SINGLE_CHAIN flags) eqn:Esc;
     [specialize (Hsc eq_refl) | clear Hsc]);
    cbn [negb andb];
    assert (Hk5 : k = 0 \/ k = 1 \/ k = 2 \/ k = 3 \/ k = 4) by lia;
    destruct Hk5 as [Ek | [Ek | [Ek | [Ek | Ek]]]]; rewrite Ek in *;
    try lia; case_tests; cbn [andb];
    eexists; (split; [reflexivity|]); (split; [|reflexivity]);
    intros; try reflexivity; discriminate.
Qed.

(** What the plane loop leaves in the word of a cell: the cells of the
    pixel's row and column from [min_bit_plane] on get the three bits of
    their plane, every other cell is as before. *)
Lemma SetPixel_planes_cell fb min_bit_plane pr pg pb red green blue
  d x buf d' c p :
  0 <= min_bit_plane ->
  0 <= d < double_rows_ fb -> 0 <= x < columns_ fb ->
  0 <= c < columns_ fb -> 0 <= p < kBitPlanes ->
  length buf = Z.to_nat (double_rows_ fb * columns_ fb * kBitPlanes) ->
  deref (SetPixel_planes (columns_ fb) min_bit_plane pr pg pb red green blue
           (ValueAt fb d x min_bit_plane) buf)
        (ValueAt fb d' c p)
  = if (d' =? d) && (c =? x) && (min_bit_plane <=? p)
    then assign_rgb pr pg pb red green blue p (deref buf (ValueAt fb d' c p))
    else deref buf (ValueAt fb d' c p).
Proof.
  intros Hmin Hd Hx Hc Hp Hlen. unfold SetPixel_planes.
  destruct (Z.eqb_spec d' d) as [->|Hdd]; cbn [andb].
  2:{ apply planes_fold_frame. intros k Hk E.
      rewrite length_range in Hk.
      replace (ValueAt fb d x min_bit_plane + k * columns_ fb)
        with (ValueAt fb d x (min_bit_plane + k)) in E
        by (unfold ValueAt; lia).
      apply ValueAt_inj in E; lia. }
  destruct (Z.eqb_spec c x) as [->|Hcx]; cbn [andb].
  2:{ apply planes_fold_frame. intros k Hk E.
      rewrite length_range in Hk.
      replace (ValueAt fb d x min_bit_plane + k * columns_ fb)
        with (ValueAt fb d x (min_bit_plane + k)) in E
        by (unfold ValueAt; lia).
      apply ValueAt_inj in E; lia. }
  destruct (Z.leb_spec min_bit_plane p) as [Hle|Hlt].
  2:{ apply planes_fold_frame. intros k Hk E.
      rewrite length_range in Hk.
      replace (ValueAt fb d x min_bit_plane + k * columns_ fb)
        with (ValueAt fb d x (min_bit_plane + k)) in E
        by (unfold ValueAt; lia).
      apply ValueAt_inj in E; lia. }
  replace (ValueAt fb d x p)
    with (ValueAt fb d x min_bit_plane
          + Z.of_nat (Z.to_nat (p - min_bit_plane)) * columns_ fb)
    by (unfold ValueAt; rewrite Z2Nat.id by lia; ring).
  pose proof (ValueAt_range fb d x min_bit_plane) as R0.
  pose proof (ValueAt_range fb d x p Hd Hx Hp) as R1.
  apply planes_fold_hit.
  - lia.
  - unfold ValueAt in *. nia.
  - rewrite lookup_range by lia. f_equal. lia.
  - replace (ValueAt fb d x min_bit_plane
             + Z.of_nat (Z.to_nat (p - min_bit_plane)) * columns_ fb)
      with (ValueAt fb d x p)
      by (unfold ValueAt; rewrite Z2Nat.id by lia; ring).
    lia.
Qed.

Lemma SetPixel_planes_length columns min_bit_plane pr pg pb red green blue
  bits buf :
  length (SetPixel_planes columns min_bit_plane pr pg pb red green blue
            bits buf)
  = length buf.
Proof. apply planes_fold_length. Qed.

Lemma lane_buffer_length fb l :
  wf flags fb ->
  (forall f_r f_g f_b, l = Lane1 f_r f_g f_b ->
     CM_5_CHAIN_SUPPORT flags = true) ->
  length (lane_buffer fb l)
  = Z.to_nat (double_rows_ fb * columns_ fb * kBitPlanes).
Proof.
  intros Hwf Hl. destruct l; cbn [lane_buffer].
  - apply (wf_buffer_0 _ _ Hwf).
  - apply (wf_buffer_1 _ _ Hwf). eapply Hl. reflexivity.
Qed.

(** [write_lane] changes the pixel's bits in the lane's buffer only. *)
Lemma write_lane_cell fb l d x red green blue d' c p :
  wf flags fb ->
  (forall f_r f_g f_b, l = Lane1 f_r f_g f_b ->
     CM_5_CHAIN_SUPPORT flags = true) ->
  0 <= d < double_rows_ fb -> 0 <= x < columns_ fb ->
  0 <= c < columns_ fb -> 0 <= p < kBitPlanes ->
  deref (lane_buffer (write_lane po fb l d x red green blue) l)
        (ValueAt fb d' c p)
  = if (d' =? d) && (c =? x) && (kBitPlanes - pwm_bits_ fb <=? p)
    then let '(pr, pg, pb) := lane_positions po l in
         assign_rgb pr pg pb red green blue p
           (deref (lane_buffer fb l) (ValueAt fb d' c p))
    else deref (lane_buffer fb l) (ValueAt fb d' c p).
Proof.
  intros Hwf Hl Hd Hx Hc Hp.
  pose proof (lane_buffer_length fb l Hwf Hl) as Hlen.
  pose proof (wf_pwm_bits _ _ Hwf) as Hpwm.
  unfold write_lane.
  destruct l; cbn [lane_positions with_lane_buffer lane_buffer
                   bitplane_buffer_0 bitplane_buffer_1 with_buffers] in *;
    apply SetPixel_planes_cell; try assumption; lia.
Qed.

(** ** Reading planes back *)

Lemma existsb_eqb_and (P : Z -> bool) bs i :
  existsb (fun b => (b =? i) && P b) bs = existsb (Z.eqb i) bs && P i.
Proof.
  induction bs as [|b bs IH]; [reflexivity|]. cbn [existsb]. rewrite IH.
  rewrite (Z.eqb_sym i b).
  destruct (Z.eqb_spec b i) as [->|]; cbn [andb orb]; [|reflexivity].
  destruct (P i), (existsb (Z.eqb i) bs); reflexivity.
Qed.

Lemma testbit_gather P bs acc i :
  (forall b, In b bs -> 0 <= b) ->
  Z.testbit (gather P bs acc) i
  = Z.testbit acc i || (existsb (Z.eqb i) bs && P i).
Proof.
  rewrite <- existsb_eqb_and. unfold gather.
  revert acc. induction bs as [|b bs IH]; intros acc Hbs.
  - cbn. now rewrite orb_false_r.
  - cbn [fold_left existsb]. rewrite IH by (intros; apply Hbs; now right).
    assert (0 <= b) by (apply Hbs; now left).
    destruct (P b); cbn [andb].
    + rewrite Z.lor_spec, Z.shiftl_1_l, Z.pow2_bits_eqb by assumption.
      now rewrite orb_assoc, andb_true_r.
    + now rewrite andb_false_r.
Qed.

Lemma plane_bit_testbit color b :
  0 <= b < 16 -> plane_bit color b = Z.testbit color b.
Proof.
  intros Hb. unfold plane_bit. cbv zeta.
  rewrite Z.shiftl_1_l, Z.mod_small
    by (split; [apply Z.pow_nonneg; lia | apply Z.pow_lt_mono_r; lia]).
  assert (E : Z.land color (2 ^ b) = if Z.testbit color b then 2 ^ b else 0).
  { apply Z.bits_inj'. intros n Hn.
    rewrite Z.land_spec, Z.pow2_bits_eqb by lia.
    destruct (Z.eqb_spec b n) as [->|Hne].
    - destruct (Z.testbit color n);
        [now rewrite Z.pow2_bits_eqb, Z.eqb_refl by lia
        | now rewrite Z.bits_0].
    - rewrite andb_false_r. destruct (Z.testbit color b).
      + rewrite Z.pow2_bits_eqb by lia. symmetry. now apply Z.eqb_neq.
      + now rewrite Z.bits_0. }
  rewrite E. assert (0 < 2 ^ b) by (apply Z.pow_pos_nonneg; lia).
  destruct (Z.testbit color b); [apply Z.eqb_refl | apply Z.eqb_neq; lia].
Qed.

(** Gathering the plane bits of a colour value over the shown planes
    gives the value restricted to these planes. *)
Lemma gather_plane_bits color lo :
  0 <= lo ->
  gather (plane_bit color) (range lo kBitPlanes) 0
  = Z.land color (gather (fun _ => true) (range lo kBitPlanes) 0).
Proof.
  intros Hlo. apply Z.bits_inj'. intros i Hi.
  assert (Hr : forall b, In b (range lo kBitPlanes) -> 0 <= b)
    by (intros b Hb; apply In_range in Hb; lia).
  rewrite Z.land_spec, !testbit_gather by assumption.
  rewrite Z.bits_0. cbn [orb]. rewrite andb_true_r.
  destruct (existsb (Z.eqb i) (range lo kBitPlanes)) eqn:E;
    [|now rewrite andb_false_r].
  apply existsb_exists in E as (b & Hb & Eb). apply Z.eqb_eq in Eb. subst b.
  apply In_range in Hb. unfold kBitPlanes in Hb.
  rewrite plane_bit_testbit by lia. now rewrite andb_true_r.
Qed.

Lemma gather_ext P Q bs acc :
  (forall b, In b bs -> P b = Q b) -> gather P bs acc = gather Q bs acc.
Proof.
  unfold gather. revert acc. induction bs as [|b bs IH]; intros acc H;
    [reflexivity|].
  cbn [fold_left]. rewrite (H b) by now left.
  apply IH. intros; apply H; now right.
Qed.

Lemma testbit_assign_rgb pr pg pb red green blue b w i :
  0 <= pr -> 0 <= pg -> 0 <= pb ->
  Z.testbit (assign_rgb pr pg pb red green blue b w) i
  = if i =? pb then plane_bit blue b
    else if i =? pg then plane_bit green b
    else if i =? pr then plane_bit red b
    else Z.testbit w i.
Proof.
  intros. unfold assign_rgb. cbv zeta.
  now rewrite !testbit_assign_bit by assumption.
Qed.

(** The three fields of a lane are three bits of the word. *)
Lemma lane_positions_distinct fb y l :
  pixel_lane fb y = Some l ->
  let '(pr, pg, pb) := lane_positions po l in
  0 <= pr /\ 0 <= pg /\ 0 <= pb /\ pr <> pg /\ pr <> pb /\ pg <> pb.
Proof.
  unfold pixel_lane.
  repeat match goal with
    | |- context [if ?t then _ else _] => destruct t
    end;
    intros E; try discriminate; injection E as <-;
    cbn [lane_positions];
    repeat split;
    try apply bit0_range; try apply bit1_range;
    intros E;
    first [apply bit0_inj in E | apply bit1_inj in E]; discriminate.
Qed.

Lemma write_lane_geometry fb l d x red green blue :
  let fb' := write_lane po fb l d x red green blue in
  rows_ fb' = rows_ fb /\ parallel_ fb' = parallel_ fb
  /\ height_ fb' = height_ fb /\ columns_ fb' = columns_ fb
  /\ pwm_bits_ fb' = pwm_bits_ fb /\ double_rows_ fb' = double_rows_ fb
  /\ row_mask_ fb' = row_mask_ fb /\ brightness_ fb' = brightness_ fb
  /\ do_luminance_correct_ fb' = do_luminance_correct_ fb.
Proof.
  unfold write_lane. destruct (lane_positions po l) as [[pr pg] pb].
  destruct l; cbn; repeat split.
Qed.

(** The planes read back at one field position of the lane after
    [write_lane]. *)
Lemma read_planes_write_lane fb l d x red green blue pos color :
  wf flags fb ->
  (forall f_r f_g f_b, l = Lane1 f_r f_g f_b ->
     CM_5_CHAIN_SUPPORT flags = true) ->
  0 <= d < double_rows_ fb -> 0 <= x < columns_ fb ->
  (forall b w, 0 <= b < kBitPlanes ->
     let '(pr, pg, pb) := lane_positions po l in
     Z.testbit (assign_rgb pr pg pb red green blue b w) pos
     = plane_bit color b) ->
  let fb' := write_lane po fb l d x red green blue in
  read_planes fb' (lane_buffer fb' l) pos d x
  = Z.land color (shown_planes fb).
Proof.
  intros Hwf Hl Hd Hx Hpos fb'.
  destruct (write_lane_geometry fb l d x red green blue)
    as (_ & _ & _ & Hcols & Hpwm & _).
  fold fb' in Hcols, Hpwm.
  pose proof (wf_pwm_bits _ _ Hwf) as Hp.
  unfold read_planes, shown_planes. rewrite Hpwm.
  rewrite <- gather_plane_bits by lia.
  apply gather_ext. intros b Hb. apply In_range in Hb.
  replace (ValueAt fb' d x b) with (ValueAt fb d x b)
    by (unfold ValueAt; now rewrite Hcols).
  unfold fb'. rewrite write_lane_cell by (try assumption; lia).
  rewrite !Z.eqb_refl. cbn [andb].
  destruct (Z.leb_spec (kBitPlanes - pwm_bits_ fb) b); [|lia].
  specialize (Hpos b (deref (lane_buffer fb l) (ValueAt fb d x b))).
  destruct (lane_positions po l) as [[pr pg] pb]. apply Hpos. lia.
Qed.

(** C5, as amended: for a pixel in range, the planes read back after
    [SetPixel (x, y, r, g, b)] are the three values [MapColor] gives for
    r, g and b (g and b exchanged in the swap build), each restricted to
    the shown planes [11 - pwm_bits, 11). *)
Theorem SetPixel_read_back fb x y r g b :
  wf flags fb -> 0 <= x < columns_ fb -> 0 <= y < height_ fb ->
  read_back po (SetPixel flags po fb x y r g b) x y
  = Some
      (Z.land (MapColor flags fb r) (shown_planes fb),
       Z.land (MapColor flags fb (if PANEL_SWAP_G_B_ flags then b else g))
              (shown_planes fb),
       Z.land (MapColor flags fb (if PANEL_SWAP_G_B_ flags then g else b))
              (shown_planes fb)).
Proof.
  intros Hwf Hx Hy.
  destruct (SetPixel_write_lane fb x y r g b Hwf Hx Hy)
    as (l & Hl & Hcm & ->).
  set (red := MapColor flags fb r).
  set (green := MapColor flags fb (if PANEL_SWAP_G_B_ flags then b else g)).
  set (blue := MapColor flags fb (if PANEL_SWAP_G_B_ flags then g else b)).
  destruct (wf_facts fb Hwf) as (_ & _ & _ & _ & _ & Hd).
  assert (Hm : 0 <= y mod double_rows_ fb < double_rows_ fb)
    by (apply Z.mod_pos_bound; lia).
  set (d := y mod double_rows_ fb) in *.
  destruct (write_lane_geometry fb l d x red green blue)
    as (Hrows & _ & _ & _ & _ & Hdr & _).
  unfold read_back, pixel_lane. rewrite Hrows, Hdr.
  fold (pixel_lane fb y). rewrite Hl. fold d.
  pose proof (lane_positions_distinct fb y l Hl) as Hdist.
  pose proof (read_planes_write_lane fb l d x red green blue) as R.
  destruct (lane_positions po l) as [[pr pg] pb].
  destruct Hdist as (Hr0 & Hg0 & Hb0 & Hrg & Hrb & Hgb).
  rewrite (R pr red), (R pg green), (R pb blue); try assumption;
    try reflexivity;
    intros p w Hp; rewrite testbit_assign_rgb by assumption;
    case_tests; reflexivity.
Qed.

(** ** Fill and Clear *)

Lemma Fill_columns_fold l w buf p q :
  let r := fold_left (fun '(buf, row_data) (_ : Z) =>
                        (store buf row_data w, row_data + 1)) l (buf, p) in
  length (fst r) = length buf
  /\ ((forall k, 0 <= k < Z.of_nat (length l) -> q <> p + k) ->
      deref (fst r) q = deref buf q).
Proof.
  revert buf p. induction l as [|x l IH]; intros buf p; cbn [fold_left].
  - split; reflexivity.
  - destruct (IH (store buf p w) (p + 1)) as [IHl IHf]. split.
    + rewrite IHl. apply length_store.
    + intros H. rewrite IHf.
      * apply deref_store_ne. specialize (H 0). cbn [length] in H. lia.
      * intros k Hk. specialize (H (k + 1)). cbn [length] in H. lia.
Qed.

Lemma Fill_rows_fold fb b w rs buf q :
  let r := fold_left (fun buf row =>
                        Fill_columns (columns_ fb) w (ValueAt fb row 0 b) buf)
                     rs buf in
  length r = length buf
  /\ ((forall row col, In row rs -> 0 <= col < columns_ fb ->
         q <> ValueAt fb row col b) ->
      deref r q = deref buf q).
Proof.
  revert buf. induction rs as [|row rs IH]; intros buf; cbn [fold_left].
  - split; reflexivity.
  - set (buf' := Fill_columns (columns_ fb) w (ValueAt fb row 0 b) buf).
    destruct (IH buf') as [IHl IHf].
    destruct (Fill_columns_fold (range 0 (columns_ fb)) w buf
                (ValueAt fb row 0 b) q) as [Cl Cf].
    fold (Fill_columns (columns_ fb) w (ValueAt fb row 0 b) buf) in Cl, Cf.
    fold buf' in Cl, Cf. split.
    + now rewrite IHl.
    + intros H. rewrite IHf.
      * apply Cf. intros k Hk. rewrite length_range in Hk.
        specialize (H row k (or_introl eq_refl)). unfold ValueAt in *. lia.
      * intros row' col Hin. apply H. now right.
Qed.

Lemma Fill_planes_fold fb (w0 w1 : Z -> Z) bs buf0 buf1 q :
  let r := fold_left
             (fun '(buf0, buf1) b =>
                (Fill_rows fb b (w0 b) buf0,
                 if CM_5_CHAIN_SUPPORT flags
                 then Fill_rows fb b (w1 b) buf1 else buf1))
             bs (buf0, buf1) in
  length (fst r) = length buf0 /\ length (snd r) = length buf1
  /\ ((forall b row col, In b bs -> 0 <= row < double_rows_ fb ->
         0 <= col < columns_ fb -> q <> ValueAt fb row col b) ->
      deref (fst r) q = deref buf0 q /\ deref (snd r) q = deref buf1 q).
Proof.
  revert buf0 buf1. induction bs as [|b bs IH]; intros buf0 buf1;
    cbn [fold_left].
  - repeat split; reflexivity.
  - set (b0' := Fill_rows fb b (w0 b) buf0).
    set (b1' := if CM_5_CHAIN_SUPPORT flags
                then Fill_rows fb b (w1 b) buf1 else buf1).
    destruct (IH b0' b1') as (L0 & L1 & F).
    destruct (Fill_rows_fold fb b (w0 b) (range 0 (double_rows_ fb)) buf0 q)
      as [R0l R0f].
    destruct (Fill_rows_fold fb b (w1 b) (range 0 (double_rows_ fb)) buf1 q)
      as [R1l R1f].
    fold (Fill_rows fb b (w0 b) buf0) in R0l, R0f.
    fold (Fill_rows fb b (w1 b) buf1) in R1l, R1f.
    assert (E1 : length b1' = length buf1)
      by (unfold b1'; destruct (CM_5_CHAIN_SUPPORT flags); auto).
    split; [now rewrite L0|]. split; [now rewrite L1|].
    intros H.
    destruct F as [F0 F1]; [intros b' row col Hin; apply H; now right|].
    assert (Hb : forall row col, In row (range 0 (double_rows_ fb)) ->
                   0 <= col < columns_ fb -> q <> ValueAt fb row col b).
    { intros row col Hrow Hcol. apply In_range in Hrow.
      apply H; [now left | lia | assumption]. }
    split.
    + rewrite F0. now apply R0f.
    + rewrite F1. unfold b1'.
      destruct (CM_5_CHAIN_SUPPORT flags); [now apply R1f | reflexivity].
Qed.

(** [Fill] keeps the geometry and the buffer sizes, and leaves the words
    of the planes below [kBitPlanes - pwm_bits_] as they are. *)
Lemma Fill_spec fb r g b :
  let fb' := Fill flags po fb r g b in
  rows_ fb' = rows_ fb /\ parallel_ fb' = parallel_ fb
  /\ height_ fb' = height_ fb /\ columns_ fb' = columns_ fb
  /\ pwm_bits_ fb' = pwm_bits_ fb /\ double_rows_ fb' = double_rows_ fb
  /\ row_mask_ fb' = row_mask_ fb
  /\ length (bitplane_buffer_0 fb') = length (bitplane_buffer_0 fb)
  /\ length (bitplane_buffer_1 fb') = length (bitplane_buffer_1 fb)
  /\ (forall d c p,
        0 <= c < columns_ fb -> 0 <= p < kBitPlanes - pwm_bits_ fb ->
        deref (bitplane_buffer_0 fb') (ValueAt fb d c p)
        = deref (bitplane_buffer_0 fb) (ValueAt fb d c p)
        /\ deref (bitplane_buffer_1 fb') (ValueAt fb d c p)
           = deref (bitplane_buffer_1 fb) (ValueAt fb d c p)).
Proof.
  unfold Fill. cbv zeta.
  set (red := MapColor flags fb r).
  set (green := MapColor flags fb (if PANEL_SWAP_G_B_ flags then b else g)).
  set (blue := MapColor flags fb (if PANEL_SWAP_G_B_ flags then g else b)).
  pose proof (fun q =>
    Fill_planes_fold fb (Fill_plane_bits0 flags po red green blue)
      (Fill_plane_bits1 po red green blue)
      (range (kBitPlanes - pwm_bits_ fb) kBitPlanes)
      (bitplane_buffer_0 fb) (bitplane_buffer_1 fb) q) as H.
  cbv zeta in H.
  destruct (fold_left _ _ _) as [buf0 buf1]. cbn [fst snd] in H.
  cbn [with_buffers rows_ parallel_ height_ columns_ pwm_bits_ double_rows_
       row_mask_ bitplane_buffer_0 bitplane_buffer_1].
  repeat (split; [reflexivity|]).
  split; [apply (H 0)|]. split; [apply (H 0)|].
  intros d c p Hc Hp. apply H.
  intros b' row col Hb' Hrow Hcol E. apply In_range in Hb'.
  apply ValueAt_inj in E; unfold kBitPlanes in *; lia.
Qed.

Lemma memset0_all buf n :
  length buf = Z.to_nat n -> memset0 buf n = replicate (Z.to_nat n) 0.
Proof.
  intros H. unfold memset0. rewrite drop_ge by lia. apply app_nil_r.
Qed.

Lemma deref_replicate_0 n q : deref (replicate n 0) q = 0.
Proof.
  unfold deref. destruct (q <? 0); [reflexivity|].
  destruct (replicate n 0 !! Z.to_nat q) as [w|] eqn:E; [|reflexivity].
  apply lookup_replicate in E as [-> _]. reflexivity.
Qed.

(** Without the inverse option [Clear] zeroes every word. *)
Lemma Clear_zero fb q :
  INVERSE_RGB_DISPLAY_COLORS flags = false -> wf flags fb ->
  deref (bitplane_buffer_0 (Clear flags po fb)) q = 0
  /\ (CM_5_CHAIN_SUPPORT flags = true ->
      deref (bitplane_buffer_1 (Clear flags po fb)) q = 0).
Proof.
  intros Hinv Hwf. unfold Clear. rewrite Hinv.
  cbn [with_buffers bitplane_buffer_0 bitplane_buffer_1].
  rewrite memset0_all by apply (wf_buffer_0 _ _ Hwf).
  split; [apply deref_replicate_0|].
  intros E. rewrite E.
  rewrite memset0_all by (now apply (wf_buffer_1 _ _ Hwf)).
  apply deref_replicate_0.
Qed.

(** ** Mutators keep objects well formed *)

Lemma Fill_wf fb r g b : wf flags fb -> wf flags (Fill flags po fb r g b).
Proof.
  intros Hwf.
  destruct (Fill_spec fb r g b)
    as (E1 & E2 & E3 & E4 & E5 & E6 & E7 & L0 & L1 & _).
  destruct Hwf. constructor; rewrite ?E1, ?E2, ?E3, ?E4, ?E5, ?E6, ?E7,
    ?L0, ?L1; auto.
Qed.

Lemma Clear_wf fb : wf flags fb -> wf flags (Clear flags po fb).
Proof.
  intros Hwf. unfold Clear.
  destruct (INVERSE_RGB_DISPLAY_COLORS flags); [now apply Fill_wf|].
  pose proof (wf_buffer_0 _ _ Hwf) as L0.
  pose proof (wf_buffer_1 _ _ Hwf) as L1.
  destruct Hwf. constructor; cbn; auto.
  - rewrite memset0_all by assumption. apply length_replicate.
  - intros E. rewrite E. rewrite memset0_all by auto. apply length_replicate.
Qed.

Lemma SetPixel_wf fb x y r g b :
  wf flags fb -> wf flags (SetPixel flags po fb x y r g b).
Proof.
  intros Hwf.
  destruct (Z.ltb_spec x 0) as [Hx0|Hx0];
    [unfold SetPixel; destruct (Z.ltb_spec x 0); [assumption | lia]|].
  destruct (Z.leb_spec (columns_ fb) x) as [Hx1|Hx1];
    [unfold SetPixel; destruct (Z.leb_spec (columns_ fb) x);
     [now rewrite orb_true_r | lia]|].
  destruct (Z.ltb_spec y 0) as [Hy0|Hy0];
    [unfold SetPixel; destruct (Z.ltb_spec y 0);
     [now rewrite orb_true_r | lia]|].
  destruct (Z.leb_spec (height_ fb) y) as [Hy1|Hy1];
    [unfold SetPixel; destruct (Z.leb_spec (height_ fb) y);
     [now rewrite orb_true_r | lia]|].
  destruct (SetPixel_write_lane fb x y r g b Hwf) as (l & _ & Hcm & ->);
    [lia | lia |].
  match goal with |- wf _ (write_lane _ _ _ ?d _ ?R ?G ?B) =>
    destruct (write_lane_geometry fb l d x R G B)
      as (E1 & E2 & E3 & E4 & E5 & E6 & E7 & _);
    pose proof (lane_buffer_length fb l Hwf Hcm) as Hlen;
    pose proof (wf_buffer_0 _ _ Hwf) as L0;
    pose proof (wf_buffer_1 _ _ Hwf) as L1;
    destruct Hwf; constructor; rewrite ?E1, ?E2, ?E3, ?E4, ?E5, ?E6, ?E7;
      auto;
    unfold write_lane; destruct (lane_positions po l) as [[pr pg] pb];
    destruct l; cbn [with_lane_buffer with_buffers bitplane_buffer_0
                     bitplane_buffer_1 lane_buffer] in *;
    rewrite ?SetPixel_planes_length; auto
  end.
Qed.

Lemma SetPWMBits_wf fb v : wf flags fb -> wf flags (snd (SetPWMBits fb v)).
Proof.
  intros Hwf. unfold SetPWMBits.
  destruct (Z.ltb_spec v 1); [assumption|].
  destruct (Z.ltb_spec kBitPlanes v); [assumption|].
  destruct Hwf. constructor; cbn; auto; lia.
Qed.

Lemma call_wf fb m : wf flags fb -> wf flags (call flags po fb m).
Proof.
  intros Hwf. destruct m; cbn [call].
  - now apply Clear_wf.
  - now apply Fill_wf.
  - now apply SetPixel_wf.
  - now apply SetPWMBits_wf.
  - destruct Hwf. now constructor.
Qed.

Lemma calls_wf ms fb : wf flags fb -> wf flags (calls flags po fb ms).
Proof.
  revert fb. induction ms as [|m ms IH]; intros fb Hwf; [assumption|].
  cbn. apply IH. now apply call_wf.
Qed.

Lemma Framebuffer_new_wf rows columns parallel fb :
  Framebuffer_new flags po rows columns parallel = Some fb -> wf flags fb.
Proof.
  unfold Framebuffer_new. cbv zeta.
  destruct (geometry_accepted flags rows parallel) eqn:Hg; [|discriminate].
  intros E. injection E as <-. apply Clear_wf.
  constructor; cbn; auto.
  - unfold kBitPlanes. lia.
  - apply length_replicate.
  - intros ->. apply length_replicate.
Qed.

(** ** The planes that are not shown *)

Lemma SetPixel_guard fb x y r g b :
  x < 0 \/ columns_ fb <= x \/ y < 0 \/ height_ fb <= y ->
  SetPixel flags po fb x y r g b = fb.
Proof.
  intros H. unfold SetPixel.
  destruct (Z.ltb_spec x 0); [reflexivity|].
  destruct (Z.leb_spec (columns_ fb) x); [reflexivity|].
  destruct (Z.ltb_spec y 0); [reflexivity|].
  destruct (Z.leb_spec (height_ fb) y); [reflexivity|]. lia.
Qed.

Lemma ValueAt_columns fb fb' d c p :
  columns_ fb' = columns_ fb -> ValueAt fb' d c p = ValueAt fb d c p.
Proof. unfold ValueAt. now intros ->. Qed.

Lemma SetPixel_hidden_zero fb x y r g b m :
  wf flags fb -> pwm_bits_ fb <= m ->
  hidden_zero flags m fb ->
  hidden_zero flags m (SetPixel flags po fb x y r g b).
Proof.
  intros Hwf Hm Hz.
  destruct (Z.ltb_spec x 0);
    [rewrite SetPixel_guard by lia; assumption|].
  destruct (Z.leb_spec (columns_ fb) x);
    [rewrite SetPixel_guard by lia; assumption|].
  destruct (Z.ltb_spec y 0);
    [rewrite SetPixel_guard by lia; assumption|].
  destruct (Z.leb_spec (height_ fb) y);
    [rewrite SetPixel_guard by lia; assumption|].
  destruct (SetPixel_write_lane fb x y r g b Hwf) as (l & _ & Hcm & ->);
    [lia | lia |].
  destruct (wf_facts fb Hwf) as (_ & _ & _ & _ & _ & Hd).
  assert (Hmod : 0 <= y mod double_rows_ fb < double_rows_ fb)
    by (apply Z.mod_pos_bound; lia).
  match goal with |- hidden_zero _ _ (write_lane _ _ _ ?d _ ?R ?G ?B) =>
    set (row := d) in *; set (red := R); set (green := G); set (blue := B)
  end.
  destruct (write_lane_geometry fb l row x red green blue)
    as (_ & _ & _ & Hcols & _ & Hdr & _).
  intros d c p Hd' Hc Hp. rewrite Hdr in Hd'. rewrite Hcols in Hc.
  rewrite (ValueAt_columns fb) by assumption.
  destruct (Hz d c p Hd' Hc Hp) as [Z0 Z1].
  pose proof (wf_pwm_bits _ _ Hwf) as Hpwm.
  pose proof (write_lane_cell fb l row x red green blue d c p Hwf Hcm
                Hmod ltac:(lia) Hc ltac:(lia)) as Hcell.
  destruct (Z.leb_spec (kBitPlanes - pwm_bits_ fb) p); [lia|].
  rewrite andb_false_r in Hcell.
  unfold write_lane in *. destruct (lane_positions po l) as [[pr pg] pb].
  destruct l; cbn [with_lane_buffer with_buffers bitplane_buffer_0
                   bitplane_buffer_1 lane_buffer] in *.
  - rewrite Hcell. split; assumption.
  - split; [assumption|]. intros _. rewrite Hcell. apply Z1.
    eapply Hcm. reflexivity.
Qed.

Lemma Fill_hidden_zero fb r g b m :
  pwm_bits_ fb <= m ->
  hidden_zero flags m fb -> hidden_zero flags m (Fill flags po fb r g b).
Proof.
  intros Hm Hz.
  destruct (Fill_spec fb r g b)
    as (_ & _ & _ & Hcols & _ & Hdr & _ & _ & _ & Hf).
  intros d c p Hd Hc Hp. rewrite Hdr in Hd. rewrite Hcols in Hc.
  rewrite (ValueAt_columns fb) by assumption.
  destruct (Hf d c p Hc ltac:(lia)) as [-> ->]. now apply Hz.
Qed.

Lemma call_hidden_zero fb mu m :
  wf flags fb -> pwm_bits_ fb <= m ->
  hidden_zero flags m fb -> hidden_zero flags m (call flags po fb mu).
Proof.
  intros Hwf Hm Hz. destruct mu; cbn [call].
  - unfold Clear. destruct (INVERSE_RGB_DISPLAY_COLORS flags) eqn:Hinv;
      [now apply Fill_hidden_zero|].
    intros d c p _ _ _.
    pose proof (Clear_zero fb (ValueAt fb d c p) Hinv Hwf) as H.
    unfold Clear in H. rewrite Hinv in H. exact H.
  - now apply Fill_hidden_zero.
  - now apply SetPixel_hidden_zero.
  - unfold SetPWMBits.
    destruct ((value <? 1) || (kBitPlanes <? value)); exact Hz.
  - exact Hz.
Qed.

Lemma pwm_bits_le_max fb ms : pwm_bits_ fb <= max_pwm_bits flags po fb ms.
Proof. destruct ms; cbn [max_pwm_bits]; lia. Qed.

Lemma calls_hidden_zero ms fb m :
  wf flags fb -> max_pwm_bits flags po fb ms <= m ->
  hidden_zero flags m fb -> hidden_zero flags m (calls flags po fb ms).
Proof.
  revert fb. induction ms as [|mu ms IH]; intros fb Hwf Hm Hz;
    [assumption|].
  cbn [calls fold_left]. cbn [max_pwm_bits] in Hm.
  apply IH.
  - now apply call_wf.
  - lia.
  - apply call_hidden_zero; [assumption | lia | assumption].
Qed.

(** C3, as amended: in a build without the inverse option, take an
    object that was constructed and then used through any mutator calls,
    call [Clear], and then any further mutator calls.  Every word of a
    plane below [11 - m], where [m] is the largest value [pwm_bits_] has
    had since that [Clear], is zero: all its fields, the colour fields
    among them, read 0. *)
Theorem hidden_planes_zero_since_Clear
  rows columns parallel fb0 ms0 ms d c p :
  INVERSE_RGB_DISPLAY_COLORS flags = false ->
  Framebuffer_new flags po rows columns parallel = Some fb0 ->
  let fb1 := Clear flags po (calls flags po fb0 ms0) in
  let fb2 := calls flags po fb1 ms in
  0 <= d < double_rows_ fb2 -> 0 <= c < columns_ fb2 ->
  0 <= p < kBitPlanes - max_pwm_bits flags po fb1 ms ->
  (forall f,
     get0 po (deref (bitplane_buffer_0 fb2) (ValueAt fb2 d c p)) f = false)
  /\ (CM_5_CHAIN_SUPPORT flags = true ->
      forall f,
        get1 po (deref (bitplane_buffer_1 fb2) (ValueAt fb2 d c p)) f
        = false).
Proof.
  intros Hinv Hnew fb1 fb2 Hd Hc Hp.
  assert (Hwf0 : wf flags (calls flags po fb0 ms0))
    by (apply calls_wf; eapply Framebuffer_new_wf; eassumption).
  assert (Hwf1 : wf flags fb1) by now apply Clear_wf.
  assert (Hz1 : hidden_zero flags (max_pwm_bits flags po fb1 ms) fb1).
  { intros d' c' p' _ _ _.
    apply (Clear_zero _ _ Hinv Hwf0). }
  pose proof (calls_hidden_zero ms fb1 _ Hwf1 (Z.le_refl _) Hz1) as Hz2.
  fold fb2 in Hz2. destruct (Hz2 d c p Hd Hc Hp) as [Z0 Z1].
  split.
  - intros f. unfold get0. rewrite Z0. apply Z.bits_0.
  - intros E f. unfold get1. rewrite (Z1 E). apply Z.bits_0.
Qed.

(** ** The constructed object *)

Lemma Framebuffer_new_fields rows columns parallel fb :
  INVERSE_RGB_DISPLAY_COLORS flags = false ->
  Framebuffer_new flags po rows columns parallel = Some fb ->
  rows_ fb = rows /\ columns_ fb = columns /\ parallel_ fb = parallel
  /\ height_ fb = rows * parallel
  /\ pwm_bits_ fb = kBitPlanes /\ brightness_ fb = 100
  /\ do_luminance_correct_ fb = true
  /\ forall q, deref (bitplane_buffer_0 fb) q = 0.
Proof.
  intros Hinv Hnew. pose proof Hnew as Hnew'.
  unfold Framebuffer_new in Hnew. cbv zeta in Hnew.
  destruct (geometry_accepted flags rows parallel); [|discriminate].
  injection Hnew as <-. unfold Clear. rewrite Hinv. cbn.
  repeat (split; [reflexivity|]).
  intros q. unfold new_IoBits. rewrite memset0_all by apply length_replicate.
  apply deref_replicate_0.
Qed.

Lemma luminance_full : luminance_cie1931 255 100 = 2047.
Proof. vm_compute. reflexivity. Qed.

Lemma luminance_off : luminance_cie1931 0 100 = 0.
Proof. vm_compute. reflexivity. Qed.

Lemma plane_bit_2047 p : 0 <= p < kBitPlanes -> plane_bit 2047 p = true.
Proof.
  unfold kBitPlanes. intros Hp. rewrite plane_bit_testbit by lia.
  change 2047 with (Z.ones 11). apply Z.ones_spec_low. lia.
Qed.

Lemma plane_bit_0 p : 0 <= p < kBitPlanes -> plane_bit 0 p = false.
Proof.
  unfold kBitPlanes. intros Hp. rewrite plane_bit_testbit by lia.
  apply Z.bits_0.
Qed.

(** C4, as amended: rows = 32, columns = 32, parallel = 1, as
    constructed (pwm_bits = 11, brightness = 100, luminance correction
    on), in a build without the inverse option.  After
    [SetPixel (0, 0, 255, 0, 0)] the word of (double_row 0, column 0) has
    p0_r1 = 1 and every other field 0 in every plane, in plane 10 and in
    plane 0 alike, since [MapColor 255] is 2047; the words of every other
    column are zero as [Clear] left them, and the second buffer is not
    touched. *)
Theorem S1_red_pixel fb :
  INVERSE_RGB_DISPLAY_COLORS flags = false ->
  Framebuffer_new flags po 32 32 1 = Some fb ->
  let fb' := SetPixel flags po fb 0 0 255 0 0 in
  (forall p f, 0 <= p < kBitPlanes ->
     get0 po (deref (bitplane_buffer_0 fb') (ValueAt fb' 0 0 p)) f = true
     <-> f = IoBits0.p0_r1)
  /\ (forall d c p,
        0 <= d < double_rows_ fb' -> 0 < c < 32 -> 0 <= p < kBitPlanes ->
        deref (bitplane_buffer_0 fb') (ValueAt fb' d c p) = 0)
  /\ bitplane_buffer_1 fb' = bitplane_buffer_1 fb.
Proof.
  intros Hinv Hnew fb'.
  pose proof (Framebuffer_new_wf _ _ _ _ Hnew) as Hwf.
  destruct (Framebuffer_new_fields _ _ _ _ Hinv Hnew)
    as (Hrows & Hcols & Hpar & Hh & Hpwm & Hbr & Hlum & Hzero).
  destruct (wf_facts fb Hwf) as (_ & _ & _ & _ & _ & Hd).
  destruct (SetPixel_write_lane fb 0 0 255 0 0 Hwf) as (l & Hl & Hcm & E);
    [lia | lia |].
  assert (El : l = Lane0 IoBits0.p0_r1 IoBits0.p0_g1 IoBits0.p0_b1).
  { unfold pixel_lane in Hl. rewrite Hrows in Hl.
    change (0 / 32) with 0 in Hl. change (0 mod 32) with 0 in Hl.
    cbn [Z.eqb] in Hl. destruct (Z.ltb_spec 0 (double_rows_ fb)); [|lia].
    congruence. }
  subst l. rewrite Z.mod_0_l in E by lia.
  assert (Hred : MapColor flags fb 255 = 2047).
  { rewrite MapColor_corrected by (rewrite ?Hbr; auto; lia).
    rewrite Hbr, luminance_full. unfold COLOR_OUT_BITS. now rewrite Hinv. }
  assert (Hoff : MapColor flags fb 0 = 0).
  { rewrite MapColor_corrected by (rewrite ?Hbr; auto; lia).
    rewrite Hbr, luminance_off. unfold COLOR_OUT_BITS. now rewrite Hinv. }
  assert (E' : fb' = write_lane po fb
                 (Lane0 IoBits0.p0_r1 IoBits0.p0_g1 IoBits0.p0_b1)
                 0 0 2047 0 0).
  { unfold fb'. rewrite E, Hred.
    destruct (PANEL_SWAP_G_B_ flags); now rewrite Hoff. }
  clearbody fb'. subst fb'.
  pose proof (write_lane_cell fb
                (Lane0 IoBits0.p0_r1 IoBits0.p0_g1 IoBits0.p0_b1)
                0 0 2047 0 0) as Hcell.
  cbn [lane_buffer lane_positions] in Hcell.
  destruct (write_lane_geometry fb
              (Lane0 IoBits0.p0_r1 IoBits0.p0_g1 IoBits0.p0_b1)
              0 0 2047 0 0) as (_ & _ & _ & Hcols' & _ & Hdr' & _).
  split; [|split].
  - intros p f Hp. rewrite (ValueAt_columns fb) by assumption.
    rewrite Hcell by (try assumption; lia).
    rewrite !Z.eqb_refl. cbn [andb].
    destruct (Z.leb_spec (kBitPlanes - pwm_bits_ fb) p); [|lia].
    unfold get0. rewrite testbit_assign_rgb by apply bit0_range.
    rewrite Hzero, Z.bits_0, plane_bit_2047, plane_bit_0 by assumption.
    destruct (Z.eqb_spec (bit0 po f) (bit0 po IoBits0.p0_b1)) as [Eq|Nb];
      [apply bit0_inj in Eq; subst f; split; intros Hf; discriminate|].
    destruct (Z.eqb_spec (bit0 po f) (bit0 po IoBits0.p0_g1)) as [Eq|Ng];
      [apply bit0_inj in Eq; subst f; split; intros Hf; discriminate|].
    destruct (Z.eqb_spec (bit0 po f) (bit0 po IoBits0.p0_r1)) as [Eq|Nr];
      [apply bit0_inj in Eq; subst f; split; reflexivity|].
    split; intros Hf; [discriminate | subst f; congruence].
  - intros d c p Hd' Hc Hp. rewrite Hdr' in Hd'.
    rewrite (ValueAt_columns fb) by assumption.
    rewrite Hcell by (try assumption; lia).
    destruct (Z.eqb_spec c 0); [lia|].
    rewrite andb_false_r. cbn [andb]. apply Hzero.
  - reflexivity.
Qed.

(** ** SetPWMBits *)

(** C7: [SetPWMBits v] fails exactly when [v < 1] or [v > 11]; a failed
    call leaves the object as it is; a successful call stores [v] in
    [pwm_bits_] and changes nothing else; the calls with 1 and with 11
    succeed. *)
Theorem SetPWMBits_spec fb v :
  (fst (SetPWMBits fb v) = false <-> v < 1 \/ v > 11)
  /\ (fst (SetPWMBits fb v) = false -> snd (SetPWMBits fb v) = fb)
  /\ (fst (SetPWMBits fb v) = true ->
      snd (SetPWMBits fb v) = with_pwm_bits fb v
      /\ pwm_bits_ (snd (SetPWMBits fb v)) = v)
  /\ SetPWMBits fb 1 = (true, with_pwm_bits fb 1)
  /\ SetPWMBits fb 11 = (true, with_pwm_bits fb 11).
Proof.
  unfold SetPWMBits, kBitPlanes.
  destruct (Z.ltb_spec v 1), (Z.ltb_spec 11 v); cbn;
    repeat split; intros; try reflexivity; try discriminate; lia.
Qed.

(** ** SetPixel out of range *)

(** C8: for (x, y) with x < 0, x >= columns, y < 0 or
    y >= rows * parallel, [SetPixel] returns the object as it was, so
    both buffers are identical to their state before the call. *)
Theorem SetPixel_out_of_range fb x y r g b :
  height_ fb = rows_ fb * parallel_ fb ->
  x < 0 \/ x >= columns_ fb \/ y < 0 \/ y >= rows_ fb * parallel_ fb ->
  SetPixel flags po fb x y r g b = fb.
Proof.
  intros Hh H. apply SetPixel_guard. lia.
Qed.

(** ** The pulse durations *)

Lemma bitplane_timings_eq :
  bitplane_timings
  = [130; 260; 520; 1040; 2080; 4160; 8320; 16640; 33280; 66560; 133120].
Proof. reflexivity. Qed.

(** C10: the table of durations that [InitGPIO] hands to the pin pulser
    has 11 entries, and entry k is the base time of 130 ns shifted left
    by k, that is 130 * 2^k. *)
Theorem bitplane_timings_spec io rows parallel result0 result1 pulser k :
  InitGPIO flags po io rows parallel None
  = Initialized result0 result1 pulser ->
  0 <= k < kBitPlanes ->
  pulser_timings pulser !! Z.to_nat k = Some (kBaseTimeNanos ≪ k)
  /\ kBaseTimeNanos ≪ k = 130 * 2 ^ k
  /\ length (pulser_timings pulser) = 11%nat.
Proof.
  unfold InitGPIO, kBitPlanes. intros Hinit Hk.
  destruct (negb _); [discriminate|].
  destruct (_ && _); [discriminate|].
  injection Hinit as _ _ <-. cbn [pulser_timings].
  rewrite bitplane_timings_eq. rewrite Z.shiftl_mul_pow2 by lia.
  unfold kBaseTimeNanos.
  assert (Ek : k = 0 \/ k = 1 \/ k = 2 \/ k = 3 \/ k = 4 \/ k = 5 \/ k = 6
               \/ k = 7 \/ k = 8 \/ k = 9 \/ k = 10) by lia.
  repeat (destruct Ek as [-> | Ek]; [repeat split|]). subst k. repeat split.
Qed.

(** ** Masks *)

Lemma testbit_set0 w f v i :
  Z.testbit (set0 po w f v) i
  = if i =? bit0 po f then v else Z.testbit w i.
Proof. apply testbit_assign_bit, bit0_range. Qed.

Lemma testbit_set0_all w fs v i :
  Z.testbit (set0_all po w fs v) i
  = if existsb (fun f => i =? bit0 po f) fs then v else Z.testbit w i.
Proof.
  unfold set0_all. revert w. induction fs as [|f fs IH]; intros w;
    [reflexivity|].
  cbn [fold_left existsb]. rewrite IH, testbit_set0.
  destruct (i =? bit0 po f), (existsb _ fs); reflexivity.
Qed.

Lemma testbit_set1 w f v i :
  Z.testbit (set1 po w f v) i
  = if i =? bit1 po f then v else Z.testbit w i.
Proof. apply testbit_assign_bit, bit1_range. Qed.

Lemma testbit_set1_all w fs v i :
  Z.testbit (set1_all po w fs v) i
  = if existsb (fun f => i =? bit1 po f) fs then v else Z.testbit w i.
Proof.
  unfold set1_all. revert w. induction fs as [|f fs IH]; intros w;
    [reflexivity|].
  cbn [fold_left existsb]. rewrite IH, testbit_set1.
  destruct (i =? bit1 po f), (existsb _ fs); reflexivity.
Qed.

Lemma subset_testbit m d :
  (forall i, 0 <= i -> Z.testbit m i = true -> Z.testbit d i = true) ->
  subset m d.
Proof.
  intros H. apply Z.bits_inj'. intros i Hi.
  rewrite Z.ldiff_spec, Z.bits_0.
  destruct (Z.testbit m i) eqn:E; [|reflexivity].
  now rewrite (H i Hi E).
Qed.

Lemma subset_0 d : subset 0 d.
Proof. apply Z.ldiff_0_l. Qed.

Lemma not_subset m d i :
  Z.testbit m i = true -> Z.testbit d i = false -> ~ subset m d.
Proof.
  intros Hm Hd H. unfold subset in H.
  apply (f_equal (fun z => Z.testbit z i)) in H.
  rewrite Z.ldiff_spec, Hm, Hd, Z.bits_0 in H. discriminate.
Qed.

(** Rewriting the bits of the masks into tests on the position. *)
Ltac mask_bits :=
  repeat first
    [ rewrite testbit_set0 | rewrite testbit_set0_all
    | rewrite testbit_set1 | rewrite testbit_set1_all
    | rewrite Z.bits_0 ];
  cbn [existsb].

Lemma testbit_row_mask i :
  Z.testbit (row_mask po) i
  = ((i =? bit0 po IoBits0.e) || (i =? bit0 po IoBits0.d)
     || (i =? bit0 po IoBits0.c) || (i =? bit0 po IoBits0.b)
     || (i =? bit0 po IoBits0.a)).
Proof.
  unfold row_mask. mask_bits. rewrite orb_false_r.
  repeat match goal with |- context [?u =? ?v] => destruct (u =? v) end;
    reflexivity.
Qed.

Lemma testbit_strobe_bits i :
  Z.testbit (strobe_bits po) i = (i =? bit0 po IoBits0.strobe).
Proof.
  unfold strobe_bits. mask_bits. now destruct (i =? _).
Qed.

Lemma clock_in_clock_bits :
  Z.testbit (clock_bits flags po) (bit0 po IoBits0.clock) = true.
Proof.
  unfold clock_bits. cbv zeta. rewrite testbit_set0. now rewrite Z.eqb_refl.
Qed.

Lemma clock_in_color_clk_mask0 parallel :
  Z.testbit (color_clk_mask0 flags po parallel) (bit0 po IoBits0.clock)
  = true.
Proof.
  unfold color_clk_mask0. cbv zeta. rewrite testbit_set0.
  now rewrite Z.eqb_refl.
Qed.

Lemma clock_not_strobe :
  Z.testbit (strobe_bits po) (bit0 po IoBits0.clock) = false.
Proof.
  rewrite testbit_strobe_bits. apply Z.eqb_neq. intros E.
  apply bit0_inj in E. discriminate.
Qed.

Lemma clock_not_in_row_mask :
  Z.testbit (row_mask po) (bit0 po IoBits0.clock) = false.
Proof.
  rewrite testbit_row_mask.
  repeat match goal with
    | |- context [?u =? ?v] =>
        destruct (Z.eqb_spec u v) as [E|_];
        [apply bit0_inj in E; discriminate|]
    end.
  reflexivity.
Qed.

(** ** The row address *)

Lemma testbit_set_row_address w d_row i :
  Z.testbit (set_row_address po w d_row) i
  = if i =? bit0 po IoBits0.e then Z.odd (d_row ≫ 4)
    else if i =? bit0 po IoBits0.d then Z.odd (d_row ≫ 3)
    else if i =? bit0 po IoBits0.c then Z.odd (d_row ≫ 2)
    else if i =? bit0 po IoBits0.b then Z.odd (d_row ≫ 1)
    else if i =? bit0 po IoBits0.a then Z.odd d_row
    else Z.testbit w i.
Proof. unfold set_row_address. cbv zeta. now rewrite !testbit_set0. Qed.

(** The five assignments overwrite what earlier rows left in
    [row_address]. *)
Lemma set_row_address_overwrite w d' d_row :
  set_row_address po (set_row_address po w d') d_row
  = set_row_address po w d_row.
Proof.
  apply Z.bits_inj'. intros i _. rewrite !testbit_set_row_address.
  repeat match goal with |- context [?u =? ?v] => destruct (u =? v) end;
    reflexivity.
Qed.

(** [DumpToMatrix] as the sequence of its rows: each row is handled with
    the address word that the assignments give from a zero word. *)
Lemma DumpToMatrix_during_rows fb during :
  DumpToMatrix_during flags po fb during
  = flat_map
      (fun d_row =>
         DumpToMatrix_row flags po (pwm_bits_ fb) (during d_row)
           (set_row_address po 0 d_row) d_row)
      (range 0 (double_rows_ fb)).
Proof.
  unfold DumpToMatrix_during. cbv zeta.
  assert (G : forall ds ra cs,
             (forall d, set_row_address po ra d = set_row_address po 0 d) ->
             snd (fold_left
                    (fun '(row_address, calls) d_row =>
                       (set_row_address po row_address d_row,
                        calls ++ DumpToMatrix_row flags po (pwm_bits_ fb)
                                   (during d_row)
                                   (set_row_address po row_address d_row)
                                   d_row))
                    ds (ra, cs))
             = cs ++ flat_map
                       (fun d_row =>
                          DumpToMatrix_row flags po (pwm_bits_ fb)
                            (during d_row) (set_row_address po 0 d_row) d_row)
                       ds).
  { induction ds as [|d ds IH]; intros ra cs Hra; cbn [fold_left flat_map].
    - now rewrite app_nil_r.
    - rewrite IH.
      + rewrite Hra. now rewrite <- app_assoc.
      + intros d'. rewrite set_row_address_overwrite. apply Hra. }
  apply (G _ 0 []). reflexivity.
Qed.


(** ** Planes per row *)

Lemma filter_flat_map {A B} (f : B -> bool) (g : A -> list B) l :
  List.filter f (flat_map g l) = flat_map (fun x => List.filter f (g x)) l.
Proof.
  induction l as [|x l IH]; [reflexivity|].
  cbn [flat_map]. now rewrite List.filter_app, IH.
Qed.

Lemma flat_map_nil {A B} (g : A -> list B) l :
  (forall x, g x = []) -> flat_map g l = [].
Proof.
  intros H. induction l as [|x l IH]; [reflexivity|].
  cbn [flat_map]. now rewrite H, IH.
Qed.

Lemma clock_bits_not_strobe :
  (clock_bits flags po =? strobe_bits po) = false.
Proof.
  apply Z.eqb_neq. intros E.
  pose proof clock_in_clock_bits as H. rewrite E in H.
  pose proof clock_not_strobe. congruence.
Qed.

Lemma color_clk_mask0_not_strobe parallel :
  (color_clk_mask0 flags po parallel =? strobe_bits po) = false.
Proof.
  apply Z.eqb_neq. intros E.
  pose proof (clock_in_color_clk_mask0 parallel) as H. rewrite E in H.
  pose proof clock_not_strobe. congruence.
Qed.

(** ** The masks of the refresh pass and the declared pins *)

Lemma testbit_set0_true w f i :
  Z.testbit (set0 po w f true) i = (i =? bit0 po f) || Z.testbit w i.
Proof. rewrite testbit_set0. now destruct (i =? _). Qed.

Lemma testbit_set0_all_true w fs i :
  Z.testbit (set0_all po w fs true) i
  = existsb (fun f => i =? bit0 po f) fs || Z.testbit w i.
Proof. rewrite testbit_set0_all. now destruct (existsb _ _). Qed.

Lemma testbit_set1_all_true w fs i :
  Z.testbit (set1_all po w fs true) i
  = existsb (fun f => i =? bit1 po f) fs || Z.testbit w i.
Proof. rewrite testbit_set1_all. now destruct (existsb _ _). Qed.

Lemma testbit_if (c : bool) x y i :
  Z.testbit (if c then x else y) i
  = if c then Z.testbit x i else Z.testbit y i.
Proof. now destruct c. Qed.

(** The address lines that [InitGPIO] adds keep the bits declared before
    them. *)
Lemma testbit_keep_set0 w f i :
  Z.testbit w i = true -> Z.testbit (set0 po w f true) i = true.
Proof. intros H. rewrite testbit_set0_true, H. apply orb_true_r. Qed.

Lemma testbit_keep_if_set0 (c : bool) w f i :
  Z.testbit w i = true ->
  Z.testbit (if c then set0 po w f true else w) i = true.
Proof. destruct c; [apply testbit_keep_set0 | auto]. Qed.

(** Fields that are set under a condition. *)
Lemma testbit_if_set0_all (c : bool) w fs i :
  Z.testbit (if c then set0_all po w fs true else w) i
  = c && existsb (fun f => i =? bit0 po f) fs || Z.testbit w i.
Proof. destruct c; [apply testbit_set0_all_true | reflexivity]. Qed.

Lemma testbit_if_set0_all2 (c : bool) w fs fs' i :
  Z.testbit (if c then set0_all po (set0_all po w fs true) fs' true else w) i
  = c && (existsb (fun f => i =? bit0 po f) fs'
          || existsb (fun f => i =? bit0 po f) fs)
    || Z.testbit w i.
Proof.
  destruct c; [|reflexivity].
  rewrite !testbit_set0_all_true. cbn [andb]. apply orb_assoc.
Qed.

Lemma testbit_if_set1_all2 (c : bool) w fs fs' i :
  Z.testbit (if c then set1_all po (set1_all po w fs true) fs' true else w) i
  = c && (existsb (fun f => i =? bit1 po f) fs'
          || existsb (fun f => i =? bit1 po f) fs)
    || Z.testbit w i.
Proof.
  destruct c; [|reflexivity].
  rewrite !testbit_set1_all_true. cbn [andb]. apply orb_assoc.
Qed.

Lemma testbit_if_set0 (c : bool) w f i :
  Z.testbit (if c then set0 po w f true else w) i
  = c && (i =? bit0 po f) || Z.testbit w i.
Proof. destruct c; [apply testbit_set0_true | reflexivity]. Qed.

Lemma testbit_if_set1_all (c : bool) w fs i :
  Z.testbit (if c then set1_all po w fs true else w) i
  = c && existsb (fun f => i =? bit1 po f) fs || Z.testbit w i.
Proof. destruct c; [apply testbit_set1_all_true | reflexivity]. Qed.

Ltac or_bits :=
  repeat first
    [ rewrite testbit_set0_true | rewrite testbit_set0_all_true
    | rewrite testbit_if_set0 | rewrite testbit_if_set0_all
    | rewrite testbit_if_set0_all2 | rewrite testbit_if_set1_all
    | rewrite testbit_if_set1_all2 | rewrite testbit_set1_all_true
    | rewrite Z.bits_0 ];
  cbn [existsb].

Ltac or_bits_in H :=
  repeat first
    [ rewrite testbit_set0_true in H | rewrite testbit_set0_all_true in H
    | rewrite testbit_if_set0 in H | rewrite testbit_if_set0_all in H
    | rewrite testbit_if_set0_all2 in H | rewrite testbit_if_set1_all in H
    | rewrite testbit_if_set1_all2 in H | rewrite testbit_set1_all_true in H
    | rewrite Z.bits_0 in H ];
  cbn [existsb] in H.

(** From a disjunction of tests that holds to the same tests in the
    goal. *)
Ltac or_cases H :=
  repeat match type of H with
    | (_ || _) = true => apply orb_prop in H; destruct H as [H|H]
    | (?c && _) = true =>
        let Hc := fresh "Hc" in
        apply andb_prop in H; destruct H as [Hc H];
        try discriminate Hc; rewrite ?Hc
    end;
  first [ discriminate H
        | rewrite H;
          rewrite ?andb_true_l, ?orb_true_r, ?orb_true_l; reflexivity ].

Lemma color_clk_mask0_declared rows parallel :
  subset (color_clk_mask0 flags po parallel)
         (InitGPIO_b0 flags po rows parallel).
Proof.
  apply subset_testbit. intros i _ H.
  unfold InitGPIO_b0.
  apply testbit_keep_set0. do 4 apply testbit_keep_if_set0.
  unfold color_clk_mask0 in H.
  or_bits_in H. or_bits. or_cases H.
Qed.

Lemma clock_bits_declared rows parallel :
  subset (clock_bits flags po) (InitGPIO_b0 flags po rows parallel).
Proof.
  apply subset_testbit. intros i _ H.
  unfold InitGPIO_b0.
  apply testbit_keep_set0. do 4 apply testbit_keep_if_set0.
  unfold clock_bits in H.
  or_bits_in H. or_bits. or_cases H.
Qed.

Lemma strobe_bits_declared rows parallel :
  subset (strobe_bits po) (InitGPIO_b0 flags po rows parallel).
Proof.
  apply subset_testbit. intros i _ H.
  unfold InitGPIO_b0.
  apply testbit_keep_set0. do 4 apply testbit_keep_if_set0.
  unfold strobe_bits in H.
  or_bits_in H. or_bits. or_cases H.
Qed.

Lemma color_clk_mask1_declared parallel :
  subset (color_clk_mask1 po parallel) (InitGPIO_b1 po parallel).
Proof.
  apply subset_testbit. intros i _ H.
  unfold InitGPIO_b1. unfold color_clk_mask1 in H.
  destruct (Z.leb_spec 2 parallel), (Z.leb_spec 3 parallel),
    (Z.leb_spec 4 parallel), (Z.leb_spec 5 parallel); try lia;
    or_bits_in H; or_bits; or_cases H.
Qed.

(** With 64 rows all five address lines are declared. *)
Lemma row_mask_declared_64 parallel :
  subset (row_mask po) (InitGPIO_b0 flags po 64 parallel).
Proof.
  apply subset_testbit. intros i _ H.
  unfold InitGPIO_b0. change (64 ÷ 2) with 32.
  change (32 <=? 32) with true. change (16 <=? 32) with true.
  change (8 <=? 32) with true. change (4 <=? 32) with true.
  unfold row_mask in H.
  or_bits_in H. or_bits. or_cases H.
Qed.

(** With fewer rows line e is not declared. *)
Lemma e_not_declared rows parallel :
  rows = 8 \/ rows = 16 \/ rows = 32 ->
  Z.testbit (InitGPIO_b0 flags po rows parallel) (bit0 po IoBits0.e) = false.
Proof.
  intros Hr. unfold InitGPIO_b0.
  assert (E : (32 <=? rows ÷ 2) = false)
    by (destruct Hr as [-> | [-> | ->]]; reflexivity).
  rewrite E. or_bits.
  repeat match goal with
    | |- context [bit0 po ?f =? bit0 po ?g] =>
        destruct (Z.eqb_spec (bit0 po f) (bit0 po g)) as [Eq|_];
        [apply bit0_inj in Eq; discriminate Eq|]
    end.
  now rewrite !andb_false_r.
Qed.

Lemma e_in_row_mask : Z.testbit (row_mask po) (bit0 po IoBits0.e) = true.
Proof. rewrite testbit_row_mask. now rewrite Z.eqb_refl. Qed.

Lemma InitGPIO_results io rows parallel result0 result1 pulser :
  InitGPIO flags po io rows parallel None
  = Initialized result0 result1 pulser ->
  result0 = InitGPIO_b0 flags po rows parallel
  /\ result1 = (if CM_5_CHAIN_SUPPORT flags
               then InitGPIO_b1 po parallel else 0).
Proof.
  unfold InitGPIO.
  destruct (Z.eqb_spec (InitOutputs0 io (InitGPIO_b0 flags po rows parallel))
              (InitGPIO_b0 flags po rows parallel)) as [E0|]; cbn [negb];
    [|discriminate].
  destruct (CM_5_CHAIN_SUPPORT flags); cbn [andb].
  - destruct (Z.eqb_spec (InitOutputs1 io (InitGPIO_b1 po parallel))
                (InitGPIO_b1 po parallel)) as [E1|]; cbn [negb];
      [|discriminate].
    intros E. injection E as <- <- _. auto.
  - intros E. injection E as <- <- _. auto.
Qed.

(** The calls of one frame, one by one. *)
Lemma In_DumpToMatrix fb c :
  In c (DumpToMatrix flags po fb) ->
  (exists d_row,
     c = WriteMaskedBits (set_row_address po 0 d_row) (row_mask po) 0 0)
  \/ (exists out0 out1,
        c = WriteMaskedBits out0 (color_clk_mask0 flags po (parallel_ fb))
              out1 (if CM_5_CHAIN_SUPPORT flags
                    then color_clk_mask1 po (parallel_ fb) else 0))
  \/ c = SetBits (clock_bits flags po) 0
  \/ c = ClearBits (color_clk_mask0 flags po (parallel_ fb))
           (if CM_5_CHAIN_SUPPORT flags
            then color_clk_mask1 po (parallel_ fb) else 0)
  \/ c = WaitPulseFinished
  \/ c = SetBits (strobe_bits po) 0
  \/ c = ClearBits (strobe_bits po) 0
  \/ (exists b, c = SendPulse b).
Proof.
  unfold DumpToMatrix. rewrite DumpToMatrix_during_rows.
  intros Hin. apply in_flat_map in Hin as (d_row & _ & Hin).
  unfold DumpToMatrix_row in Hin. destruct Hin as [<-|Hin]; [eauto|].
  apply in_app_or in Hin as [Hin|Hin].
  2:{ destruct Hin as [<-|[]]. tauto. }
  apply in_flat_map in Hin as (b & _ & Hin).
  unfold DumpToMatrix_plane in Hin. apply in_app_or in Hin as [Hin|Hin].
  - unfold DumpToMatrix_columns in Hin.
    apply in_flat_map in Hin as (col & _ & Hin).
    destruct Hin as [<-|[<-|[]]]; [|tauto].
    right. left. destruct (CM_5_CHAIN_SUPPORT flags); eauto.
  - destruct Hin as [<-|[<-|[<-|[<-|[<-|[]]]]]]; try tauto.
    + do 3 right. left. now destruct (CM_5_CHAIN_SUPPORT flags).
    + do 7 right. eauto.
Qed.

(** Let [InitGPIO] succeed for the rows and the parallel count of the
    object.  Every GPIO write of one [DumpToMatrix] has its second-word
    mask within the pins [InitOutputs1] returned, and every write other
    than the row-address write has its first-word mask within the pins
    [InitOutputs0] returned; with 64 rows the row-address write has,
    too. *)
Lemma DumpToMatrix_other_masks_declared
  fb io result0 result1 pulser c m0 m1 :
  InitGPIO flags po io (rows_ fb) (parallel_ fb) None
  = Initialized result0 result1 pulser ->
  In c (DumpToMatrix flags po fb) ->
  call_masks c = Some (m0, m1) ->
  subset m1 result1
  /\ ((exists v, c = WriteMaskedBits v (row_mask po) 0 0)
      \/ subset m0 result0)
  /\ (rows_ fb = 64 -> subset m0 result0).
Proof.
  intros Hinit Hin Hm.
  apply InitGPIO_results in Hinit as [-> ->].
  pose proof (color_clk_mask0_declared (rows_ fb) (parallel_ fb)) as S0.
  pose proof (clock_bits_declared (rows_ fb) (parallel_ fb)) as Sc.
  pose proof (strobe_bits_declared (rows_ fb) (parallel_ fb)) as Ss.
  pose proof (color_clk_mask1_declared (parallel_ fb)) as S1.
  assert (S1' : subset
                  (if CM_5_CHAIN_SUPPORT flags
                   then color_clk_mask1 po (parallel_ fb) else 0)
                  (if CM_5_CHAIN_SUPPORT flags
                   then InitGPIO_b1 po (parallel_ fb) else 0))
    by (destruct (CM_5_CHAIN_SUPPORT flags); [assumption | apply subset_0]).
  assert (Hrow : rows_ fb = 64 ->
                 subset (row_mask po)
                        (InitGPIO_b0 flags po (rows_ fb) (parallel_ fb)))
    by (intros ->; apply row_mask_declared_64).
  apply In_DumpToMatrix in Hin.
  destruct Hin as [[d_row ->] | [(out0 & out1 & ->) | [-> | [-> | [->
                  | [-> | [-> | [b ->]]]]]]]];
    cbn [call_masks] in Hm; try discriminate Hm;
    injection Hm as <- <-;
    (split; [first [assumption | apply subset_0]|]);
    (split; [first [left; eexists; reflexivity | right; assumption]|]);
    first [assumption | intros _; assumption].
Qed.

(** C2: the row-address write of [DumpToMatrix] goes to pins that
    [InitGPIO] did not declare.  For every object of an accepted
    geometry with fewer than 64 rows, and [InitGPIO] run for its rows
    and parallel count: the frame has the row-address write of double
    row 0, whose mask is the five address lines a, b, c, d, e; line e is
    in that mask and not among the pins [InitOutputs0] returned, so the
    mask is not within the declared pins.  In the build with
    [ONLY_SINGLE_SUB_PANEL] and 32 rows the frame has the row-address
    write of double row 16, whose value sets the undeclared line e. *)
Theorem row_address_write_undeclared fb io result0 result1 pulser :
  wf flags fb -> rows_ fb <> 64 ->
  InitGPIO flags po io (rows_ fb) (parallel_ fb) None
  = Initialized result0 result1 pulser ->
  In (WriteMaskedBits (set_row_address po 0 0) (row_mask po) 0 0)
     (DumpToMatrix flags po fb)
  /\ get0 po (row_mask po) IoBits0.e = true
  /\ get0 po result0 IoBits0.e = false
  /\ ~ subset (row_mask po) result0
  /\ (ONLY_SINGLE_SUB_PANEL flags = true -> rows_ fb = 32 ->
      In (WriteMaskedBits (set_row_address po 0 16) (row_mask po) 0 0)
         (DumpToMatrix flags po fb)
      /\ get0 po (set_row_address po 0 16) IoBits0.e = true).
Proof.
  intros Hwf H64 Hinit.
  apply InitGPIO_results in Hinit as [-> _].
  destruct (wf_facts fb Hwf) as (Hrows & _ & _ & _ & _ & Hd).
  assert (Hr : rows_ fb = 8 \/ rows_ fb = 16 \/ rows_ fb = 32)
    by (destruct Hrows as [? | [? | [? | ?]]]; tauto).
  assert (Hrow : forall d, 0 <= d < double_rows_ fb ->
                   In (WriteMaskedBits (set_row_address po 0 d)
                         (row_mask po) 0 0)
                      (DumpToMatrix flags po fb)).
  { intros d Hd'. unfold DumpToMatrix. rewrite DumpToMatrix_during_rows.
    apply in_flat_map. exists d. split; [now apply In_range|].
    left. reflexivity. }
  split; [apply Hrow; lia|]. split; [apply e_in_row_mask|].
  split; [now apply e_not_declared|]. split.
  - apply (not_subset _ _ (bit0 po IoBits0.e));
      [apply e_in_row_mask | now apply e_not_declared].
  - intros Hs H32. split.
    + apply Hrow. rewrite (wf_double_rows _ _ Hwf), H32.
      unfold SUB_PANELS_. rewrite Hs, Z.quot_1_r. lia.
    + unfold get0. rewrite testbit_set_row_address, Z.eqb_refl.
      reflexivity.
Qed.

(** ** The strobe line and the planes of a row *)

Ltac other_fields :=
  repeat match goal with
    | |- context [bit0 po ?f =? bit0 po ?g] =>
        let E := fresh "E" in
        destruct (Z.eqb_spec (bit0 po f) (bit0 po g)) as [E|_];
        [apply bit0_inj in E; discriminate E|]
    end;
  rewrite ?andb_false_r, ?orb_false_r.

(** The word [DumpToMatrix] builds for the strobe is the strobe line. *)
Lemma strobe_bits_line : strobe_bits po = strobe_line po.
Proof.
  unfold strobe_bits, strobe_line, set0, assign_bit.
  rewrite Z.setbit_spec'. apply Z.lor_0_l.
Qed.

Lemma strobe_in_strobe_line :
  get0 po (strobe_line po) IoBits0.strobe = true.
Proof.
  unfold get0, strobe_line. apply Z.pow2_bits_true, bit0_range.
Qed.

(** The other words of a frame leave the strobe line alone. *)
Lemma strobe_not_in_color_clk_mask0 parallel :
  get0 po (color_clk_mask0 flags po parallel) IoBits0.strobe = false.
Proof.
  unfold get0, color_clk_mask0. cbv zeta. or_bits. other_fields.
  reflexivity.
Qed.

Lemma strobe_not_in_clock_bits :
  get0 po (clock_bits flags po) IoBits0.strobe = false.
Proof.
  unfold get0, clock_bits. cbv zeta. or_bits. other_fields. reflexivity.
Qed.

Lemma strobe_not_in_row_mask :
  get0 po (row_mask po) IoBits0.strobe = false.
Proof.
  unfold get0. rewrite testbit_row_mask. other_fields. reflexivity.
Qed.

(** The strobe writes and the pulse of one plane. *)
Lemma latch_calls_plane fb d_row b :
  latch_calls po (DumpToMatrix_plane flags po fb d_row b)
  = latch_plane po b.
Proof.
  unfold latch_calls, DumpToMatrix_plane, DumpToMatrix_columns, latch_plane.
  rewrite List.filter_app, filter_flat_map.
  rewrite flat_map_nil.
  - rewrite strobe_bits_line. cbn [app List.filter].
    destruct (CM_5_CHAIN_SUPPORT flags); cbn [is_latch_call];
      rewrite strobe_not_in_color_clk_mask0, strobe_in_strobe_line;
      reflexivity.
  - intros col. cbn [List.filter].
    destruct (CM_5_CHAIN_SUPPORT flags); cbn [is_latch_call];
      now rewrite strobe_not_in_color_clk_mask0, strobe_not_in_clock_bits.
Qed.

Lemma latch_calls_row pwm_to_show fb row_address d_row :
  latch_calls po (DumpToMatrix_row flags po pwm_to_show fb row_address d_row)
  = flat_map (latch_plane po) (range (kBitPlanes - pwm_to_show) kBitPlanes).
Proof.
  unfold DumpToMatrix_row, latch_calls.
  cbn [List.filter is_latch_call]. rewrite strobe_not_in_row_mask.
  rewrite List.filter_app, filter_flat_map. cbn [List.filter is_latch_call].
  rewrite app_nil_r. apply flat_map_ext. intros b.
  apply latch_calls_plane.
Qed.

(** C6: for m in [1, 11], [SetPWMBits m] succeeds, and a frame that
    starts on the object it leaves is the sequence of its rows, each
    handled with the plane count m that was read on entry, whatever the
    object looks like while the rows are handled ([during]).  Among the
    calls of every row, those that write the strobe line or send a pulse
    are the strobe-then-pulse sequences of the planes 11 - m, ..., 10 in
    this order, m of them: for each plane the strobe line, and no other
    line, is set, then cleared, then the pulse of the plane is sent.
    The same holds for the frame as a whole, row after row. *)
Theorem planes_per_row fb0 m during :
  1 <= m <= 11 ->
  let fb := snd (SetPWMBits fb0 m) in
  fst (SetPWMBits fb0 m) = true
  /\ DumpToMatrix_during flags po fb during
     = flat_map
         (fun d_row =>
            DumpToMatrix_row flags po m (during d_row)
              (set_row_address po 0 d_row) d_row)
         (range 0 (double_rows_ fb))
  /\ (forall d_row,
        latch_calls po
          (DumpToMatrix_row flags po m (during d_row)
             (set_row_address po 0 d_row) d_row)
        = flat_map (latch_plane po) (range (11 - m) 11))
  /\ length (range (11 - m) 11) = Z.to_nat m
  /\ (forall k, 0 <= k < m ->
        range (11 - m) 11 !! Z.to_nat k = Some (11 - m + k))
  /\ latch_calls po (DumpToMatrix_during flags po fb during)
     = flat_map
         (fun _ => flat_map (latch_plane po) (range (11 - m) 11))
         (range 0 (double_rows_ fb))
  /\ (forall b,
        latch_plane po b
        = [SetBits (2 ^ bit0 po IoBits0.strobe) 0;
           ClearBits (2 ^ bit0 po IoBits0.strobe) 0;
           SendPulse b]).
Proof.
  intros Hm fb.
  assert (E : SetPWMBits fb0 m = (true, with_pwm_bits fb0 m)).
  { unfold SetPWMBits, kBitPlanes.
    destruct (Z.ltb_spec m 1); [lia|].
    destruct (Z.ltb_spec 11 m); [lia|]. reflexivity. }
  unfold fb. rewrite E. cbn [fst snd].
  split; [reflexivity|]. split; [|split; [|split; [|split; [|split]]]].
  - rewrite DumpToMatrix_during_rows. reflexivity.
  - intros d_row. apply latch_calls_row.
  - rewrite length_range. lia.
  - intros k Hk. apply lookup_range. lia.
  - rewrite DumpToMatrix_during_rows. unfold latch_calls.
    rewrite filter_flat_map. apply flat_map_ext. intros d_row.
    apply latch_calls_row.
  - intros b. reflexivity.
Qed.

(** * Further properties *)

(** ** Colour values *)

Lemma lxor_65535 x : 0 <= x < 65536 -> Z.lxor x 65535 = 65535 - x.
Proof.
  intros Hx.
  replace (65535 - x) with (Z.lnot x mod 2 ^ 16).
  - apply Z.bits_inj'. intros i Hi.
    rewrite Z.lxor_spec. change 65535 with (Z.ones 16).
    destruct (Z.lt_ge_cases i 16) as [Hlt|Hge].
    + rewrite Z.ones_spec_low, Z.mod_pow2_bits_low, Z.lnot_spec by lia.
      now rewrite xorb_true_r.
    + rewrite Z.ones_spec_high, Z.mod_pow2_bits_high, xorb_false_r by lia.
      apply Z.bits_above_log2; [lia|].
      destruct (Z.eq_dec x 0) as [->|]; [cbn; lia|].
      apply Z.log2_lt_pow2; [lia|].
      apply Z.lt_le_trans with (2 ^ 16); [cbn; lia|].
      apply Z.pow_le_mono_r; lia.
  - unfold Z.lnot.
    replace (Z.pred (- x)) with (65535 - x + (-1) * 2 ^ 16) by (cbn; lia).
    rewrite Z.mod_add by (cbn; lia). apply Z.mod_small. cbn. lia.
Qed.

(** X2: in linear mode, for a brightness of at most 100, [MapColor c] is
    the byte c * brightness / 100 shifted left by 3, complemented over 16
    bits in the inverse build.  The value is a multiple of 8 and at most
    8 * c, so it fits the 11 planes and never lights the planes 0, 1
    and 2; it does not decrease when c grows. *)
Theorem MapColor_linear fb c c' :
  do_luminance_correct_ fb = false ->
  0 <= c <= c' -> c' <= 255 -> 0 <= brightness_ fb <= 100 ->
  let value := fun c => 8 * (c * brightness_ fb / 100) in
  MapColor flags fb c
  = (if INVERSE_RGB_DISPLAY_COLORS flags then 65535 - value c else value c)
  /\ 0 <= value c <= 8 * c
  /\ value c <= value c'
  /\ Z.land (value c) 7 = 0.
Proof.
  intros Hl Hc Hc' Hb value.
  assert (Hq : 0 <= c * brightness_ fb / 100 <= c).
  { split; [apply Z.div_pos; nia|].
    apply Z.div_le_upper_bound; nia. }
  assert (Hmono : c * brightness_ fb / 100 <= c' * brightness_ fb / 100)
    by (apply Z.div_le_mono; nia).
  split; [|split; [|split]].
  - unfold MapColor. rewrite Hl. cbv zeta.
    rewrite Z.quot_div_nonneg by nia.
    rewrite (Z.mod_small (c * brightness_ fb / 100)) by (cbn; lia).
    change (0 <? kBitPlanes - 8) with true. cbv iota.
    change (kBitPlanes - 8) with 3.
    rewrite Z.shiftl_mul_pow2 by lia. change (2 ^ 3) with 8.
    replace (c * brightness_ fb / 100 * 8) with (value c)
      by (unfold value; lia).
    assert (Hv : 0 <= value c <= 2040) by (unfold value; lia).
    unfold COLOR_OUT_BITS. destruct (INVERSE_RGB_DISPLAY_COLORS flags).
    + rewrite lxor_65535 by lia. apply Z.mod_small. cbn. lia.
    + apply Z.mod_small. cbn. lia.
  - unfold value. lia.
  - unfold value. lia.
  - unfold value. change 7 with (Z.ones 3). rewrite Z.land_ones by lia.
    change (2 ^ 3) with 8. rewrite Z.mul_comm. apply Z.mod_mul. lia.
Qed.

Lemma luminance_black v : luminance_cie1931 0 v = 0.
Proof. reflexivity. Qed.

(** [MapColor 0] in both modes. *)
Lemma MapColor_0 fb :
  1 <= brightness_ fb <= 100 ->
  MapColor flags fb 0
  = (if INVERSE_RGB_DISPLAY_COLORS flags then 65535 else 0).
Proof.
  intros Hb. destruct (do_luminance_correct_ fb) eqn:Hl.
  - rewrite MapColor_corrected by (auto; lia).
    rewrite luminance_black. unfold COLOR_OUT_BITS.
    now destruct (INVERSE_RGB_DISPLAY_COLORS flags).
  - unfold MapColor. rewrite Hl. cbv zeta.
    rewrite Z.mul_0_l. unfold COLOR_OUT_BITS.
    now destruct (INVERSE_RGB_DISPLAY_COLORS flags).
Qed.

(** X3: black stays black at every brightness.  In both modes
    [MapColor 0] is 0, all planes off, and 65535, all planes on, in the
    inverse build. *)
Theorem MapColor_black fb :
  1 <= brightness_ fb <= 100 ->
  MapColor flags fb 0
  = (if INVERSE_RGB_DISPLAY_COLORS flags then 65535 else 0).
Proof. exact (MapColor_0 fb). Qed.


(** ** The layout of the buffers *)

(** X1: [ValueAt] maps the cells (double_row, column, plane) of the
    geometry one to one onto the indices of the buffer: every index below
    double_rows * columns * 11 is the index of a cell, and two cells
    with one index are the same cell. *)
Theorem ValueAt_bijection fb i :
  0 <= double_rows_ fb ->
  0 <= i < double_rows_ fb * columns_ fb * kBitPlanes ->
  let d := i / (columns_ fb * kBitPlanes) in
  let p := i mod (columns_ fb * kBitPlanes) / columns_ fb in
  let c := i mod columns_ fb in
  (0 <= d < double_rows_ fb /\ 0 <= c < columns_ fb /\ 0 <= p < kBitPlanes)
  /\ ValueAt fb d c p = i
  /\ forall d' c' p',
       0 <= c' < columns_ fb -> 0 <= p' < kBitPlanes ->
       ValueAt fb d' c' p' = i -> d' = d /\ c' = c /\ p' = p.
Proof.
  intros Hd Hi d p c. unfold kBitPlanes in *.
  assert (Hcols : 0 < columns_ fb) by nia.
  assert (Hck : 0 < columns_ fb * 11) by lia.
  pose proof (Z.div_mod i (columns_ fb * 11) ltac:(lia)) as E1.
  pose proof (Z.mod_pos_bound i (columns_ fb * 11) Hck) as B1.
  set (r := i mod (columns_ fb * 11)) in *.
  pose proof (Z.div_mod r (columns_ fb) ltac:(lia)) as E2.
  pose proof (Z.mod_pos_bound r (columns_ fb) Hcols) as B2.
  assert (Hc : c = r mod columns_ fb).
  { unfold c, r. symmetry.
    rewrite Z.mul_comm. apply Z.mod_mod_divide. now exists 11. }
  fold d in E1. fold p in E2.
  assert (R : (0 <= d < double_rows_ fb /\ 0 <= c < columns_ fb
               /\ 0 <= p < 11) /\ ValueAt fb d c p = i).
  { split; [|unfold ValueAt, kBitPlanes; lia].
    split; [|split]; [|lia|].
    - split; [apply Z.div_pos; lia|].
      apply Z.div_lt_upper_bound; nia.
    - split; [apply Z.div_pos; lia|].
      apply Z.div_lt_upper_bound; nia. }
  destruct R as [R1 R2]. split; [exact R1|]. split; [exact R2|].
  intros d' c' p' Hc' Hp' E. rewrite <- R2 in E.
  apply ValueAt_inj in E; unfold kBitPlanes; lia.
Qed.

(** ** Row addresses *)

Lemma get0_set_row_address d_row :
  let row_address := set_row_address po 0 d_row in
  get0 po row_address IoBits0.a = Z.testbit d_row 0
  /\ get0 po row_address IoBits0.b = Z.testbit d_row 1
  /\ get0 po row_address IoBits0.c = Z.testbit d_row 2
  /\ get0 po row_address IoBits0.d = Z.testbit d_row 3
  /\ get0 po row_address IoBits0.e = Z.testbit d_row 4.
Proof.
  cbv zeta. unfold get0.
  rewrite !testbit_set_row_address, !(Z.testbit_odd d_row), Z.shiftr_0_r.
  repeat match goal with
    | |- context [bit0 po ?f =? bit0 po ?f] =>
        rewrite (Z.eqb_refl (bit0 po f))
    | |- context [bit0 po ?f =? bit0 po ?g] =>
        destruct (Z.eqb_spec (bit0 po f) (bit0 po g)) as [E|_];
        [apply bit0_inj in E; discriminate E|]
    end.
  repeat split.
Qed.

(** X12: the address word has room for 32 rows.  Two double rows below 32
    get different address words, and the double rows d_row and
    d_row + 32 get the same one (in a build with one sub-panel and 64
    rows, the rows 32 to 63 are addressed as the rows 0 to 31). *)
Theorem row_address_rows d_row d_row' :
  0 <= d_row < 32 -> 0 <= d_row' < 32 ->
  (set_row_address po 0 d_row = set_row_address po 0 d_row' ->
   d_row = d_row')
  /\ set_row_address po 0 (d_row + 32) = set_row_address po 0 d_row.
Proof.
  intros Hd Hd'. split.
  - intros E.
    destruct (get0_set_row_address d_row) as (A0 & A1 & A2 & A3 & A4).
    destruct (get0_set_row_address d_row') as (B0 & B1 & B2 & B3 & B4).
    cbv zeta in *. rewrite E in A0, A1, A2, A3, A4.
    apply Z.bits_inj'. intros i Hi.
    destruct (Z.lt_ge_cases i 5) as [Hlt|Hge].
    + assert (Ei : i = 0 \/ i = 1 \/ i = 2 \/ i = 3 \/ i = 4) by lia.
      destruct Ei as [-> | [-> | [-> | [-> | ->]]]]; congruence.
    + rewrite !Z.bits_above_log2; try reflexivity; try lia.
      * destruct (Z.eq_dec d_row' 0) as [->|]; [cbn; lia|].
        apply Z.lt_le_trans with 5; [|lia].
        apply Z.log2_lt_pow2; cbn; lia.
      * destruct (Z.eq_dec d_row 0) as [->|]; [cbn; lia|].
        apply Z.lt_le_trans with 5; [|lia].
        apply Z.log2_lt_pow2; cbn; lia.
  - apply Z.bits_inj'. intros i _. rewrite !testbit_set_row_address.
    rewrite <- !Z.testbit_odd, <- !Z.bit0_odd.
    change 32 with (1 * 2 ^ 5).
    rewrite <- !(Z.mod_pow2_bits_low (d_row + 1 * 2 ^ 5) 5) by lia.
    rewrite Z.mod_add by lia.
    rewrite !Z.mod_pow2_bits_low by lia. reflexivity.
Qed.


(** ** Frames *)

Lemma flat_map_flat_map {A B C} (f : B -> list C) (g : A -> list B) l :
  flat_map f (flat_map g l) = flat_map (fun x => flat_map f (g x)) l.
Proof.
  induction l as [|x l IH]; [reflexivity|].
  cbn [flat_map]. now rewrite flat_map_app, IH.
Qed.

Lemma flat_map_ext_In {A B} (f g : A -> list B) l :
  (forall x, In x l -> f x = g x) -> flat_map f l = flat_map g l.
Proof.
  induction l as [|x l IH]; intros H; [reflexivity|].
  cbn [flat_map]. rewrite (H x) by now left.
  rewrite IH; [reflexivity|]. intros; apply H; now right.
Qed.

Lemma flat_map_singleton {A B} (f : A -> B) l :
  flat_map (fun x => [f x]) l = map f l.
Proof. induction l as [|x l IH]; [reflexivity|]. cbn. now rewrite IH. Qed.

Lemma flat_map_self {A} (g : A -> list A) l :
  (forall x, g x = [x]) -> flat_map g l = l.
Proof.
  intros H. induction l as [|x l IH]; [reflexivity|].
  cbn [flat_map]. now rewrite H, IH.
Qed.

Lemma length_flat_map_const {A B} (g : A -> list B) l n :
  (forall x, length (g x) = n) ->
  length (flat_map g l) = (length l * n)%nat.
Proof.
  intros H. induction l as [|x l IH]; [reflexivity|].
  cbn [flat_map length]. rewrite length_app, H, IH. lia.
Qed.

Lemma color_clk_mask0_not_row_mask parallel :
  (color_clk_mask0 flags po parallel =? row_mask po) = false.
Proof.
  apply Z.eqb_neq. intros E.
  pose proof (clock_in_color_clk_mask0 parallel) as H. rewrite E in H.
  pose proof clock_not_in_row_mask. congruence.
Qed.

Lemma pulser_run_app s cs cs' :
  pulser_run po s (cs ++ cs')
  = match pulser_run po s cs with
    | Some s' => pulser_run po s' cs'
    | None => None
    end.
Proof.
  revert s. induction cs as [|c cs IH]; intros s; [reflexivity|].
  cbn [app pulser_run]. destruct c; rewrite ?IH;
    repeat match goal with |- context [if ?t then _ else _] => destruct t end;
    reflexivity.
Qed.

(** Clocking the columns in neither needs nor changes the pulser. *)
Lemma pulser_run_columns s fb d_row b :
  pulser_run po s (DumpToMatrix_columns flags po fb d_row b) = Some s.
Proof.
  unfold DumpToMatrix_columns. cbv zeta.
  induction (range 0 (columns_ fb)) as [|col cols IH]; [reflexivity|].
  cbn [flat_map app pulser_run].
  destruct (CM_5_CHAIN_SUPPORT flags);
    cbn [is_strobe_write is_row_address_write];
    rewrite color_clk_mask0_not_row_mask, clock_bits_not_strobe;
    cbn [orb]; rewrite !andb_false_r; exact IH.
Qed.

(** A plane waits for the pulse of the plane before it, latches and
    leaves its own pulse in flight. *)
Lemma pulser_run_plane s fb d_row b :
  pulser_run po s (DumpToMatrix_plane flags po fb d_row b) = Some true.
Proof.
  unfold DumpToMatrix_plane.
  rewrite pulser_run_app, pulser_run_columns.
  destruct (CM_5_CHAIN_SUPPORT flags);
    cbn [pulser_run is_strobe_write is_row_address_write];
    rewrite color_clk_mask0_not_strobe; cbn [orb];
    rewrite andb_false_r; reflexivity.
Qed.

Lemma pulser_run_planes s fb d_row bs :
  pulser_run po s (flat_map (DumpToMatrix_plane flags po fb d_row) bs)
  = Some (match bs with [] => s | _ => true end).
Proof.
  revert s. induction bs as [|b bs IH]; intros s; [reflexivity|].
  cbn [flat_map]. rewrite pulser_run_app, pulser_run_plane, IH.
  now destruct bs.
Qed.

Lemma pulser_run_row pwm_to_show fb row_address d_row :
  pulser_run po false
    (DumpToMatrix_row flags po pwm_to_show fb row_address d_row)
  = Some false.
Proof.
  unfold DumpToMatrix_row. cbn [pulser_run andb].
  rewrite pulser_run_app, pulser_run_planes. reflexivity.
Qed.

(** X13: a frame drives the pulser in order.  Started with no pulse in
    flight, [DumpToMatrix] never sends a pulse, writes a strobe bit or
    writes the row address while a pulse it sent has not been waited
    for, and it returns with no pulse in flight; this holds as well when
    mutators run beside the frame. *)
Theorem DumpToMatrix_pulser_order fb during :
  pulser_run po false (DumpToMatrix_during flags po fb during) = Some false.
Proof.
  rewrite DumpToMatrix_during_rows.
  induction (range 0 (double_rows_ fb)) as [|d_row ds IH]; [reflexivity|].
  cbn [flat_map]. now rewrite pulser_run_app, pulser_run_row.
Qed.

(** X14: the size of a frame.  [DumpToMatrix] makes
    double_rows * (2 + pwm_bits * (2 * columns + 5)) calls, and it shows
    the planes 11 - pwm_bits, ..., 10 in this order for each double row in
    turn. *)
Theorem DumpToMatrix_size fb :
  0 <= double_rows_ fb -> 0 <= columns_ fb ->
  0 <= pwm_bits_ fb <= kBitPlanes ->
  Z.of_nat (length (DumpToMatrix flags po fb))
  = double_rows_ fb * (2 + pwm_bits_ fb * (2 * columns_ fb + 5))
  /\ pulses (DumpToMatrix flags po fb)
     = flat_map (fun _ => range (kBitPlanes - pwm_bits_ fb) kBitPlanes)
                (range 0 (double_rows_ fb)).
Proof.
  intros Hd Hc Hp. unfold DumpToMatrix. rewrite DumpToMatrix_during_rows.
  split.
  - assert (Hcol : forall d b,
               length (DumpToMatrix_columns flags po fb d b)
               = (Z.to_nat (columns_ fb) * 2)%nat).
    { intros d b. unfold DumpToMatrix_columns. cbv zeta.
      rewrite (length_flat_map_const _ _ 2) by reflexivity.
      now rewrite length_range, Z.sub_0_r. }
    assert (Hplane : forall d b,
               length (DumpToMatrix_plane flags po fb d b)
               = (Z.to_nat (columns_ fb) * 2 + 5)%nat).
    { intros d b. unfold DumpToMatrix_plane.
      rewrite length_app, Hcol. reflexivity. }
    rewrite (length_flat_map_const _ _
               (2 + Z.to_nat (pwm_bits_ fb)
                    * (Z.to_nat (columns_ fb) * 2 + 5))).
    + rewrite length_range. nia.
    + intros d. unfold DumpToMatrix_row. cbn [length].
      rewrite length_app,
        (length_flat_map_const _ _ (Z.to_nat (columns_ fb) * 2 + 5))
        by apply Hplane.
      rewrite length_range. cbn [length]. lia.
  - unfold pulses. rewrite flat_map_flat_map.
    apply flat_map_ext. intros d_row. unfold DumpToMatrix_row.
    cbn [flat_map app]. rewrite flat_map_app, flat_map_flat_map.
    cbn [flat_map]. rewrite app_nil_r.
    apply flat_map_self. intros b. unfold DumpToMatrix_plane.
    rewrite flat_map_app. unfold DumpToMatrix_columns. cbv zeta.
    rewrite flat_map_flat_map, flat_map_nil.
    + now destruct (CM_5_CHAIN_SUPPORT flags).
    + intros col. now destruct (CM_5_CHAIN_SUPPORT flags).
Qed.


(** The column writes of a frame, in order. *)
Lemma column_values_DumpToMatrix fb :
  column_values po (DumpToMatrix flags po fb)
  = flat_map
      (fun d_row =>
         flat_map
           (fun b =>
              map (fun col =>
                     (deref (bitplane_buffer_0 fb) (ValueAt fb d_row col b),
                      if CM_5_CHAIN_SUPPORT flags
                      then deref (bitplane_buffer_1 fb)
                                 (ValueAt fb d_row col b)
                      else 0))
                  (range 0 (columns_ fb)))
           (range (kBitPlanes - pwm_bits_ fb) kBitPlanes))
      (range 0 (double_rows_ fb)).
Proof.
  unfold DumpToMatrix. rewrite DumpToMatrix_during_rows.
  unfold column_values. rewrite flat_map_flat_map.
  apply flat_map_ext. intros d_row. unfold DumpToMatrix_row.
  cbn [flat_map]. rewrite Z.eqb_refl. cbn [app].
  rewrite flat_map_app, flat_map_flat_map. cbn [flat_map].
  rewrite app_nil_r. apply flat_map_ext. intros b.
  unfold DumpToMatrix_plane. rewrite flat_map_app.
  unfold DumpToMatrix_columns. cbv zeta. rewrite flat_map_flat_map.
  rewrite <- flat_map_singleton.
  replace (flat_map _ [_; WaitPulseFinished; _; _; _]) with (@nil (Z * Z))
    by now destruct (CM_5_CHAIN_SUPPORT flags).
  rewrite app_nil_r. apply flat_map_ext. intros col.
  replace (ValueAt fb d_row 0 b + col) with (ValueAt fb d_row col b)
    by (unfold ValueAt; lia).
  destruct (CM_5_CHAIN_SUPPORT flags); cbn [flat_map app];
    now rewrite color_clk_mask0_not_row_mask.
Qed.

(** X15: what a frame clocks in.  The values of the column writes of
    [DumpToMatrix] are the words of the cells (d_row, column, plane), for
    each double row in turn, within it for each plane from
    11 - pwm_bits on, within it for each column; the second value is the
    word of the second buffer where the build has one, and 0 otherwise.
    The words of the planes below 11 - pwm_bits are not among them. *)
Theorem DumpToMatrix_column_values fb :
  column_values po (DumpToMatrix flags po fb)
  = flat_map
      (fun d_row =>
         flat_map
           (fun b =>
              map (fun col =>
                     (deref (bitplane_buffer_0 fb) (ValueAt fb d_row col b),
                      if CM_5_CHAIN_SUPPORT flags
                      then deref (bitplane_buffer_1 fb)
                                 (ValueAt fb d_row col b)
                      else 0))
                  (range 0 (columns_ fb)))
           (range (kBitPlanes - pwm_bits_ fb) kBitPlanes))
      (range 0 (double_rows_ fb)).
Proof. exact (column_values_DumpToMatrix fb). Qed.

Lemma In_column_values fb v :
  In v (column_values po (DumpToMatrix flags po fb)) ->
  exists d_row b col,
    0 <= d_row < double_rows_ fb
    /\ kBitPlanes - pwm_bits_ fb <= b < kBitPlanes
    /\ 0 <= col < columns_ fb
    /\ v = (deref (bitplane_buffer_0 fb) (ValueAt fb d_row col b),
            if CM_5_CHAIN_SUPPORT flags
            then deref (bitplane_buffer_1 fb) (ValueAt fb d_row col b)
            else 0).
Proof.
  rewrite column_values_DumpToMatrix. intros H.
  apply in_flat_map in H as (d_row & Hd & H).
  apply in_flat_map in H as (b & Hb & H).
  apply in_map_iff in H as (col & <- & Hc).
  apply In_range in Hd, Hb, Hc. exists d_row, b, col. auto.
Qed.

(** X17: after [Clear], in a build without the inverse option, a frame
    clocks in zero words only. *)
Theorem Clear_DumpToMatrix_zero fb v :
  INVERSE_RGB_DISPLAY_COLORS flags = false -> wf flags fb ->
  In v (column_values po (DumpToMatrix flags po (Clear flags po fb))) ->
  v = (0, 0).
Proof.
  intros Hinv Hwf H.
  apply In_column_values in H as (d_row & b & col & _ & _ & _ & ->).
  set (q := ValueAt (Clear flags po fb) d_row col b).
  destruct (Clear_zero fb q Hinv Hwf) as [Z0 Z1].
  rewrite Z0. destruct (CM_5_CHAIN_SUPPORT flags); [|reflexivity].
  now rewrite Z1.
Qed.

(** X16: a frame depends on the shown planes only.  Two objects of one
    geometry and one plane count whose words agree in the planes from
    11 - pwm_bits on give the same calls, whatever the planes below hold. *)
Theorem DumpToMatrix_same_shown fb fb' :
  same_shown fb fb' ->
  DumpToMatrix flags po fb' = DumpToMatrix flags po fb.
Proof.
  intros (Hc & Hpar & Hd & Hp & Hw).
  unfold DumpToMatrix. rewrite !DumpToMatrix_during_rows. rewrite Hd, Hp.
  apply flat_map_ext_In. intros d_row Hin. apply In_range in Hin.
  unfold DumpToMatrix_row. f_equal. f_equal.
  apply flat_map_ext_In. intros b Hb. apply In_range in Hb.
  unfold DumpToMatrix_plane. rewrite Hpar. f_equal.
  unfold DumpToMatrix_columns. cbv zeta. rewrite Hc, Hpar.
  apply flat_map_ext_In. intros col Hcol. apply In_range in Hcol.
  rewrite (ValueAt_columns fb fb') by assumption.
  replace (ValueAt fb d_row 0 b + col) with (ValueAt fb d_row col b)
    by (unfold ValueAt; lia).
  destruct (Hw d_row col b) as [-> ->]; try lia. reflexivity.
Qed.


(** ** Which call writes which pins *)

Lemma land_0_testbit m m' :
  (forall i, Z.testbit m i = true -> Z.testbit m' i = true -> False) ->
  Z.land m m' = 0.
Proof.
  intros H. apply Z.bits_inj'. intros i _.
  rewrite Z.land_spec, Z.bits_0.
  destruct (Z.testbit m i) eqn:E, (Z.testbit m' i) eqn:E'; try reflexivity.
  destruct (H i E E').
Qed.

Ltac or_split H :=
  repeat match type of H with
    | (_ || _) = true => apply orb_prop in H; destruct H as [H|H]
    | (_ && _) = true => apply andb_prop in H; destruct H as [_ H]
    end;
  try discriminate H.

(** Two fields on one bit are one field. *)
Ltac fields_clash H H' :=
  apply Z.eqb_eq in H; apply Z.eqb_eq in H'; rewrite H in H';
  apply bit0_inj in H'; discriminate H'.

Ltac disjoint_masks :=
  apply land_0_testbit;
  let i := fresh "i" in
  let H := fresh "H" in
  let H' := fresh "H" in
  intros i H H'; or_bits_in H; or_bits_in H';
  or_split H; or_split H'; fields_clash H H'.

Lemma InitGPIO_pulser_bits io rows parallel result0 result1 pulser :
  InitGPIO flags po io rows parallel None
  = Initialized result0 result1 pulser ->
  pulser_bits pulser
  = set0 po
      (if PI_REV1_RGB_PINOUT_ flags
       then set0_all po 0
              [IoBits0.output_enable_rev2; IoBits0.output_enable_rev1] true
       else 0)
      IoBits0.output_enable true.
Proof.
  unfold InitGPIO. destruct (negb _); [discriminate|].
  destruct (_ && _); [discriminate|].
  intros E. injection E as _ _ <-. reflexivity.
Qed.

Lemma color_clk_mask0_apart parallel oe :
  oe = set0 po
         (if PI_REV1_RGB_PINOUT_ flags
          then set0_all po 0
                 [IoBits0.output_enable_rev2; IoBits0.output_enable_rev1]
                 true
          else 0)
         IoBits0.output_enable true ->
  Z.land (color_clk_mask0 flags po parallel) oe = 0
  /\ Z.land (color_clk_mask0 flags po parallel) (row_mask po) = 0
  /\ Z.land (color_clk_mask0 flags po parallel) (strobe_bits po) = 0.
Proof.
  intros ->. unfold color_clk_mask0, row_mask, strobe_bits.
  repeat split; disjoint_masks.
Qed.

Lemma clock_bits_apart oe :
  oe = set0 po
         (if PI_REV1_RGB_PINOUT_ flags
          then set0_all po 0
                 [IoBits0.output_enable_rev2; IoBits0.output_enable_rev1]
                 true
          else 0)
         IoBits0.output_enable true ->
  Z.land (clock_bits flags po) oe = 0
  /\ Z.land (clock_bits flags po) (row_mask po) = 0
  /\ Z.land (clock_bits flags po) (strobe_bits po) = 0.
Proof.
  intros ->. unfold clock_bits, row_mask, strobe_bits.
  repeat split; disjoint_masks.
Qed.

Lemma row_mask_apart oe :
  oe = set0 po
         (if PI_REV1_RGB_PINOUT_ flags
          then set0_all po 0
                 [IoBits0.output_enable_rev2; IoBits0.output_enable_rev1]
                 true
          else 0)
         IoBits0.output_enable true ->
  Z.land (row_mask po) oe = 0
  /\ Z.land (row_mask po) (strobe_bits po) = 0.
Proof.
  intros ->. unfold row_mask, strobe_bits.
  repeat split; disjoint_masks.
Qed.

Lemma strobe_bits_apart oe :
  oe = set0 po
         (if PI_REV1_RGB_PINOUT_ flags
          then set0_all po 0
                 [IoBits0.output_enable_rev2; IoBits0.output_enable_rev1]
                 true
          else 0)
         IoBits0.output_enable true ->
  Z.land (strobe_bits po) oe = 0
  /\ Z.land (strobe_bits po) (row_mask po) = 0.
Proof.
  intros ->. unfold row_mask, strobe_bits.
  repeat split; disjoint_masks.
Qed.

(** X18: every pin group has its own step of the frame.  The pins that
    [InitGPIO] hands to the pulser, the output-enable pins, are among
    the declared outputs and in the first-word mask of no GPIO write of
    [DumpToMatrix]; only the row-address write has address lines in
    its mask, and only the strobe writes have the strobe line. *)
Theorem DumpToMatrix_pin_groups
  fb io result0 result1 pulser c m0 m1 :
  InitGPIO flags po io (rows_ fb) (parallel_ fb) None
  = Initialized result0 result1 pulser ->
  In c (DumpToMatrix flags po fb) ->
  call_masks c = Some (m0, m1) ->
  subset (pulser_bits pulser) result0
  /\ Z.land m0 (pulser_bits pulser) = 0
  /\ (is_row_address_write po c = false -> Z.land m0 (row_mask po) = 0)
  /\ (is_strobe_write po c = false -> Z.land m0 (strobe_bits po) = 0).
Proof.
  intros Hinit Hin Hm.
  pose proof (InitGPIO_pulser_bits _ _ _ _ _ _ Hinit) as Hoe.
  apply InitGPIO_results in Hinit as [-> _].
  destruct (color_clk_mask0_apart (parallel_ fb) _ Hoe) as (C1 & C2 & C3).
  destruct (clock_bits_apart _ Hoe) as (K1 & K2 & K3).
  destruct (row_mask_apart _ Hoe) as (R1 & R3).
  destruct (strobe_bits_apart _ Hoe) as (S1 & S2).
  split.
  { rewrite Hoe. apply subset_testbit. intros i _ H.
    unfold InitGPIO_b0.
    apply testbit_keep_set0. do 4 apply testbit_keep_if_set0.
    or_bits_in H. or_bits. or_cases H. }
  apply In_DumpToMatrix in Hin.
  destruct Hin as [[d_row ->] | [(out0 & out1 & ->) | [-> | [-> | [->
                  | [-> | [-> | [b ->]]]]]]]];
    cbn [call_masks] in Hm; try discriminate Hm;
    injection Hm as <- <-;
    cbn [is_row_address_write is_strobe_write];
    rewrite ?Z.eqb_refl;
    (split; [assumption|]);
    (split; intros; first [assumption | discriminate]).
Qed.


(** ** What the buffers hold *)

Lemma deref_store_cases buf p w q :
  deref (store buf p w) q = w \/ deref (store buf p w) q = deref buf q.
Proof.
  destruct (Z.eq_dec p q) as [<-|Hne]; [|right; now apply deref_store_ne].
  destruct (Z.lt_ge_cases p 0) as [Hneg|Hpos].
  - right. unfold store. destruct (Z.ltb_spec p 0); [reflexivity | lia].
  - destruct (Z.lt_ge_cases p (Z.of_nat (length buf))) as [Hin|Hout].
    + left. apply deref_store_eq. lia.
    + right. unfold store. destruct (Z.ltb_spec p 0); [lia|].
      rewrite list_insert_ge by lia. reflexivity.
Qed.

Lemma store_within mask buf p w :
  (forall q, subset (deref buf q) mask) -> subset w mask ->
  forall q, subset (deref (store buf p w) q) mask.
Proof.
  intros Hb Hw q. destruct (deref_store_cases buf p w q) as [-> | ->]; auto.
Qed.

Lemma testbit_subset m d i :
  subset m d -> Z.testbit m i = true -> Z.testbit d i = true.
Proof.
  unfold subset. intros H Hm.
  apply (f_equal (fun z => Z.testbit z i)) in H.
  rewrite Z.ldiff_spec, Hm, Z.bits_0 in H.
  destruct (Z.testbit d i); [reflexivity | discriminate].
Qed.

Lemma assign_bit_within mask w pos v :
  0 <= pos -> Z.testbit mask pos = true -> subset w mask ->
  subset (assign_bit w pos v) mask.
Proof.
  intros Hpos Hmask Hw. apply subset_testbit. intros i _.
  rewrite testbit_assign_bit by assumption.
  destruct (Z.eqb_spec i pos) as [->|_]; [auto|].
  now apply testbit_subset.
Qed.

Lemma set0_all_within mask w fs v :
  (forall f, In f fs -> Z.testbit mask (bit0 po f) = true) ->
  subset w mask -> subset (set0_all po w fs v) mask.
Proof.
  unfold set0_all. revert w. induction fs as [|f fs IH]; intros w Hfs Hw;
    [assumption|].
  cbn [fold_left]. apply IH; [intros; apply Hfs; now right|].
  apply assign_bit_within; [apply bit0_range | apply Hfs; now left | auto].
Qed.

Lemma set1_all_within mask w fs v :
  (forall f, In f fs -> Z.testbit mask (bit1 po f) = true) ->
  subset w mask -> subset (set1_all po w fs v) mask.
Proof.
  unfold set1_all. revert w. induction fs as [|f fs IH]; intros w Hfs Hw;
    [assumption|].
  cbn [fold_left]. apply IH; [intros; apply Hfs; now right|].
  apply assign_bit_within; [apply bit1_range | apply Hfs; now left | auto].
Qed.

Lemma colour_mask0_field f :
  In f colour_fields0 -> Z.testbit (colour_mask0 po) (bit0 po f) = true.
Proof.
  intros Hf. unfold colour_mask0. rewrite testbit_set0_all_true.
  apply orb_true_iff. left. apply existsb_exists.
  exists f. split; [assumption | apply Z.eqb_refl].
Qed.

Lemma colour_mask1_field f :
  Z.testbit (colour_mask1 po) (bit1 po f) = true.
Proof.
  unfold colour_mask1. rewrite testbit_set1_all_true.
  apply orb_true_iff. left. apply existsb_exists.
  exists f. split; [apply IoBits1_all | apply Z.eqb_refl].
Qed.

(** A field of the first word whose bit is in the colour mask is a
    colour field. *)
Lemma colour_mask0_only f :
  Z.testbit (colour_mask0 po) (bit0 po f) = true -> In f colour_fields0.
Proof.
  unfold colour_mask0. rewrite testbit_set0_all_true, Z.bits_0, orb_false_r.
  intros H. apply existsb_exists in H as (g & Hg & E).
  apply Z.eqb_eq, bit0_inj in E. now subst.
Qed.

Lemma Fill_plane_bits0_colour red green blue b :
  subset (Fill_plane_bits0 flags po red green blue b) (colour_mask0 po).
Proof.
  unfold Fill_plane_bits0. cbv zeta.
  destruct (ONLY_SINGLE_CHAIN flags);
    repeat (apply set0_all_within;
            [intros f Hf; apply colour_mask0_field;
             cbn in Hf |- *; tauto|]);
    apply subset_0.
Qed.

Lemma Fill_plane_bits1_colour red green blue b :
  subset (Fill_plane_bits1 po red green blue b) (colour_mask1 po).
Proof.
  unfold Fill_plane_bits1. cbv zeta.
  repeat (apply set1_all_within; [intros; apply colour_mask1_field|]).
  apply subset_0.
Qed.

Lemma Fill_rows_within mask fb b w buf :
  subset w mask -> (forall q, subset (deref buf q) mask) ->
  forall q, subset (deref (Fill_rows fb b w buf) q) mask.
Proof.
  intros Hw. unfold Fill_rows.
  generalize (range 0 (double_rows_ fb)). intros rs. revert buf.
  induction rs as [|row rs IH]; intros buf Hb; [assumption|].
  cbn [fold_left]. apply IH. clear IH.
  unfold Fill_columns. generalize (ValueAt fb row 0 b). intros p.
  generalize (range 0 (columns_ fb)). intros cs. revert buf p Hb.
  induction cs as [|col cs IH]; intros buf p Hb; [assumption|].
  cbn [fold_left]. apply IH. now apply store_within.
Qed.

Lemma Fill_colour_only fb r g b :
  colour_only po fb -> colour_only po (Fill flags po fb r g b).
Proof.
  intros Hc. unfold Fill. cbv zeta.
  set (red := MapColor flags fb r).
  set (green := MapColor flags fb (if PANEL_SWAP_G_B_ flags then b else g)).
  set (blue := MapColor flags fb (if PANEL_SWAP_G_B_ flags then g else b)).
  assert (G : forall bs buf0 buf1,
             (forall q, subset (deref buf0 q) (colour_mask0 po)) ->
             (forall q, subset (deref buf1 q) (colour_mask1 po)) ->
             let r := fold_left
                        (fun '(buf0, buf1) b =>
                           (Fill_rows fb b
                              (Fill_plane_bits0 flags po red green blue b)
                              buf0,
                            if CM_5_CHAIN_SUPPORT flags
                            then Fill_rows fb b
                                   (Fill_plane_bits1 po red green blue b)
                                   buf1
                            else buf1))
                        bs (buf0, buf1) in
             (forall q, subset (deref (fst r) q) (colour_mask0 po))
             /\ (forall q, subset (deref (snd r) q) (colour_mask1 po))).
  { induction bs as [|p bs IH]; intros buf0 buf1 H0 H1; [now split|].
    cbn [fold_left]. apply IH.
    - apply Fill_rows_within; [apply Fill_plane_bits0_colour | assumption].
    - destruct (CM_5_CHAIN_SUPPORT flags); [|assumption].
      apply Fill_rows_within; [apply Fill_plane_bits1_colour | assumption]. }
  specialize (G (range (kBitPlanes - pwm_bits_ fb) kBitPlanes)
                (bitplane_buffer_0 fb) (bitplane_buffer_1 fb)
                (fun q => proj1 (Hc q)) (fun q => proj2 (Hc q))).
  cbv zeta in G. destruct (fold_left _ _ _) as [buf0 buf1].
  destruct G as [G0 G1]. intros q. split; [apply G0 | apply G1].
Qed.

Lemma deref_memset0 buf n q :
  deref (memset0 buf n) q = 0 \/ deref (memset0 buf n) q = deref buf q.
Proof.
  unfold memset0, deref. destruct (q <? 0); [now left|].
  destruct (Nat.lt_ge_cases (Z.to_nat q) (Z.to_nat n)) as [Hlt|Hge].
  - left. rewrite lookup_app_l by (rewrite length_replicate; lia).
    now rewrite lookup_replicate_2.
  - right. rewrite lookup_app_r by (rewrite length_replicate; lia).
    rewrite length_replicate, lookup_drop. do 2 f_equal. lia.
Qed.

Lemma Clear_colour_only fb :
  colour_only po fb -> colour_only po (Clear flags po fb).
Proof.
  intros Hc. unfold Clear.
  destruct (INVERSE_RGB_DISPLAY_COLORS flags); [now apply Fill_colour_only|].
  intros q. cbn [with_buffers bitplane_buffer_0 bitplane_buffer_1]. split.
  - destruct (deref_memset0 (bitplane_buffer_0 fb)
                (double_rows_ fb * columns_ fb * kBitPlanes) q) as [-> | ->];
      [apply subset_0 | apply Hc].
  - destruct (CM_5_CHAIN_SUPPORT flags); [|apply Hc].
    destruct (deref_memset0 (bitplane_buffer_1 fb)
                (double_rows_ fb * columns_ fb * kBitPlanes) q) as [-> | ->];
      [apply subset_0 | apply Hc].
Qed.

Lemma SetPixel_planes_within mask columns min_bit_plane pr pg pb
  red green blue bits buf :
  0 <= pr -> 0 <= pg -> 0 <= pb ->
  Z.testbit mask pr = true -> Z.testbit mask pg = true ->
  Z.testbit mask pb = true ->
  (forall q, subset (deref buf q) mask) ->
  forall q,
    subset (deref (SetPixel_planes columns min_bit_plane pr pg pb
                     red green blue bits buf) q) mask.
Proof.
  intros Hr Hg Hb Mr Mg Mb. unfold SetPixel_planes.
  generalize (range min_bit_plane kBitPlanes). intros bs. revert buf bits.
  induction bs as [|b bs IH]; intros buf bits Hbuf; [assumption|].
  cbn [fold_left SetPixel_step]. apply IH. apply store_within; [assumption|].
  unfold assign_rgb. cbv zeta.
  repeat (apply assign_bit_within; try assumption). apply Hbuf.
Qed.

Lemma SetPixel_colour_only fb x y r g b :
  colour_only po fb -> colour_only po (SetPixel flags po fb x y r g b).
Proof.
  intros Hc. unfold SetPixel. cbv zeta.
  repeat match goal with
    | |- context [if ?t then _ else _] => destruct t
    end; try assumption;
    intros q; cbn [with_buffers bitplane_buffer_0 bitplane_buffer_1];
    (split; [|try apply Hc]; try apply Hc);
    apply SetPixel_planes_within;
    try apply bit0_range; try apply bit1_range;
    try (apply colour_mask0_field; cbn; tauto);
    try apply colour_mask1_field;
    intros q'; apply Hc.
Qed.

Lemma call_colour_only fb m :
  colour_only po fb -> colour_only po (call flags po fb m).
Proof.
  intros Hc. destruct m; cbn [call].
  - now apply Clear_colour_only.
  - now apply Fill_colour_only.
  - now apply SetPixel_colour_only.
  - unfold SetPWMBits. now destruct (_ || _).
  - exact Hc.
Qed.

(** X10: the buffers hold colour bits only.  On a constructed object,
    after any sequence of mutator calls, every word of the first buffer
    has its bits within the colour fields of the three chains, so the
    output-enable, clock, strobe and address fields of every word are 0;
    every word of the second buffer has its bits within the colour
    fields of chains 4 and 5. *)
Theorem buffers_hold_colour_only rows columns parallel fb0 ms q f :
  Framebuffer_new flags po rows columns parallel = Some fb0 ->
  ~ In f colour_fields0 ->
  let fb := calls flags po fb0 ms in
  subset (deref (bitplane_buffer_0 fb) q) (colour_mask0 po)
  /\ subset (deref (bitplane_buffer_1 fb) q) (colour_mask1 po)
  /\ get0 po (deref (bitplane_buffer_0 fb) q) f = false.
Proof.
  intros Hnew Hf fb.
  assert (Hc : colour_only po fb).
  { unfold fb. clear fb. revert Hnew.
    unfold Framebuffer_new. cbv zeta.
    destruct (geometry_accepted flags rows parallel); [|discriminate].
    intros E. injection E as <-.
    match goal with |- colour_only _ (calls _ _ (Clear _ _ ?fresh) _) =>
      assert (H0 : colour_only po (Clear flags po fresh))
    end.
    { apply Clear_colour_only. intros q'. cbn. unfold new_IoBits.
      split; [rewrite deref_replicate_0; apply subset_0|].
      destruct (CM_5_CHAIN_SUPPORT flags);
        [rewrite deref_replicate_0; apply subset_0|].
      unfold deref. destruct (q' <? 0); apply subset_0. }
    revert H0. generalize (Clear flags po
      {| rows_ := rows; parallel_ := parallel; height_ := rows * parallel;
         columns_ := columns; pwm_bits_ := kBitPlanes;
         do_luminance_correct_ := true; brightness_ := 100;
         double_rows_ := rows ÷ SUB_PANELS_ flags;
         row_mask_ := rows ÷ SUB_PANELS_ flags - 1;
         bitplane_buffer_0 :=
           new_IoBits (rows ÷ SUB_PANELS_ flags * columns * kBitPlanes);
         bitplane_buffer_1 :=
           if CM_5_CHAIN_SUPPORT flags
           then new_IoBits (rows ÷ SUB_PANELS_ flags * columns * kBitPlanes)
           else [] |}).
    intros fb1. induction ms as [|m ms IH] in fb1 |- *; intros H1;
      [assumption|].
    cbn [calls fold_left]. apply IH. now apply call_colour_only. }
  destruct (Hc q) as [H0 H1]. split; [exact H0|]. split; [exact H1|].
  unfold get0.
  destruct (Z.testbit (deref (bitplane_buffer_0 fb) q) (bit0 po f)) eqn:E;
    [|reflexivity].
  exfalso. apply Hf. apply colour_mask0_only.
  eapply testbit_subset; eassumption.
Qed.


(** ** What mutators keep *)

Lemma same_geometry_trans fb fb' fb'' :
  same_geometry fb fb' -> same_geometry fb' fb'' -> same_geometry fb fb''.
Proof.
  unfold same_geometry.
  intros (A1 & A2 & A3 & A4 & A5 & A6) (B1 & B2 & B3 & B4 & B5 & B6).
  repeat split; congruence.
Qed.

Lemma call_same_geometry fb m : same_geometry fb (call flags po fb m).
Proof.
  assert (HF : forall r g b, same_geometry fb (Fill flags po fb r g b)).
  { intros r g b.
    destruct (Fill_spec fb r g b) as (E1 & E2 & E3 & E4 & _ & E6 & E7 & _).
    repeat split; assumption. }
  destruct m; cbn [call].
  - unfold Clear. destruct (INVERSE_RGB_DISPLAY_COLORS flags);
      [apply HF | repeat split].
  - apply HF.
  - unfold SetPixel. cbv zeta.
    repeat match goal with
      | |- context [if ?t then _ else _] => destruct t
      end; repeat split.
  - unfold SetPWMBits. destruct (_ || _); repeat split.
  - repeat split.
Qed.

Lemma calls_same_geometry fb ms : same_geometry fb (calls flags po fb ms).
Proof.
  revert fb. induction ms as [|m ms IH]; intros fb; [repeat split|].
  cbn [calls fold_left].
  eapply same_geometry_trans; [apply call_same_geometry | apply IH].
Qed.

(** X11: mutators never change the geometry.  On an object constructed
    for (rows, columns, parallel), after any sequence of mutator calls,
    the geometry fields are those the constructor computed, the rows and
    the parallel count are accepted ones, [pwm_bits_] is within [1, 11]
    and the buffers have double_rows * columns * 11 words. *)
Theorem mutators_keep_geometry rows columns parallel fb0 ms :
  Framebuffer_new flags po rows columns parallel = Some fb0 ->
  let fb := calls flags po fb0 ms in
  rows_ fb = rows /\ columns_ fb = columns /\ parallel_ fb = parallel
  /\ height_ fb = rows * parallel
  /\ double_rows_ fb = rows ÷ SUB_PANELS_ flags
  /\ row_mask_ fb = rows ÷ SUB_PANELS_ flags - 1
  /\ geometry_accepted flags rows parallel = true
  /\ 1 <= pwm_bits_ fb <= 11
  /\ length (bitplane_buffer_0 fb)
     = Z.to_nat (rows ÷ SUB_PANELS_ flags * columns * 11)
  /\ (CM_5_CHAIN_SUPPORT flags = true ->
      length (bitplane_buffer_1 fb)
      = Z.to_nat (rows ÷ SUB_PANELS_ flags * columns * 11)).
Proof.
  intros Hnew fb.
  pose proof (Framebuffer_new_wf _ _ _ _ Hnew) as Hwf0.
  pose proof (calls_wf ms fb0 Hwf0) as Hwf. fold fb in Hwf.
  destruct (calls_same_geometry fb0 ms) as (G1 & G2 & G3 & G4 & G5 & G6).
  fold fb in G1, G2, G3, G4, G5, G6.
  assert (F : rows_ fb0 = rows /\ columns_ fb0 = columns
              /\ parallel_ fb0 = parallel).
  { revert Hnew. unfold Framebuffer_new. cbv zeta.
    destruct (geometry_accepted flags rows parallel); [|discriminate].
    intros E. injection E as <-.
    match goal with |- context [Clear flags po ?fresh] =>
      destruct (call_same_geometry fresh CallClear) as (C1 & C2 & _ & C4 & _)
    end.
    cbn [call] in C1, C2, C4. rewrite C1, C2, C4. cbn. auto. }
  destruct F as (F1 & F2 & F3).
  pose proof (wf_geometry _ _ Hwf) as W1.
  pose proof (wf_height _ _ Hwf) as W2.
  pose proof (wf_double_rows _ _ Hwf) as W3.
  pose proof (wf_row_mask _ _ Hwf) as W4.
  pose proof (wf_pwm_bits _ _ Hwf) as W5.
  pose proof (wf_buffer_0 _ _ Hwf) as W6.
  pose proof (wf_buffer_1 _ _ Hwf) as W7.
  unfold kBitPlanes in *.
  rewrite G1, F1 in *. rewrite G2, F3 in *. rewrite G4, F2 in *.
  rewrite W3 in *.
  repeat split; auto; lia.
Qed.


(** ** Fill *)

Lemma existsb_range lo hi x :
  existsb (Z.eqb x) (range lo hi) = (lo <=? x) && (x <? hi).
Proof.
  destruct (existsb (Z.eqb x) (range lo hi)) eqn:E.
  - apply existsb_exists in E as (y & Hy & Exy).
    apply Z.eqb_eq in Exy. subst y. apply In_range in Hy.
    symmetry. apply andb_true_iff. split; [apply Z.leb_le | apply Z.ltb_lt];
      lia.
  - symmetry. apply andb_false_iff.
    destruct (Z.leb_spec lo x); [|now left].
    destruct (Z.ltb_spec x hi); [|now right].
    assert (existsb (Z.eqb x) (range lo hi) = true); [|congruence].
    apply existsb_exists. exists x. split; [apply In_range; lia|].
    apply Z.eqb_refl.
Qed.

Lemma Fill_columns_hit l w buf p k :
  0 <= p -> (k < length l)%nat ->
  p + Z.of_nat (length l) <= Z.of_nat (length buf) ->
  deref (fst (fold_left (fun '(buf, row_data) (_ : Z) =>
                           (store buf row_data w, row_data + 1))
                        l (buf, p))) (p + Z.of_nat k)
  = w.
Proof.
  revert buf p k. induction l as [|x l IH]; intros buf p k Hp Hk Hlen;
    [cbn in Hk; lia|].
  cbn [fold_left length] in *. destruct k as [|k].
  - change (Z.of_nat 0) with 0. rewrite Z.add_0_r.
    destruct (Fill_columns_fold l w (store buf p w) (p + 1) p) as [_ Hf].
    cbv zeta in Hf. rewrite Hf by (intros; lia).
    apply deref_store_eq. lia.
  - replace (p + Z.of_nat (S k)) with (p + 1 + Z.of_nat k) by lia.
    apply IH; [lia | lia | rewrite length_store; lia].
Qed.

(** The words of one plane after the row loop of [Fill]. *)
Lemma Fill_rows_cell fb b w buf d c p :
  length buf = Z.to_nat (double_rows_ fb * columns_ fb * kBitPlanes) ->
  0 <= b < kBitPlanes ->
  0 <= d < double_rows_ fb -> 0 <= c < columns_ fb -> 0 <= p < kBitPlanes ->
  deref (Fill_rows fb b w buf) (ValueAt fb d c p)
  = if p =? b then w else deref buf (ValueAt fb d c p).
Proof.
  intros Hlen Hb Hd Hc Hp. unfold Fill_rows.
  assert (G : forall rs buf,
             length buf
             = Z.to_nat (double_rows_ fb * columns_ fb * kBitPlanes) ->
             (forall row, In row rs -> 0 <= row < double_rows_ fb) ->
             deref (fold_left
                      (fun buf row =>
                         Fill_columns (columns_ fb) w (ValueAt fb row 0 b)
                           buf) rs buf) (ValueAt fb d c p)
             = if (p =? b) && existsb (Z.eqb d) rs then w
               else deref buf (ValueAt fb d c p)).
  { clear buf Hlen. induction rs as [|row rs IH]; intros buf Hlen Hrs.
    - cbn. now rewrite andb_false_r.
    - cbn [fold_left existsb].
      assert (Hrow : 0 <= row < double_rows_ fb) by (apply Hrs; now left).
      destruct (Fill_columns_fold (range 0 (columns_ fb)) w buf
                  (ValueAt fb row 0 b) (ValueAt fb d c p)) as [Cl Cf].
      fold (Fill_columns (columns_ fb) w (ValueAt fb row 0 b) buf) in Cl, Cf.
      rewrite IH by (rewrite ?Cl; auto; intros; apply Hrs; now right).
      destruct (Z.eqb_spec p b) as [->|Hpb]; cbn [andb].
      2:{ apply Cf. intros k Hk E. rewrite length_range in Hk.
          replace (ValueAt fb row 0 b + k) with (ValueAt fb row k b) in E
            by (unfold ValueAt; lia).
          apply ValueAt_inj in E; lia. }
      destruct (existsb (Z.eqb d) rs); [now rewrite orb_true_r|].
      rewrite orb_false_r.
      destruct (Z.eqb_spec d row) as [->|Hdr].
      + replace (ValueAt fb row c b)
          with (ValueAt fb row 0 b + Z.of_nat (Z.to_nat c))
          by (unfold ValueAt; lia).
        pose proof (ValueAt_range fb row 0 b) as R0.
        pose proof (ValueAt_range fb row (columns_ fb - 1) b) as R1.
        apply Fill_columns_hit.
        * unfold ValueAt in *. nia.
        * rewrite length_range. lia.
        * rewrite length_range, Hlen. unfold ValueAt in *. nia.
      + apply Cf. intros k Hk E. rewrite length_range in Hk.
        replace (ValueAt fb row 0 b + k) with (ValueAt fb row k b) in E
          by (unfold ValueAt; lia).
        apply ValueAt_inj in E; lia. }
  rewrite G; [|assumption | intros row Hr; apply In_range in Hr; lia].
  rewrite existsb_range.
  destruct (Z.leb_spec 0 d); [|lia].
  destruct (Z.ltb_spec d (double_rows_ fb)); [|lia].
  now rewrite andb_true_r.
Qed.

Lemma Fill_rows_length fb b w buf :
  length (Fill_rows fb b w buf) = length buf.
Proof.
  destruct (Fill_rows_fold fb b w (range 0 (double_rows_ fb)) buf 0)
    as [H _].
  exact H.
Qed.

(** The word of a cell after [Fill]. *)
Lemma Fill_cell_words fb r g b d c p :
  wf flags fb ->
  0 <= d < double_rows_ fb -> 0 <= c < columns_ fb -> 0 <= p < kBitPlanes ->
  let red := MapColor flags fb r in
  let green := MapColor flags fb (if PANEL_SWAP_G_B_ flags then b else g) in
  let blue := MapColor flags fb (if PANEL_SWAP_G_B_ flags then g else b) in
  let fb' := Fill flags po fb r g b in
  deref (bitplane_buffer_0 fb') (ValueAt fb d c p)
  = (if kBitPlanes - pwm_bits_ fb <=? p
     then Fill_plane_bits0 flags po red green blue p
     else deref (bitplane_buffer_0 fb) (ValueAt fb d c p))
  /\ (CM_5_CHAIN_SUPPORT flags = true ->
      deref (bitplane_buffer_1 fb') (ValueAt fb d c p)
      = (if kBitPlanes - pwm_bits_ fb <=? p
         then Fill_plane_bits1 po red green blue p
         else deref (bitplane_buffer_1 fb) (ValueAt fb d c p))).
Proof.
  intros Hwf Hd Hc Hp red green blue fb'.
  pose proof (wf_pwm_bits _ _ Hwf) as Hpwm.
  assert (G : forall bs buf0 buf1,
             length buf0
             = Z.to_nat (double_rows_ fb * columns_ fb * kBitPlanes) ->
             (CM_5_CHAIN_SUPPORT flags = true ->
              length buf1
              = Z.to_nat (double_rows_ fb * columns_ fb * kBitPlanes)) ->
             (forall b', In b' bs -> 0 <= b' < kBitPlanes) ->
             let r := fold_left
                        (fun '(buf0, buf1) b =>
                           (Fill_rows fb b
                              (Fill_plane_bits0 flags po red green blue b)
                              buf0,
                            if CM_5_CHAIN_SUPPORT flags
                            then Fill_rows fb b
                                   (Fill_plane_bits1 po red green blue b)
                                   buf1
                            else buf1))
                        bs (buf0, buf1) in
             deref (fst r) (ValueAt fb d c p)
             = (if existsb (Z.eqb p) bs
                then Fill_plane_bits0 flags po red green blue p
                else deref buf0 (ValueAt fb d c p))
             /\ (CM_5_CHAIN_SUPPORT flags = true ->
                 deref (snd r) (ValueAt fb d c p)
                 = (if existsb (Z.eqb p) bs
                    then Fill_plane_bits1 po red green blue p
                    else deref buf1 (ValueAt fb d c p)))).
  { induction bs as [|b' bs IH]; intros buf0 buf1 L0 L1 Hbs;
      [split; reflexivity|].
    cbn [fold_left existsb].
    assert (Hb' : 0 <= b' < kBitPlanes) by (apply Hbs; now left).
    destruct (IH (Fill_rows fb b'
                    (Fill_plane_bits0 flags po red green blue b') buf0)
                 (if CM_5_CHAIN_SUPPORT flags
                  then Fill_rows fb b'
                         (Fill_plane_bits1 po red green blue b') buf1
                  else buf1)) as [I0 I1].
    - now rewrite Fill_rows_length.
    - intros E. rewrite E. rewrite Fill_rows_length. auto.
    - intros; apply Hbs; now right.
    - split.
      + rewrite I0, Fill_rows_cell by assumption.
        destruct (Z.eqb_spec p b') as [->|_]; cbn [orb];
          now destruct (existsb _ bs).
      + intros E. rewrite (I1 E), E, Fill_rows_cell by auto.
        destruct (Z.eqb_spec p b') as [->|_]; cbn [orb];
          now destruct (existsb _ bs). }
  specialize (G (range (kBitPlanes - pwm_bits_ fb) kBitPlanes)
                (bitplane_buffer_0 fb) (bitplane_buffer_1 fb)
                (wf_buffer_0 _ _ Hwf) (wf_buffer_1 _ _ Hwf)).
  cbv zeta in G. unfold fb', Fill. cbv zeta.
  fold red green blue.
  destruct (fold_left _ _ _) as [buf0 buf1].
  cbn [with_buffers bitplane_buffer_0 bitplane_buffer_1 fst snd] in *.
  rewrite existsb_range in G.
  destruct (Z.ltb_spec p kBitPlanes); [|lia]. rewrite andb_true_r in G.
  apply G. intros b' Hb'. apply In_range in Hb'. lia.
Qed.

(** X6: what [Fill] leaves in the buffers.  Every word of a plane from
    11 - pwm_bits on is the word that [Fill] builds for that plane from
    zero, with the plane's bits of red, green and blue in the colour
    fields; every word of a plane below is as before.  The same holds in
    the second buffer where the build has it. *)
Theorem Fill_cells fb r g b d c p :
  wf flags fb ->
  0 <= d < double_rows_ fb -> 0 <= c < columns_ fb -> 0 <= p < kBitPlanes ->
  let red := MapColor flags fb r in
  let green := MapColor flags fb (if PANEL_SWAP_G_B_ flags then b else g) in
  let blue := MapColor flags fb (if PANEL_SWAP_G_B_ flags then g else b) in
  let fb' := Fill flags po fb r g b in
  deref (bitplane_buffer_0 fb') (ValueAt fb d c p)
  = (if kBitPlanes - pwm_bits_ fb <=? p
     then Fill_plane_bits0 flags po red green blue p
     else deref (bitplane_buffer_0 fb) (ValueAt fb d c p))
  /\ (CM_5_CHAIN_SUPPORT flags = true ->
      deref (bitplane_buffer_1 fb') (ValueAt fb d c p)
      = (if kBitPlanes - pwm_bits_ fb <=? p
         then Fill_plane_bits1 po red green blue p
         else deref (bitplane_buffer_1 fb) (ValueAt fb d c p))).
Proof. exact (Fill_cell_words fb r g b d c p). Qed.


(** Tests of one field position against another, decided by the
    pin-out. *)
Ltac field_tests :=
  repeat match goal with
    | |- context [bit0 po ?f =? bit0 po ?f] =>
        rewrite (Z.eqb_refl (bit0 po f))
    | |- context [bit0 po ?f =? bit0 po ?g] =>
        let E := fresh "E" in
        destruct (Z.eqb_spec (bit0 po f) (bit0 po g)) as [E|_];
        [apply bit0_inj in E; discriminate E|]
    | |- context [bit1 po ?f =? bit1 po ?f] =>
        rewrite (Z.eqb_refl (bit1 po f))
    | |- context [bit1 po ?f =? bit1 po ?g] =>
        let E := fresh "E" in
        destruct (Z.eqb_spec (bit1 po f) (bit1 po g)) as [E|_];
        [apply bit1_inj in E; discriminate E|]
    end.

(** The fields of the word that [Fill] builds for plane [p]: the colour
    fields of the first chain, and of the chains 2 and 3 unless the
    build has a single chain, carry the plane's bit of their colour; all
    other fields are 0. *)
Lemma Fill_plane_bits0_fields red green blue p f :
  get0 po (Fill_plane_bits0 flags po red green blue p) f
  = match field_colour0 f with
    | Some (chain, col) =>
        ((chain =? 0) || negb (ONLY_SINGLE_CHAIN flags))
        && plane_bit (pick col red green blue) p
    | None => false
    end.
Proof.
  unfold get0, Fill_plane_bits0. cbv zeta.
  destruct (ONLY_SINGLE_CHAIN flags); rewrite !testbit_set0_all, Z.bits_0;
    cbn [existsb]; destruct f; cbn [field_colour0 pick Z.eqb negb orb andb];
    field_tests; reflexivity.
Qed.

Lemma Fill_plane_bits1_fields red green blue p f :
  get1 po (Fill_plane_bits1 po red green blue p) f
  = plane_bit (pick (field_colour1 f) red green blue) p.
Proof.
  unfold get1, Fill_plane_bits1. cbv zeta.
  rewrite !testbit_set1_all, Z.bits_0;
    cbn [existsb]; destruct f; cbn [field_colour1 pick];
    field_tests; reflexivity.
Qed.


(** The lane of a row in range: its three fields carry red, green and
    blue of one chain, a chain that [Fill] writes. *)
Lemma pixel_lane_colours fb y :
  wf flags fb -> 0 <= y < height_ fb ->
  exists l,
    pixel_lane fb y = Some l
    /\ match l with
       | Lane0 f_r f_g f_b =>
           exists chain,
             field_colour0 f_r = Some (chain, Red)
             /\ field_colour0 f_g = Some (chain, Green)
             /\ field_colour0 f_b = Some (chain, Blue)
             /\ (chain =? 0) || negb (ONLY_SINGLE_CHAIN flags) = true
       | Lane1 f_r f_g f_b =>
           CM_5_CHAIN_SUPPORT flags = true
           /\ field_colour1 f_r = Red /\ field_colour1 f_g = Green
           /\ field_colour1 f_b = Blue
       end.
Proof.
  intros Hwf Hy.
  destruct (wf_facts fb Hwf) as (Hrows & Hpar & Hcm & Hsc & Hdr & _).
  pose proof (wf_height _ _ Hwf) as Hh.
  assert (Hr : 0 < rows_ fb) by lia.
  pose proof (Z.div_mod y (rows_ fb) ltac:(lia)) as Hdm.
  pose proof (Z.mod_pos_bound y (rows_ fb) Hr) as Hmb.
  unfold pixel_lane.
  set (k := y / rows_ fb) in *.
  assert (Hk : 0 <= k < parallel_ fb) by nia.
  destruct (CM_5_CHAIN_SUPPORT flags) eqn:Ecm;
    [clear Hcm | specialize (Hcm eq_refl)];
    (destruct (ONLY_SINGLE_CHAIN flags) eqn:Esc;
     [specialize (Hsc eq_refl) | clear Hsc]);
    assert (Hk5 : k = 0 \/ k = 1 \/ k = 2 \/ k = 3 \/ k = 4) by lia;
    destruct Hk5 as [Ek | [Ek | [Ek | [Ek | Ek]]]]; rewrite Ek in *;
    try lia; cbn [Z.eqb];
    destruct (y mod rows_ fb <? double_rows_ fb);
    eexists; (split; [reflexivity|]); cbn [field_colour0 field_colour1];
    first [ eexists; repeat split; reflexivity | repeat split ].
Qed.

(** The planes of a pixel after [Fill]. *)
Lemma read_back_Fill fb r g b x y :
  wf flags fb -> 0 <= x < columns_ fb -> 0 <= y < height_ fb ->
  read_back po (Fill flags po fb r g b) x y
  = Some
      (Z.land (MapColor flags fb r) (shown_planes fb),
       Z.land (MapColor flags fb (if PANEL_SWAP_G_B_ flags then b else g))
              (shown_planes fb),
       Z.land (MapColor flags fb (if PANEL_SWAP_G_B_ flags then g else b))
              (shown_planes fb)).
Proof.
  intros Hwf Hx Hy.
  set (red := MapColor flags fb r).
  set (green := MapColor flags fb (if PANEL_SWAP_G_B_ flags then b else g)).
  set (blue := MapColor flags fb (if PANEL_SWAP_G_B_ flags then g else b)).
  destruct (wf_facts fb Hwf) as (_ & _ & _ & _ & _ & Hd).
  pose proof (wf_pwm_bits _ _ Hwf) as Hpwm.
  assert (Hm : 0 <= y mod double_rows_ fb < double_rows_ fb)
    by (apply Z.mod_pos_bound; lia).
  destruct (Fill_spec fb r g b)
    as (Erows & _ & _ & Ecols & Epwm & Edr & _).
  destruct (pixel_lane_colours fb y Hwf Hy) as (l & Hl & Hcol).
  unfold read_back, pixel_lane. rewrite Erows, Edr.
  fold (pixel_lane fb y). rewrite Hl.
  set (d := y mod double_rows_ fb) in *.
  assert (R : forall buf' pos color,
             (forall p, kBitPlanes - pwm_bits_ fb <= p < kBitPlanes ->
                Z.testbit (deref buf' (ValueAt fb d x p)) pos
                = plane_bit color p) ->
             read_planes (Fill flags po fb r g b) buf' pos d x
             = Z.land color (shown_planes fb)).
  { intros buf' pos color H. unfold read_planes, shown_planes.
    rewrite Epwm. rewrite <- gather_plane_bits by lia.
    apply gather_ext. intros p Hp. apply In_range in Hp.
    rewrite (ValueAt_columns fb) by assumption. now apply H. }
  assert (C : forall p, kBitPlanes - pwm_bits_ fb <= p < kBitPlanes ->
              deref (bitplane_buffer_0 (Fill flags po fb r g b))
                    (ValueAt fb d x p)
              = Fill_plane_bits0 flags po red green blue p
              /\ (CM_5_CHAIN_SUPPORT flags = true ->
                  deref (bitplane_buffer_1 (Fill flags po fb r g b))
                        (ValueAt fb d x p)
                  = Fill_plane_bits1 po red green blue p)).
  { intros p Hp.
    destruct (Fill_cell_words fb r g b d x p Hwf Hm Hx ltac:(lia)) as [C0 C1].
    cbv zeta in C0, C1. fold red green blue in C0, C1.
    destruct (Z.leb_spec (kBitPlanes - pwm_bits_ fb) p); [|lia].
    split; assumption. }
  destruct l as [f_r f_g f_b | f_r f_g f_b];
    cbn [lane_positions lane_buffer].
  - destruct Hcol as (chain & Cr & Cg & Cb & Hch).
    rewrite (R _ (bit0 po f_r) red), (R _ (bit0 po f_g) green),
      (R _ (bit0 po f_b) blue); try reflexivity;
      intros p Hp; destruct (C p Hp) as [-> _];
      fold (get0 po (Fill_plane_bits0 flags po red green blue p) f_r);
      fold (get0 po (Fill_plane_bits0 flags po red green blue p) f_g);
      fold (get0 po (Fill_plane_bits0 flags po red green blue p) f_b);
      rewrite Fill_plane_bits0_fields, ?Cr, ?Cg, ?Cb, Hch; reflexivity.
  - destruct Hcol as (Hcm & Cr & Cg & Cb).
    rewrite (R _ (bit1 po f_r) red), (R _ (bit1 po f_g) green),
      (R _ (bit1 po f_b) blue); try reflexivity;
      intros p Hp; destruct (C p Hp) as [_ C1]; rewrite (C1 Hcm);
      fold (get1 po (Fill_plane_bits1 po red green blue p) f_r);
      fold (get1 po (Fill_plane_bits1 po red green blue p) f_g);
      fold (get1 po (Fill_plane_bits1 po red green blue p) f_b);
      rewrite Fill_plane_bits1_fields, ?Cr, ?Cg, ?Cb; reflexivity.
Qed.

(** X7: [Fill] gives every pixel the colour.  For every pixel in range,
    the planes read back after [Fill (r, g, b)] are the three values
    [MapColor] gives for r, g and b (g and b exchanged in the swap
    build), each restricted to the planes [11 - pwm_bits, 11). *)
Theorem Fill_read_back fb r g b x y :
  wf flags fb -> 0 <= x < columns_ fb -> 0 <= y < height_ fb ->
  read_back po (Fill flags po fb r g b) x y
  = Some
      (Z.land (MapColor flags fb r) (shown_planes fb),
       Z.land (MapColor flags fb (if PANEL_SWAP_G_B_ flags then b else g))
              (shown_planes fb),
       Z.land (MapColor flags fb (if PANEL_SWAP_G_B_ flags then g else b))
              (shown_planes fb)).
Proof. exact (read_back_Fill fb r g b x y). Qed.


Lemma gather_none P bs acc :
  (forall b, In b bs -> P b = false) -> gather P bs acc = acc.
Proof.
  unfold gather. revert acc. induction bs as [|b bs IH]; intros acc H;
    [reflexivity|].
  cbn [fold_left]. rewrite (H b) by now left.
  apply IH. intros; apply H; now right.
Qed.

Lemma land_65535_shown_planes fb :
  1 <= pwm_bits_ fb <= kBitPlanes ->
  Z.land 65535 (shown_planes fb) = shown_planes fb.
Proof.
  intros Hp. apply Z.bits_inj'. intros i Hi. rewrite Z.land_spec.
  unfold shown_planes.
  rewrite testbit_gather
    by (intros b Hb; apply In_range in Hb; unfold kBitPlanes in *; lia).
  rewrite Z.bits_0, existsb_range. cbn [orb]. rewrite andb_true_r.
  destruct (Z.leb_spec (kBitPlanes - pwm_bits_ fb) i);
    destruct (Z.ltb_spec i kBitPlanes); cbn [andb];
    rewrite ?andb_false_r; try reflexivity.
  change 65535 with (Z.ones 16).
  rewrite Z.ones_spec_low by (unfold kBitPlanes in *; lia). reflexivity.
Qed.

(** The planes of a pixel after [Clear]. *)
Lemma read_back_Clear fb x y :
  wf flags fb -> 0 <= x < columns_ fb -> 0 <= y < height_ fb ->
  (INVERSE_RGB_DISPLAY_COLORS flags = true -> 1 <= brightness_ fb <= 100) ->
  let v := if INVERSE_RGB_DISPLAY_COLORS flags then shown_planes fb else 0 in
  read_back po (Clear flags po fb) x y = Some (v, v, v).
Proof.
  intros Hwf Hx Hy Hb v. unfold Clear.
  destruct (INVERSE_RGB_DISPLAY_COLORS flags) eqn:Hinv.
  - rewrite read_back_Fill by assumption.
    assert (E : MapColor flags fb 0 = 65535)
      by (rewrite MapColor_0 by auto; now rewrite Hinv).
    destruct (PANEL_SWAP_G_B_ flags); rewrite E;
      rewrite land_65535_shown_planes by apply (wf_pwm_bits _ _ Hwf);
      reflexivity.
  - destruct (pixel_lane_colours fb y Hwf Hy) as (l & Hl & _).
    pose proof (Clear_zero fb) as Hz. unfold Clear in Hz.
    rewrite Hinv in Hz.
    unfold read_back, pixel_lane.
    cbn [with_buffers rows_ double_rows_]. fold (pixel_lane fb y).
    rewrite Hl.
    assert (R : forall buf pos d,
               (forall q, deref buf q = 0) ->
               read_planes
                 (with_buffers fb
                    (memset0 (bitplane_buffer_0 fb)
                       (double_rows_ fb * columns_ fb * kBitPlanes))
                    (if CM_5_CHAIN_SUPPORT flags
                     then memset0 (bitplane_buffer_1 fb)
                            (double_rows_ fb * columns_ fb * kBitPlanes)
                     else bitplane_buffer_1 fb)) buf pos d x
               = 0).
    { intros buf pos d H. unfold read_planes. apply gather_none.
      intros b' _. rewrite H. apply Z.bits_0. }
    destruct (lane_positions po l) as [[pr pg] pb].
    destruct l as [f_r f_g f_b | f_r f_g f_b]; cbn [lane_buffer].
    + rewrite !R by (intros q; apply (Hz q eq_refl Hwf)). reflexivity.
    + destruct (pixel_lane_colours fb y Hwf Hy) as (l' & Hl' & Hc).
      rewrite Hl in Hl'. injection Hl' as <-. destruct Hc as (Hcm & _).
      rewrite !R by (intros q; apply (Hz q eq_refl Hwf); assumption).
      reflexivity.
Qed.

(** X8: [Clear] makes every pixel black.  For every pixel in range the
    three values read back after [Clear] are 0, all shown planes off; in
    the inverse build they are the mask of the planes
    [11 - pwm_bits, 11), all shown planes on, which is the complement of
    black. *)
Theorem Clear_read_back fb x y :
  wf flags fb -> 0 <= x < columns_ fb -> 0 <= y < height_ fb ->
  (INVERSE_RGB_DISPLAY_COLORS flags = true -> 1 <= brightness_ fb <= 100) ->
  let v := if INVERSE_RGB_DISPLAY_COLORS flags then shown_planes fb else 0 in
  read_back po (Clear flags po fb) x y = Some (v, v, v).
Proof. exact (read_back_Clear fb x y). Qed.


(** ** SetPixel and the other pixels *)

(** A lane belongs to one chain and one half of its panel. *)
Lemma pixel_lane_inj fb y y' l :
  pixel_lane fb y = Some l -> pixel_lane fb y' = Some l ->
  y / rows_ fb = y' / rows_ fb
  /\ (y mod rows_ fb <? double_rows_ fb)
     = (y' mod rows_ fb <? double_rows_ fb).
Proof.
  unfold pixel_lane. cbv zeta.
  generalize (y mod rows_ fb <? double_rows_ fb)
             (y' mod rows_ fb <? double_rows_ fb).
  intros u u'.
  repeat match goal with
    | |- context [if ?a =? ?b then _ else _] =>
        destruct (Z.eqb_spec a b); cbv iota
    end;
    destruct u, u'; intros E E'; try discriminate;
    rewrite <- E in E'; try discriminate E';
    split; congruence.
Qed.

(** Two pixels of one cell are on two lanes. *)
Lemma lanes_of_rows fb y y' l l' :
  wf flags fb -> 0 <= y < height_ fb -> 0 <= y' < height_ fb ->
  pixel_lane fb y = Some l -> pixel_lane fb y' = Some l' ->
  y mod double_rows_ fb = y' mod double_rows_ fb -> y <> y' -> l <> l'.
Proof.
  intros Hwf Hy Hy' Hl Hl' Hm Hne <-.
  destruct (pixel_lane_inj fb y y' l Hl Hl') as [Hk Hu].
  destruct (wf_facts fb Hwf) as (Hrows & _ & _ & _ & Hdr & Hd).
  apply Hne. clear Hl Hl' Hne.
  assert (Hmm : forall z,
             z mod double_rows_ fb = (z mod rows_ fb) mod double_rows_ fb).
  { intros z. symmetry. apply Z.mod_mod_divide.
    destruct Hdr as [-> | <-]; [apply Z.divide_refl | exists 2; lia]. }
  rewrite (Hmm y), (Hmm y') in Hm.
  pose proof (Z.div_mod y (rows_ fb) ltac:(lia)) as Ey.
  pose proof (Z.div_mod y' (rows_ fb) ltac:(lia)) as Ey'.
  pose proof (Z.mod_pos_bound y (rows_ fb) ltac:(lia)) as By.
  pose proof (Z.mod_pos_bound y' (rows_ fb) ltac:(lia)) as By'.
  rewrite <- Hk in Ey'.
  set (m := y mod rows_ fb) in *. set (m' := y' mod rows_ fb) in *.
  set (k := y / rows_ fb) in *. clearbody m m' k. clear Hmm Hk.
  assert (m = m'); [|subst m'; lia].
  destruct (Z.ltb_spec m (double_rows_ fb)),
    (Z.ltb_spec m' (double_rows_ fb)); try discriminate.
  - rewrite !Z.mod_small in Hm by lia. assumption.
  - assert (E : forall z, double_rows_ fb <= z < rows_ fb ->
                          z mod double_rows_ fb = z - double_rows_ fb).
    { intros z Hz. symmetry.
      apply (Z.mod_unique z (double_rows_ fb) 1); lia. }
    rewrite !E in Hm by lia. lia.
Qed.

(** Two lanes share no field. *)
Lemma lanes_apart fb y y' l l' :
  pixel_lane fb y = Some l -> pixel_lane fb y' = Some l' -> l <> l' ->
  match l, l' with
  | Lane0 f_r f_g f_b, Lane0 f_r' f_g' f_b' =>
      forall f f', In f [f_r; f_g; f_b] -> In f' [f_r'; f_g'; f_b'] ->
                   bit0 po f' <> bit0 po f
  | Lane1 f_r f_g f_b, Lane1 f_r' f_g' f_b' =>
      forall f f', In f [f_r; f_g; f_b] -> In f' [f_r'; f_g'; f_b'] ->
                   bit1 po f' <> bit1 po f
  | _, _ => True
  end.
Proof.
  unfold pixel_lane.
  repeat match goal with
    | |- context [if ?t then _ else _] => destruct t
    end;
    intros E E' Hne; try discriminate;
    injection E as <-; injection E' as <-; try exact I;
    try (exfalso; apply Hne; reflexivity);
    intros f f' Hf Hf';
    destruct Hf as [<- | [<- | [<- | []]]];
    destruct Hf' as [<- | [<- | [<- | []]]];
    intros E; first [apply bit0_inj in E | apply bit1_inj in E];
    discriminate.
Qed.

(** The planes read at a bit that [write_lane] does not assign in the
    cell read. *)
Lemma read_planes_write_lane_other fb l d x red green blue l' d' x' pos :
  wf flags fb ->
  (forall f_r f_g f_b, l = Lane1 f_r f_g f_b ->
     CM_5_CHAIN_SUPPORT flags = true) ->
  0 <= d < double_rows_ fb -> 0 <= x < columns_ fb ->
  0 <= x' < columns_ fb ->
  (d' = d -> x' = x ->
   match l, l' with
   | Lane0 f_r f_g f_b, Lane0 _ _ _ =>
       pos <> bit0 po f_r /\ pos <> bit0 po f_g /\ pos <> bit0 po f_b
   | Lane1 f_r f_g f_b, Lane1 _ _ _ =>
       pos <> bit1 po f_r /\ pos <> bit1 po f_g /\ pos <> bit1 po f_b
   | _, _ => True
   end) ->
  let fb' := write_lane po fb l d x red green blue in
  read_planes fb' (lane_buffer fb' l') pos d' x'
  = read_planes fb (lane_buffer fb l') pos d' x'.
Proof.
  intros Hwf Hl Hd Hx Hx' Hpos fb'.
  destruct (write_lane_geometry fb l d x red green blue)
    as (_ & _ & _ & Hcols & Hpwm & _).
  fold fb' in Hcols, Hpwm.
  pose proof (wf_pwm_bits _ _ Hwf) as Hp.
  unfold read_planes. rewrite Hpwm.
  apply gather_ext. intros b Hb. apply In_range in Hb.
  rewrite (ValueAt_columns fb fb') by assumption.
  destruct l as [f_r f_g f_b | f_r f_g f_b],
    l' as [f_r' f_g' f_b' | f_r' f_g' f_b'].
  - change (lane_buffer fb' (Lane0 f_r' f_g' f_b'))
      with (lane_buffer fb' (Lane0 f_r f_g f_b)).
    unfold fb'. rewrite write_lane_cell by (try assumption; lia).
    cbn [lane_positions lane_buffer].
    destruct (Z.eqb_spec d' d) as [Ed|]; [|reflexivity].
    destruct (Z.eqb_spec x' x) as [Ex|]; [|reflexivity].
    destruct (Z.leb_spec (kBitPlanes - pwm_bits_ fb) b); [|reflexivity].
    cbn [andb]. destruct (Hpos Ed Ex) as (Hr & Hg & Hb').
    rewrite testbit_assign_rgb by apply bit0_range.
    case_tests. reflexivity.
  - unfold fb', write_lane. cbn. reflexivity.
  - unfold fb', write_lane. cbn. reflexivity.
  - change (lane_buffer fb' (Lane1 f_r' f_g' f_b'))
      with (lane_buffer fb' (Lane1 f_r f_g f_b)).
    unfold fb'. rewrite write_lane_cell by (try assumption; lia).
    cbn [lane_positions lane_buffer].
    destruct (Z.eqb_spec d' d) as [Ed|]; [|reflexivity].
    destruct (Z.eqb_spec x' x) as [Ex|]; [|reflexivity].
    destruct (Z.leb_spec (kBitPlanes - pwm_bits_ fb) b); [|reflexivity].
    cbn [andb]. destruct (Hpos Ed Ex) as (Hr & Hg & Hb').
    rewrite testbit_assign_rgb by apply bit1_range.
    case_tests. reflexivity.
Qed.

(** X9: [SetPixel] changes one pixel.  Whatever the arguments of
    [SetPixel (x, y, r, g, b)], every pixel in range other than (x, y)
    reads back after the call what it read back before, also the pixels
    that share the words of (x, y): the pixels of column x whose row has
    the same remainder modulo [double_rows_]. *)
Theorem SetPixel_other_pixels fb x y r g b x' y' :
  wf flags fb -> 0 <= x' < columns_ fb -> 0 <= y' < height_ fb ->
  (x', y') <> (x, y) ->
  read_back po (SetPixel flags po fb x y r g b) x' y'
  = read_back po fb x' y'.
Proof.
  intros Hwf Hx' Hy' Hne.
  destruct (Z.ltb_spec x 0); [now rewrite SetPixel_guard by lia|].
  destruct (Z.leb_spec (columns_ fb) x);
    [now rewrite SetPixel_guard by lia|].
  destruct (Z.ltb_spec y 0); [now rewrite SetPixel_guard by lia|].
  destruct (Z.leb_spec (height_ fb) y);
    [now rewrite SetPixel_guard by lia|].
  assert (Hx : 0 <= x < columns_ fb) by lia.
  assert (Hy : 0 <= y < height_ fb) by lia.
  destruct (SetPixel_write_lane fb x y r g b Hwf Hx Hy)
    as (l & Hl & Hcm & ->).
  destruct (SetPixel_write_lane fb x' y' r g b Hwf Hx' Hy')
    as (l' & Hl' & _ & _).
  set (red := MapColor flags fb r).
  set (green := MapColor flags fb (if PANEL_SWAP_G_B_ flags then b else g)).
  set (blue := MapColor flags fb (if PANEL_SWAP_G_B_ flags then g else b)).
  destruct (wf_facts fb Hwf) as (_ & _ & _ & _ & _ & Hd).
  assert (Hm : 0 <= y mod double_rows_ fb < double_rows_ fb)
    by (apply Z.mod_pos_bound; lia).
  destruct (write_lane_geometry fb l (y mod double_rows_ fb) x red green blue)
    as (Hrows & _ & _ & _ & _ & Hdr & _).
  unfold read_back, pixel_lane. rewrite Hrows, Hdr.
  fold (pixel_lane fb y'). rewrite Hl'.
  assert (A : y mod double_rows_ fb = y' mod double_rows_ fb -> x' = x ->
              l <> l').
  { intros Em Ex. apply (lanes_of_rows fb y y'); try assumption.
    intros ->. apply Hne. now rewrite Ex. }
  pose proof (lanes_apart fb y y' l l' Hl Hl') as Hap.
  pose proof (read_planes_write_lane_other fb l (y mod double_rows_ fb) x
                red green blue l' (y' mod double_rows_ fb) x') as R.
  cbv zeta in R.
  destruct l as [f_r f_g f_b | f_r f_g f_b],
    l' as [f_r' f_g' f_b' | f_r' f_g' f_b']; cbn [lane_positions];
    rewrite !R; try assumption; try reflexivity; try (intros; exact I);
    intros Ed Ex; specialize (Hap (A (eq_sym Ed) Ex));
    repeat split; apply Hap; cbn [In]; tauto.
Qed.


(** ** The pins InitGPIO asks for *)

(** X5: the pins [InitGPIO] declares, field by field.  The first word has
    the output-enable, clock and strobe lines, the address line a and
    the colour lines of the first chain in every case; the address lines
    b, c, d, e from rows / 2 >= 4, 8, 16, 32 on, whatever the number of
    sub-panels of the build; the colour lines of the chains 2 and 3 from
    parallel >= 2 and 3 on, unless the build has a single chain; the
    rev1 lines in the rev1 build only.  The second word, in the build
    that has it, has the colour lines of the chains 4 and 5 from
    parallel >= 2 and 3 on. *)
Theorem InitGPIO_declared_fields io rows parallel result0 result1 pulser :
  InitGPIO flags po io rows parallel None
  = Initialized result0 result1 pulser ->
  (forall f,
     get0 po result0 f
     = match f with
       | IoBits0.output_enable | IoBits0.clock | IoBits0.strobe
       | IoBits0.a
       | IoBits0.p0_r1 | IoBits0.p0_g1 | IoBits0.p0_b1
       | IoBits0.p0_r2 | IoBits0.p0_g2 | IoBits0.p0_b2 => true
       | IoBits0.b => 4 <=? rows ÷ 2
       | IoBits0.c => 8 <=? rows ÷ 2
       | IoBits0.d => 16 <=? rows ÷ 2
       | IoBits0.e => 32 <=? rows ÷ 2
       | IoBits0.p1_r1 | IoBits0.p1_g1 | IoBits0.p1_b1
       | IoBits0.p1_r2 | IoBits0.p1_g2 | IoBits0.p1_b2 =>
           negb (ONLY_SINGLE_CHAIN flags) && (2 <=? parallel)
       | IoBits0.p2_r1 | IoBits0.p2_g1 | IoBits0.p2_b1
       | IoBits0.p2_r2 | IoBits0.p2_g2 | IoBits0.p2_b2 =>
           negb (ONLY_SINGLE_CHAIN flags) && (3 <=? parallel)
       | IoBits0.output_enable_rev1 | IoBits0.output_enable_rev2
       | IoBits0.clock_rev1 | IoBits0.clock_rev2 =>
           PI_REV1_RGB_PINOUT_ flags
       end)
  /\ (forall f,
        get1 po result1 f
        = CM_5_CHAIN_SUPPORT flags
          && match f with
             | IoBits1.p3_r1 | IoBits1.p3_g1 | IoBits1.p3_b1
             | IoBits1.p3_r2 | IoBits1.p3_g2 | IoBits1.p3_b2 =>
                 2 <=? parallel
             | IoBits1.p4_r1 | IoBits1.p4_g1 | IoBits1.p4_b1
             | IoBits1.p4_r2 | IoBits1.p4_g2 | IoBits1.p4_b2 =>
                 3 <=? parallel
             end).
Proof.
  intros H. apply InitGPIO_results in H as [-> ->]. split; intros f.
  - unfold get0, InitGPIO_b0. cbv zeta. or_bits.
    generalize (negb (ONLY_SINGLE_CHAIN flags) && (2 <=? parallel))
               (negb (ONLY_SINGLE_CHAIN flags) && (3 <=? parallel))
               (PI_REV1_RGB_PINOUT_ flags)
               (4 <=? rows ÷ 2) (8 <=? rows ÷ 2) (16 <=? rows ÷ 2)
               (32 <=? rows ÷ 2).
    intros c2 c3 rev r4 r8 r16 r32.
    destruct f; field_tests;
      rewrite ?andb_false_r, ?orb_false_r, ?orb_true_r, ?andb_true_r;
      reflexivity.
  - destruct (CM_5_CHAIN_SUPPORT flags); cbn [andb];
      [|unfold get1; apply Z.bits_0].
    unfold get1, InitGPIO_b1. or_bits.
    generalize (2 <=? parallel) (3 <=? parallel). intros c2 c3.
    destruct f; field_tests;
      rewrite ?andb_false_r, ?orb_false_r, ?orb_true_r, ?andb_true_r;
      reflexivity.
Qed.


(** ** The new object *)

Lemma Clear_settings fb :
  let fb' := Clear flags po fb in
  pwm_bits_ fb' = pwm_bits_ fb /\ brightness_ fb' = brightness_ fb
  /\ do_luminance_correct_ fb' = do_luminance_correct_ fb
  /\ columns_ fb' = columns_ fb /\ height_ fb' = height_ fb.
Proof.
  unfold Clear, Fill. cbv zeta.
  destruct (INVERSE_RGB_DISPLAY_COLORS flags);
    [destruct (fold_left _ _ _) as [buf0 buf1]|]; cbn; auto.
Qed.

(** X4: a new object is black, at full settings.  The constructor leaves
    11 planes, brightness 100 and luminance correction on, and every
    pixel of the matrix reads back black: 0 in the three colours, and
    2047, all 11 planes on, in the inverse build. *)
Theorem Framebuffer_new_black rows columns parallel fb x y :
  Framebuffer_new flags po rows columns parallel = Some fb ->
  0 <= x < columns -> 0 <= y < rows * parallel ->
  let v := if INVERSE_RGB_DISPLAY_COLORS flags then 2047 else 0 in
  pwm_bits_ fb = 11 /\ brightness_ fb = 100
  /\ do_luminance_correct_ fb = true
  /\ read_back po fb x y = Some (v, v, v).
Proof.
  intros Hnew Hx Hy v. unfold Framebuffer_new in Hnew. cbv zeta in Hnew.
  destruct (geometry_accepted flags rows parallel) eqn:Hg; [|discriminate].
  injection Hnew as <-.
  match goal with
  | |- context [Clear flags po ?r] => set (fb0 := r)
  end.
  assert (Hwf : wf flags fb0).
  { constructor; cbn; auto.
    - unfold kBitPlanes. lia.
    - apply length_replicate.
    - intros ->. apply length_replicate. }
  destruct (Clear_settings fb0) as (-> & -> & -> & _).
  repeat (split; [reflexivity|]).
  rewrite read_back_Clear; try assumption.
  - subst v. destruct (INVERSE_RGB_DISPLAY_COLORS flags); reflexivity.
  - intros _. cbn. lia.
Qed.

End Properties.

(** * Scenarios on the 32 x 32 object *)

Lemma sample_pinout_ok : pinout_ok sample_pinout = true.
Proof. reflexivity. Qed.

Lemma fb_32x32_constructed :
  Framebuffer_new default_flags sample_pinout 32 32 1 = Some fb_32x32.
Proof. vm_compute. reflexivity. Qed.

Lemma fb_32x32_wf : wf default_flags fb_32x32.
Proof.
  apply (Framebuffer_new_wf default_flags sample_pinout 32 32 1).
  exact fb_32x32_constructed.
Qed.

(** ** The luminance curve *)

(** C1: in corrected mode, at brightness 1, [MapColor 225] is 2, while
    the CIE1931 curve of the specification, with the divisor 903.3 in its
    linear part, gives 1 there: [luminance_cie1931] divides by 902.3.
    With 903.3 in place of 902.3 the same floating-point computation
    gives 1 as well, so the difference is that of the constant and not
    of rounding. *)
Theorem MapColor_225_at_brightness_1 :
  let fb := with_brightness fb_32x32 1 in
  do_luminance_correct_ fb = true
  /\ MapColor default_flags fb 225 = 2
  /\ cie1931_curve 225 1 = 1
  /\ luminance_with (9033 # 10) 225 1 = 1.
Proof.
  cbv zeta. split; [reflexivity|]. split.
  - rewrite MapColor_corrected by (cbn; auto; lia).
    vm_compute. reflexivity.
  - split; vm_compute; reflexivity.
Qed.

(** ** The claims as worded, on concrete inputs *)

(** C3 as worded fails: on the constructed object, after
    [SetPixel (0, 0, 255, 0, 0)] and [SetPWMBits 1], plane 0 is below
    [11 - pwm_bits_] = 10 and the word of (0, 0, plane 0) still has
    p0_r1 set. *)
Lemma hidden_plane_keeps_colour :
  let fb := calls default_flags sample_pinout fb_32x32
              [CallSetPixel 0 0 255 0 0; CallSetPWMBits 1] in
  0 <= 0 < kBitPlanes - pwm_bits_ fb
  /\ get0 sample_pinout
       (deref (bitplane_buffer_0 fb) (ValueAt fb 0 0 0)) IoBits0.p0_r1
     = true.
Proof.
  cbv zeta. split.
  - change (0 <= 0 < 11 - 1). lia.
  - lazy. reflexivity.
Qed.

(** C4 as worded fails: after [SetPixel (0, 0, 255, 0, 0)] the word of
    (0, 0, plane 0) does not have all colour bits zero, p0_r1 is set. *)
Lemma S1_plane_0_not_zero :
  let fb' := SetPixel default_flags sample_pinout fb_32x32 0 0 255 0 0 in
  let w0 := deref (bitplane_buffer_0 fb') (ValueAt fb' 0 0 0) in
  ~ (get0 sample_pinout w0 IoBits0.p0_r1 = false
     /\ get0 sample_pinout w0 IoBits0.p0_g1 = false
     /\ get0 sample_pinout w0 IoBits0.p0_b1 = false).
Proof.
  lazy. intros [H _]. discriminate H.
Qed.

(** C5 as worded fails: with [pwm_bits_] = 1 only plane 10 is written
    and read back, so the red value read back after
    [SetPixel (0, 0, 255, 0, 0)] is 1024 and not [MapColor 255] = 2047. *)
Lemma read_back_not_MapColor :
  let fb := snd (SetPWMBits fb_32x32 1) in
  read_back sample_pinout
    (SetPixel default_flags sample_pinout fb 0 0 255 0 0) 0 0
  <> Some (MapColor default_flags fb 255, MapColor default_flags fb 0,
           MapColor default_flags fb 0).
Proof.
  lazy. intros H. discriminate H.
Qed.

(** ** The theorems on concrete inputs *)

Lemma fb_32x32_single_constructed :
  Framebuffer_new single_sub_panel_flags sample_pinout 32 32 1
  = Some fb_32x32_single.
Proof. vm_compute. reflexivity. Qed.

Lemma fb_32x32_single_wf : wf single_sub_panel_flags fb_32x32_single.
Proof.
  apply (Framebuffer_new_wf single_sub_panel_flags sample_pinout 32 32 1).
  exact fb_32x32_single_constructed.
Qed.

Lemma row_address_write_undeclared_witness :
  InitGPIO default_flags sample_pinout all_pins_gpio 32 1 None
  = Initialized 197529488 0
      {| pulser_bits := 262144; pulser_timings := bitplane_timings |}
  /\ InitGPIO single_sub_panel_flags sample_pinout all_pins_gpio 32 1 None
     = Initialized 197529488 0
         {| pulser_bits := 262144; pulser_timings := bitplane_timings |}
  /\ row_mask sample_pinout = 62947328
  /\ set_row_address sample_pinout 0 16 = 32768
  /\ (In (WriteMaskedBits (set_row_address sample_pinout 0 0)
            (row_mask sample_pinout) 0 0)
         (DumpToMatrix default_flags sample_pinout fb_32x32)
      /\ get0 sample_pinout (row_mask sample_pinout) IoBits0.e = true
      /\ get0 sample_pinout 197529488 IoBits0.e = false
      /\ ~ subset (row_mask sample_pinout) 197529488)
  /\ (In (WriteMaskedBits (set_row_address sample_pinout 0 16)
            (row_mask sample_pinout) 0 0)
         (DumpToMatrix single_sub_panel_flags sample_pinout fb_32x32_single)
      /\ get0 sample_pinout (set_row_address sample_pinout 0 16) IoBits0.e
         = true
      /\ get0 sample_pinout 197529488 IoBits0.e = false).
Proof.
  assert (Hinit :
            InitGPIO default_flags sample_pinout all_pins_gpio
              (rows_ fb_32x32) (parallel_ fb_32x32) None
            = Initialized 197529488 0
                {| pulser_bits := 262144;
                   pulser_timings := bitplane_timings |})
    by reflexivity.
  assert (Hinit1 :
            InitGPIO single_sub_panel_flags sample_pinout all_pins_gpio
              (rows_ fb_32x32_single) (parallel_ fb_32x32_single) None
            = Initialized 197529488 0
                {| pulser_bits := 262144;
                   pulser_timings := bitplane_timings |})
    by reflexivity.
  assert (Hrows : rows_ fb_32x32 <> 64) by (change (32 <> 64); lia).
  assert (Hrows1 : rows_ fb_32x32_single <> 64)
    by (change (32 <> 64); lia).
  destruct (row_address_write_undeclared default_flags sample_pinout
              eq_refl fb_32x32 all_pins_gpio _ _ _ fb_32x32_wf Hrows Hinit)
    as (A1 & A2 & A3 & A4 & _).
  destruct (row_address_write_undeclared single_sub_panel_flags
              sample_pinout eq_refl fb_32x32_single all_pins_gpio _ _ _
              fb_32x32_single_wf Hrows1 Hinit1)
    as (_ & _ & B3 & _ & B5).
  destruct (B5 eq_refl eq_refl) as [B6 B7].
  split; [exact Hinit|]. split; [exact Hinit1|].
  split; [reflexivity|]. split; [reflexivity|].
  split; [repeat split; assumption|].
  split; [exact B6|]. split; [exact B7 | exact B3].
Defined.

Lemma hidden_planes_zero_since_Clear_witness :
  let fb1 := Clear default_flags sample_pinout
               (calls default_flags sample_pinout fb_32x32
                  [CallSetPWMBits 8]) in
  let fb2 := calls default_flags sample_pinout fb1
               [CallSetPixel 0 0 255 0 0] in
  max_pwm_bits default_flags sample_pinout fb1 [CallSetPixel 0 0 255 0 0]
  = 8
  /\ forall f,
       get0 sample_pinout
         (deref (bitplane_buffer_0 fb2) (ValueAt fb2 0 0 2)) f
       = false.
Proof.
  cbv zeta. split; [reflexivity|].
  apply (hidden_planes_zero_since_Clear default_flags sample_pinout
           32 32 1 fb_32x32 [CallSetPWMBits 8] [CallSetPixel 0 0 255 0 0]
           0 0 2 eq_refl fb_32x32_constructed).
  - change (0 <= 0 < 16). lia.
  - change (0 <= 0 < 32). lia.
  - change (0 <= 2 < 11 - 8). lia.
Defined.

Lemma S1_red_pixel_witness :
  let fb' := SetPixel default_flags sample_pinout fb_32x32 0 0 255 0 0 in
  get0 sample_pinout
    (deref (bitplane_buffer_0 fb') (ValueAt fb' 0 0 10)) IoBits0.p0_r1
  = true
  /\ get0 sample_pinout
       (deref (bitplane_buffer_0 fb') (ValueAt fb' 0 0 0)) IoBits0.p0_r1
     = true
  /\ deref (bitplane_buffer_0 fb') (ValueAt fb' 0 1 10) = 0.
Proof.
  destruct (S1_red_pixel default_flags sample_pinout eq_refl fb_32x32
              eq_refl fb_32x32_constructed) as (Hcell & Hothers & _).
  cbv zeta in *. split; [|split].
  - apply Hcell; [unfold kBitPlanes; lia | reflexivity].
  - apply Hcell; [unfold kBitPlanes; lia | reflexivity].
  - apply Hothers; [change (0 <= 0 < 16); lia | lia
                   | unfold kBitPlanes; lia].
Defined.

Lemma SetPixel_read_back_witness :
  read_back sample_pinout
    (SetPixel default_flags sample_pinout fb_32x32 3 21 10 20 30) 3 21
  = Some
      (Z.land (MapColor default_flags fb_32x32 10) (shown_planes fb_32x32),
       Z.land (MapColor default_flags fb_32x32 20) (shown_planes fb_32x32),
       Z.land (MapColor default_flags fb_32x32 30) (shown_planes fb_32x32)).
Proof.
  apply (SetPixel_read_back default_flags sample_pinout eq_refl
           fb_32x32 3 21 10 20 30 fb_32x32_wf).
  - change (0 <= 3 < 32). lia.
  - change (0 <= 21 < 32). lia.
Defined.

Lemma planes_per_row_witness :
  fst (SetPWMBits fb_32x32 5) = true
  /\ latch_calls sample_pinout
       (DumpToMatrix_row default_flags sample_pinout 5 fb_32x32
          (set_row_address sample_pinout 0 3) 3)
     = flat_map (latch_plane sample_pinout) (range (11 - 5) 11)
  /\ length (range (11 - 5) 11) = Z.to_nat 5
  /\ latch_plane sample_pinout 6
     = [SetBits 16 0; ClearBits 16 0; SendPulse 6].
Proof.
  destruct (planes_per_row default_flags sample_pinout eq_refl fb_32x32 5
              (fun _ => fb_32x32)) as (H1 & _ & H2 & H3 & _ & _ & H6).
  - lia.
  - split; [exact H1|]. split; [exact (H2 3)|].
    split; [exact H3 | exact (H6 6)].
Defined.

Lemma SetPixel_out_of_range_witness :
  SetPixel default_flags sample_pinout fb_32x32 (-1) 0 255 255 255
  = fb_32x32
  /\ SetPixel default_flags sample_pinout fb_32x32 0 10000 255 255 255
     = fb_32x32.
Proof.
  split.
  - apply SetPixel_out_of_range; [reflexivity | left; lia].
  - apply SetPixel_out_of_range;
      [reflexivity | right; right; right; change (10000 >= 32 * 1); lia].
Defined.

Lemma bitplane_timings_spec_witness :
  InitGPIO default_flags sample_pinout all_pins_gpio 32 1 None
  = Initialized 197529488 0
      {| pulser_bits := 262144; pulser_timings := bitplane_timings |}
  /\ bitplane_timings !! Z.to_nat 10 = Some (kBaseTimeNanos ≪ 10)
  /\ kBaseTimeNanos ≪ 10 = 130 * 2 ^ 10.
Proof.
  split; [reflexivity|].
  destruct (bitplane_timings_spec default_flags sample_pinout
              all_pins_gpio 32 1 197529488 0
              {| pulser_bits := 262144; pulser_timings := bitplane_timings |}
              10 eq_refl) as (H1 & H2 & _).
  - unfold kBitPlanes. lia.
  - split; [exact H1 | exact H2].
Defined.


(** ** The further properties on concrete inputs *)

Lemma ValueAt_bijection_witness :
  (0 <= 14 < 16 /\ 0 <= 8 < 32 /\ 0 <= 2 < 11)
  /\ ValueAt fb_32x32 14 8 2 = 5000.
Proof.
  destruct (ValueAt_bijection fb_32x32 5000) as (Hr & Hv & _).
  - change (0 <= 16). lia.
  - change (0 <= 5000 < 16 * 32 * 11). lia.
  - split; [exact Hr | exact Hv].
Defined.

Lemma MapColor_linear_witness :
  MapColor default_flags fb_32x32_linear 200 = 800
  /\ 0 <= 800 <= 8 * 200
  /\ 800 <= 1016
  /\ Z.land 800 7 = 0.
Proof.
  destruct (MapColor_linear default_flags fb_32x32_linear 200 255 eq_refl)
    as (H1 & H2 & H3 & H4).
  - lia.
  - lia.
  - change (0 <= 50 <= 100). lia.
  - split; [exact H1|]. split; [exact H2|]. split; [exact H3 | exact H4].
Defined.

Lemma MapColor_black_witness :
  MapColor default_flags (with_brightness fb_32x32 37) 0 = 0.
Proof.
  apply (MapColor_black default_flags (with_brightness fb_32x32 37)).
  change (1 <= 37 <= 100). lia.
Defined.

Lemma Framebuffer_new_black_witness :
  pwm_bits_ fb_32x32 = 11 /\ brightness_ fb_32x32 = 100
  /\ do_luminance_correct_ fb_32x32 = true
  /\ read_back sample_pinout fb_32x32 3 21 = Some (0, 0, 0).
Proof.
  apply (Framebuffer_new_black default_flags sample_pinout eq_refl
           32 32 1 fb_32x32 3 21 fb_32x32_constructed); lia.
Defined.

Lemma InitGPIO_declared_fields_witness :
  get0 sample_pinout 197529488 IoBits0.d = true
  /\ get0 sample_pinout 197529488 IoBits0.e = false
  /\ get0 sample_pinout 197529488 IoBits0.p1_r1 = false.
Proof.
  destruct (InitGPIO_declared_fields default_flags sample_pinout eq_refl
              all_pins_gpio 32 1 197529488 0
              {| pulser_bits := 262144; pulser_timings := bitplane_timings |}
              eq_refl) as [H0 _].
  split; [exact (H0 IoBits0.d)|].
  split; [exact (H0 IoBits0.e) | exact (H0 IoBits0.p1_r1)].
Defined.

Lemma Fill_cells_witness :
  let fb := snd (SetPWMBits fb_32x32 4) in
  let fb' := Fill default_flags sample_pinout fb 255 0 0 in
  deref (bitplane_buffer_0 fb') (ValueAt fb 3 4 10)
  = Fill_plane_bits0 default_flags sample_pinout
      (MapColor default_flags fb 255) (MapColor default_flags fb 0)
      (MapColor default_flags fb 0) 10
  /\ deref (bitplane_buffer_0 fb') (ValueAt fb 3 4 6)
     = deref (bitplane_buffer_0 fb) (ValueAt fb 3 4 6).
Proof.
  cbv zeta.
  assert (Hwf : wf default_flags (snd (SetPWMBits fb_32x32 4))).
  { apply (calls_wf default_flags sample_pinout [CallSetPWMBits 4]
             fb_32x32 fb_32x32_wf). }
  assert (Hd : 0 <= 3 < double_rows_ (snd (SetPWMBits fb_32x32 4)))
    by (change (0 <= 3 < 16); lia).
  assert (Hc : 0 <= 4 < columns_ (snd (SetPWMBits fb_32x32 4)))
    by (change (0 <= 4 < 32); lia).
  assert (H10 : 0 <= 10 < kBitPlanes) by (unfold kBitPlanes; lia).
  assert (H6 : 0 <= 6 < kBitPlanes) by (unfold kBitPlanes; lia).
  pose proof (Fill_cells default_flags sample_pinout
                (snd (SetPWMBits fb_32x32 4)) 255 0 0 3 4 10 Hwf Hd Hc H10)
    as Hshown.
  pose proof (Fill_cells default_flags sample_pinout
                (snd (SetPWMBits fb_32x32 4)) 255 0 0 3 4 6 Hwf Hd Hc H6)
    as Hhidden.
  cbv zeta in Hshown, Hhidden.
  change (kBitPlanes - pwm_bits_ (snd (SetPWMBits fb_32x32 4)) <=? 10)
    with true in Hshown.
  change (kBitPlanes - pwm_bits_ (snd (SetPWMBits fb_32x32 4)) <=? 6)
    with false in Hhidden.
  split; [exact (proj1 Hshown) | exact (proj1 Hhidden)].
Defined.

Lemma Fill_read_back_witness :
  read_back sample_pinout
    (Fill default_flags sample_pinout fb_32x32 10 20 30) 3 21
  = Some
      (Z.land (MapColor default_flags fb_32x32 10) (shown_planes fb_32x32),
       Z.land (MapColor default_flags fb_32x32 20) (shown_planes fb_32x32),
       Z.land (MapColor default_flags fb_32x32 30) (shown_planes fb_32x32)).
Proof.
  apply (Fill_read_back default_flags sample_pinout eq_refl
           fb_32x32 10 20 30 3 21 fb_32x32_wf).
  - change (0 <= 3 < 32). lia.
  - change (0 <= 21 < 32). lia.
Defined.

Lemma Clear_read_back_witness :
  read_back sample_pinout
    (Clear default_flags sample_pinout
       (SetPixel default_flags sample_pinout fb_32x32 3 21 10 20 30)) 3 21
  = Some (0, 0, 0).
Proof.
  apply (Clear_read_back default_flags sample_pinout eq_refl
           (SetPixel default_flags sample_pinout fb_32x32 3 21 10 20 30)
           3 21).
  - apply (calls_wf default_flags sample_pinout
             [CallSetPixel 3 21 10 20 30] fb_32x32 fb_32x32_wf).
  - change (0 <= 3 < 32). lia.
  - change (0 <= 21 < 32). lia.
  - intros H. discriminate H.
Defined.

Lemma SetPixel_other_pixels_witness :
  read_back sample_pinout
    (SetPixel default_flags sample_pinout fb_32x32 3 5 255 0 0) 3 21
  = read_back sample_pinout fb_32x32 3 21.
Proof.
  apply (SetPixel_other_pixels default_flags sample_pinout eq_refl
           fb_32x32 3 5 255 0 0 3 21 fb_32x32_wf).
  - change (0 <= 3 < 32). lia.
  - change (0 <= 21 < 32). lia.
  - intros H. discriminate H.
Defined.

Lemma buffers_hold_colour_only_witness :
  let fb := calls default_flags sample_pinout fb_32x32
              [CallFill 255 255 255; CallSetPixel 0 0 1 2 3] in
  subset (deref (bitplane_buffer_0 fb) 0) (colour_mask0 sample_pinout)
  /\ subset (deref (bitplane_buffer_1 fb) 0) (colour_mask1 sample_pinout)
  /\ get0 sample_pinout (deref (bitplane_buffer_0 fb) 0) IoBits0.clock
     = false.
Proof.
  apply (buffers_hold_colour_only default_flags sample_pinout eq_refl
           32 32 1 fb_32x32
           [CallFill 255 255 255; CallSetPixel 0 0 1 2 3] 0 IoBits0.clock
           fb_32x32_constructed).
  intros H. cbn in H.
  repeat (destruct H as [H | H]; [discriminate H|]). exact H.
Defined.

Lemma mutators_keep_geometry_witness :
  let fb := calls default_flags sample_pinout fb_32x32
              [CallSetPWMBits 3; CallFill 1 2 3; CallSetPWMBits 200] in
  rows_ fb = 32 /\ columns_ fb = 32 /\ parallel_ fb = 1
  /\ height_ fb = 32 * 1
  /\ 1 <= pwm_bits_ fb <= 11.
Proof.
  destruct (mutators_keep_geometry default_flags sample_pinout 32 32 1
              fb_32x32
              [CallSetPWMBits 3; CallFill 1 2 3; CallSetPWMBits 200]
              fb_32x32_constructed)
    as (H1 & H2 & H3 & H4 & _ & _ & _ & H8 & _).
  cbv zeta.
  split; [exact H1|]. split; [exact H2|]. split; [exact H3|].
  split; [exact H4 | exact H8].
Defined.

Lemma row_address_rows_witness :
  (set_row_address sample_pinout 0 5 = set_row_address sample_pinout 0 21 ->
   5 = 21)
  /\ set_row_address sample_pinout 0 (5 + 32)
     = set_row_address sample_pinout 0 5.
Proof.
  apply (row_address_rows sample_pinout eq_refl 5 21); lia.
Defined.

Lemma DumpToMatrix_pulser_order_witness :
  pulser_run sample_pinout false
    (DumpToMatrix_during default_flags sample_pinout fb_32x32
       (fun d_row =>
          if d_row <? 8 then fb_32x32 else snd (SetPWMBits fb_32x32 3)))
  = Some false.
Proof.
  exact (DumpToMatrix_pulser_order default_flags sample_pinout eq_refl
           fb_32x32
           (fun d_row =>
              if d_row <? 8 then fb_32x32
              else snd (SetPWMBits fb_32x32 3))).
Defined.

Lemma DumpToMatrix_size_witness :
  Z.of_nat (length (DumpToMatrix default_flags sample_pinout fb_32x32))
  = 16 * (2 + 11 * (2 * 32 + 5))
  /\ pulses (DumpToMatrix default_flags sample_pinout fb_32x32)
     = flat_map (fun _ => range (11 - 11) 11) (range 0 16).
Proof.
  apply (DumpToMatrix_size default_flags sample_pinout eq_refl fb_32x32).
  - change (0 <= 16). lia.
  - change (0 <= 32). lia.
  - change (0 <= 11 <= 11). lia.
Defined.

Lemma DumpToMatrix_column_values_witness :
  column_values sample_pinout
    (DumpToMatrix default_flags sample_pinout fb_32x32)
  = flat_map
      (fun d_row =>
         flat_map
           (fun b =>
              map (fun col =>
                     (deref (bitplane_buffer_0 fb_32x32)
                            (ValueAt fb_32x32 d_row col b), 0))
                  (range 0 32))
           (range (11 - 11) 11))
      (range 0 16).
Proof.
  exact (DumpToMatrix_column_values default_flags sample_pinout eq_refl
           fb_32x32).
Defined.

(** A fill with (128, 0, 0) at 11 planes gives red the value 380, which
    has plane 8 and not plane 10; shown with one plane, the object shows
    what the blank object shows. *)
Lemma with_pwm_bits_fields fb v :
  columns_ (with_pwm_bits fb v) = columns_ fb
  /\ parallel_ (with_pwm_bits fb v) = parallel_ fb
  /\ double_rows_ (with_pwm_bits fb v) = double_rows_ fb
  /\ pwm_bits_ (with_pwm_bits fb v) = v
  /\ bitplane_buffer_0 (with_pwm_bits fb v) = bitplane_buffer_0 fb
  /\ bitplane_buffer_1 (with_pwm_bits fb v) = bitplane_buffer_1 fb
  /\ forall d c p, ValueAt (with_pwm_bits fb v) d c p = ValueAt fb d c p.
Proof. repeat split. Qed.

Lemma SetPWMBits_1 fb : snd (SetPWMBits fb 1) = with_pwm_bits fb 1.
Proof. reflexivity. Qed.

Lemma dim_fill_same_shown :
  same_shown
    (snd (SetPWMBits fb_32x32 1))
    (snd (SetPWMBits
            (Fill default_flags sample_pinout fb_32x32 128 0 0) 1)).
Proof.
  destruct (Fill_spec default_flags sample_pinout fb_32x32 128 0 0)
    as (_ & E2 & _ & E4 & _ & E6 & _ & _ & L1 & _).
  cbv zeta in E2, E4, E6, L1.
  rewrite !SetPWMBits_1. unfold same_shown.
  destruct (with_pwm_bits_fields fb_32x32 1)
    as (-> & -> & -> & -> & -> & -> & Pv).
  destruct (with_pwm_bits_fields
              (Fill default_flags sample_pinout fb_32x32 128 0 0) 1)
    as (-> & -> & -> & -> & -> & -> & _).
  split; [exact E4|]. split; [exact E2|]. split; [exact E6|].
  split; [reflexivity|].
  intros d c p Hd Hc Hp. rewrite Pv.
  assert (p = 10) as -> by (unfold kBitPlanes in Hp; lia).
  split.
  - destruct (Fill_cell_words default_flags sample_pinout fb_32x32 128 0 0
                d c 10 fb_32x32_wf Hd Hc) as [H _];
      [unfold kBitPlanes; lia|].
    cbv zeta in H. rewrite H.
    change (kBitPlanes - pwm_bits_ fb_32x32 <=? 10) with true.
    cbv iota.
    unfold fb_32x32 at 4. cbn [bitplane_buffer_0].
    rewrite deref_replicate_0. lazy. reflexivity.
  - destruct (bitplane_buffer_1
                (Fill default_flags sample_pinout fb_32x32 128 0 0));
      [reflexivity | discriminate L1].
Qed.

Lemma dim_fill_hidden_plane :
  get0 sample_pinout
    (deref
       (bitplane_buffer_0
          (snd (SetPWMBits
                  (Fill default_flags sample_pinout fb_32x32 128 0 0) 1)))
       (ValueAt (snd (SetPWMBits fb_32x32 1)) 0 0 8))
    IoBits0.p0_r1
  = true.
Proof.
  rewrite !SetPWMBits_1.
  destruct (with_pwm_bits_fields fb_32x32 1)
    as (_ & _ & _ & _ & _ & _ & ->).
  destruct (with_pwm_bits_fields
              (Fill default_flags sample_pinout fb_32x32 128 0 0) 1)
    as (_ & _ & _ & _ & -> & _).
  destruct (Fill_cell_words default_flags sample_pinout fb_32x32 128 0 0
              0 0 8 fb_32x32_wf) as [H _].
  - change (0 <= 0 < 16). lia.
  - change (0 <= 0 < 32). lia.
  - unfold kBitPlanes. lia.
  - cbv zeta in H. rewrite H. lazy. reflexivity.
Qed.

Lemma DumpToMatrix_same_shown_witness :
  let fb := snd (SetPWMBits fb_32x32 1) in
  let fb' :=
    snd (SetPWMBits
           (Fill default_flags sample_pinout fb_32x32 128 0 0) 1) in
  get0 sample_pinout (deref (bitplane_buffer_0 fb) (ValueAt fb 0 0 8))
    IoBits0.p0_r1
  = false
  /\ get0 sample_pinout (deref (bitplane_buffer_0 fb') (ValueAt fb 0 0 8))
       IoBits0.p0_r1
     = true
  /\ DumpToMatrix default_flags sample_pinout fb'
     = DumpToMatrix default_flags sample_pinout fb.
Proof.
  cbv zeta. split; [reflexivity|]. split; [exact dim_fill_hidden_plane|].
  exact (DumpToMatrix_same_shown default_flags sample_pinout eq_refl
           (snd (SetPWMBits fb_32x32 1))
           (snd (SetPWMBits
                   (Fill default_flags sample_pinout fb_32x32 128 0 0) 1))
           dim_fill_same_shown).
Defined.

Lemma Clear_DumpToMatrix_zero_witness :
  let fb := SetPixel default_flags sample_pinout fb_32x32 0 0 255 255 255 in
  let v := (deref (bitplane_buffer_0 (Clear default_flags sample_pinout fb))
                  (ValueAt fb 0 0 10), 0) in
  In v (column_values sample_pinout
          (DumpToMatrix default_flags sample_pinout
             (Clear default_flags sample_pinout fb)))
  /\ v = (0, 0).
Proof.
  cbv zeta.
  set (fb := SetPixel default_flags sample_pinout fb_32x32 0 0 255 255 255).
  assert (Hin :
            In (deref (bitplane_buffer_0
                         (Clear default_flags sample_pinout fb))
                      (ValueAt fb 0 0 10), 0)
               (column_values sample_pinout
                  (DumpToMatrix default_flags sample_pinout
                     (Clear default_flags sample_pinout fb)))).
  { rewrite (column_values_DumpToMatrix default_flags sample_pinout eq_refl).
    apply in_flat_map. exists 0.
    split; [apply In_range; change (0 <= 0 < 16); lia|].
    apply in_flat_map. exists 10.
    split; [apply In_range; change (11 - 11 <= 10 < 11); lia|].
    apply in_map_iff. exists 0.
    split; [reflexivity | apply In_range; change (0 <= 0 < 32); lia]. }
  split; [exact Hin|].
  apply (Clear_DumpToMatrix_zero default_flags sample_pinout eq_refl fb _
           eq_refl).
  - apply (calls_wf default_flags sample_pinout
             [CallSetPixel 0 0 255 255 255] fb_32x32 fb_32x32_wf).
  - exact Hin.
Defined.

Lemma DumpToMatrix_pin_groups_witness :
  let c := SetBits (strobe_bits sample_pinout) 0 in
  InitGPIO default_flags sample_pinout all_pins_gpio 32 1 None
  = Initialized 197529488 0
      {| pulser_bits := 262144; pulser_timings := bitplane_timings |}
  /\ In c (DumpToMatrix default_flags sample_pinout fb_32x32)
  /\ subset 262144 197529488
  /\ Z.land (strobe_bits sample_pinout) 262144 = 0
  /\ Z.land (strobe_bits sample_pinout) (row_mask sample_pinout) = 0.
Proof.
  cbv zeta.
  assert (Hinit :
            InitGPIO default_flags sample_pinout all_pins_gpio
              (rows_ fb_32x32) (parallel_ fb_32x32) None
            = Initialized 197529488 0
                {| pulser_bits := 262144;
                   pulser_timings := bitplane_timings |})
    by reflexivity.
  assert (Hin : In (SetBits (strobe_bits sample_pinout) 0)
                   (DumpToMatrix default_flags sample_pinout fb_32x32)).
  { unfold DumpToMatrix.
    rewrite (DumpToMatrix_during_rows default_flags sample_pinout eq_refl).
    apply in_flat_map. exists 0.
    split; [apply In_range; unfold fb_32x32, kBitPlanes; cbn; lia|].
    right. apply in_or_app. left.
    apply in_flat_map. exists 0.
    split; [apply In_range; unfold fb_32x32, kBitPlanes; cbn; lia|].
    apply in_or_app. right. do 2 right. left. reflexivity. }
  destruct (DumpToMatrix_pin_groups default_flags sample_pinout
              eq_refl fb_32x32 all_pins_gpio _ _ _ _ _ _
              Hinit Hin eq_refl) as (H1 & H2 & H3 & _).
  split; [exact Hinit|]. split; [exact Hin|]. split; [exact H1|].
  split; [exact H2|]. apply H3. reflexivity.
Defined.
